(** * Receipt printing subsystem of the point-of-sale app

    A shallow embedding of
    - [src/services/printer/ESCPOSEncoder.ts] (command encoder),
    - [src/services/printer/PrinterStorage.ts] (configuration store),
    - [src/services/printer/PrinterService.ts] (print orchestrator),
    followed by the properties established about them.

    Conventions.  A JavaScript string is the list of its UTF-16 code
    units.  The lengths the layout code computes are integers, so the
    arithmetic [Math.max], [Math.floor (x / 2)] and subtraction is done
    in [Z].  A call that may throw returns a [completion]. *)

From Stdlib Require Import ZArith NArith List Bool Lia Ascii String DecimalString DecimalPos.
Import ListNotations.

Set Implicit Arguments.

(* ================================================================== *)
(** * JavaScript strings and completions *)
(* ================================================================== *)

Module JS.

(** One UTF-16 code unit. *)
Definition char := N.

(** [String]: a sequence of code units. *)
Definition str := list char.

(** A literal of this development, written with the code units of a
    Latin-1 text. *)
Definition lit (s : String.string) : str :=
  List.map N_of_ascii (list_ascii_of_string s).

Definition SPACE : char := 32%N.

(** [s.length] *)
Definition length (s : str) : Z := Z.of_nat (List.length s).

Definition char_eqb : char -> char -> bool := N.eqb.

Fixpoint eqb (a b : str) : bool :=
  match a, b with
  | [], [] => true
  | x :: a', y :: b' => char_eqb x y && eqb a' b'
  | _, _ => false
  end.

(** ToBoolean on a string: the empty string is the only falsy one. *)
Definition truthy (s : str) : bool :=
  match s with [] => false | _ => true end.

(** Errors thrown by the code under study. *)
Inductive error : Type :=
| RangeError (message : str)
| TypeError (message : str)
| Error (message : str).

Definition message (e : error) : str :=
  match e with
  | RangeError m => m
  | TypeError m => m
  | Error m => m
  end.

(** The outcome of evaluating a call: a value, or a thrown error. *)
Inductive completion (A : Type) : Type :=
| Normal (value : A)
| Throw (e : error).

Arguments Normal {A} value.
Arguments Throw {A} e.

Definition bind {A B} (c : completion A) (k : A -> completion B) : completion B :=
  match c with
  | Normal a => k a
  | Throw e => Throw e
  end.

Definition returns {A} (c : completion A) : bool :=
  match c with Normal _ => true | Throw _ => false end.

(** [String.prototype.repeat]: a negative count throws a [RangeError]. *)
Definition repeat (s : str) (count : Z) : completion str :=
  if (count <? 0)%Z then Throw (RangeError (lit "Invalid count value"))
  else Normal (List.concat (List.repeat s (Z.to_nat count))).

(** The padding both [padEnd] and [padStart] compute when the filler is
    the default single space: nothing when the string is long enough. *)
Definition padding (s : str) (targetLength : Z) : str :=
  List.repeat SPACE (Z.to_nat (targetLength - length s)).

(** [s.padEnd(targetLength)] *)
Definition padEnd (s : str) (targetLength : Z) : str := s ++ padding s targetLength.

(** [s.padStart(targetLength)] *)
Definition padStart (s : str) (targetLength : Z) : str := padding s targetLength ++ s.

(** [s.slice(0, end)]: a negative [end] counts from the end of [s]. *)
Definition slice0 (s : str) (end_ : Z) : str :=
  let stop := if (end_ <? 0)%Z then Z.max (length s + end_) 0 else Z.min end_ (length s) in
  List.firstn (Z.to_nat stop) s.

(** [s.substring(0, end)]: a negative [end] is taken as 0. *)
Definition substring0 (s : str) (end_ : Z) : str :=
  List.firstn (Z.to_nat (Z.min (Z.max end_ 0) (length s))) s.

(** [s.split(sep)] for a separator of one code unit. *)
Fixpoint split (sep : char) (s : str) : list str :=
  match s with
  | [] => [[]]
  | c :: rest =>
      if char_eqb c sep then [] :: split sep rest
      else match split sep rest with
           | w :: ws => (c :: w) :: ws
           | [] => [[c]]
           end
  end.

(** [parts.join(sep)] *)
Fixpoint join (sep : str) (parts : list str) : str :=
  match parts with
  | [] => []
  | [p] => p
  | p :: ps => p ++ sep ++ join sep ps
  end.

(** WhiteSpace and LineTerminator code points of ECMAScript, the ones
    [trim] removes. *)
Definition is_whitespace (c : char) : bool :=
  ((9 <=? c) && (c <=? 13) || (c =? 32) || (c =? 160) || (c =? 5760)
   || (8192 <=? c) && (c <=? 8202) || (c =? 8232) || (c =? 8233)
   || (c =? 8239) || (c =? 8287) || (c =? 12288) || (c =? 65279))%N.

Fixpoint trimStart (s : str) : str :=
  match s with
  | [] => []
  | c :: rest => if is_whitespace c then trimStart rest else s
  end.

Definition trimEnd (s : str) : str := List.rev (trimStart (List.rev s)).

(** [s.trim()] *)
Definition trim (s : str) : str := trimStart (trimEnd s).

(** [new TextEncoder().encode(s)]: UTF-8, a surrogate pair giving one
    four-byte sequence and a lone surrogate U+FFFD. *)
Fixpoint utf8 (s : str) : list Z :=
  match s with
  | [] => []
  | c :: rest =>
      let z := Z.of_N c in
      if (c <? 128)%N then z :: utf8 rest
      else if (c <? 2048)%N then
        (192 + z / 64)%Z :: (128 + z mod 64)%Z :: utf8 rest
      else if ((55296 <=? c) && (c <? 56320))%N then
        match rest with
        | d :: rest' =>
            if ((56320 <=? d) && (d <? 57344))%N then
              let cp := (65536 + (z - 55296) * 1024 + (Z.of_N d - 56320))%Z in
              (240 + cp / 262144)%Z :: (128 + (cp / 4096) mod 64)%Z
                :: (128 + (cp / 64) mod 64)%Z :: (128 + cp mod 64)%Z :: utf8 rest'
            else 239%Z :: 191%Z :: 189%Z :: utf8 rest
        | [] => [239; 191; 189]%Z
        end
      else if ((56320 <=? c) && (c <? 57344))%N then
        239%Z :: 191%Z :: 189%Z :: utf8 rest
      else
        (224 + z / 4096)%Z :: (128 + (z / 64) mod 64)%Z :: (128 + z mod 64)%Z :: utf8 rest
  end.

End JS.

Declare Scope js_scope.
Delimit Scope js_scope with js.
Notation "x <- c ;; k" := (JS.bind c (fun x => k))
  (at level 61, c at next level, right associativity) : js_scope.

(* ================================================================== *)
(** * Numbers of the runtime *)
(* ================================================================== *)

(** The encoder formats [number] values with the runtime's own
    conversions.  They are taken as an interface: what the encoder does
    with their results is what is modelled. *)
Class Numbers : Type := {
  number : Type;
  (** [String(x)] and [`${x}`] on a number *)
  ToString : number -> JS.str;
  (** [Number(s)] on a string *)
  ToNumber : JS.str -> number;
  (** [Math.round(x)] *)
  Math_round : number -> number;
  (** ToBoolean on a number: false on 0 and NaN *)
  ToBoolean : number -> bool;
  (** [x > 0] *)
  gt_zero : number -> bool;
  (** [x + y] *)
  add : number -> number -> number;
  zero : number
}.

(* ================================================================== *)
(** * src/types/printer.ts *)
(* ================================================================== *)

Module Types.
Import JS.

Inductive PrinterConnectionType : Type := bluetooth | usb | network | wifi.

Module PrinterStatus.
Inductive t : Type := disconnected | connecting | connected | printing | error.
Definition eqb (a b : t) : bool :=
  match a, b with
  | disconnected, disconnected | connecting, connecting | connected, connected
  | printing, printing | error, error => true
  | _, _ => false
  end.
End PrinterStatus.

Inductive PrintJobType : Type := KOT | INVOICE | BARCODE | BARCODE_LABEL.

(** [paperWidth: 58 | 80] *)
Inductive PaperWidth : Type := mm58 | mm80.

Module PrinterConfig.
Record t : Type := {
  id : str;
  name : str;
  type : PrinterConnectionType;
  address : str;
  isDefault : bool;
  paperWidth : PaperWidth;
  lastConnected : option Z
}.
End PrinterConfig.

Module JobStatus.
Inductive t : Type := pending | printing | completed | failed.
Definition eqb (a b : t) : bool :=
  match a, b with
  | pending, pending | printing, printing | completed, completed | failed, failed => true
  | _, _ => false
  end.
End JobStatus.

Module PrintJob.
Record t (Payload : Type) : Type := {
  id : str;
  type : PrintJobType;
  payload : Payload;
  timestamp : Z;
  status : JobStatus.t;
  retryCount : Z;
  error : option str
}.
End PrintJob.

Record BluetoothDevice : Type := {
  device_id : str;
  device_name : str;
  device_address : str;
  rssi : option Z;
  paired : bool
}.

Inductive PaymentMethod : Type := cash | card | mobile_banking | mixed.

Section WithNumbers.
Context {Num : Numbers}.

(** [specialNotes?: number | string] *)
Inductive NumberOrString : Type :=
| a_number (n : number)
| a_string (s : str).

(** The fields of the documents that the encoder reads. *)
Record InvoiceItem : Type := {
  productName : str;
  details : str;
  quantity : number;
  subtotal : number
}.

Record Customer : Type := { customer_name : str; customer_phone : str }.

Record Summary : Type := { total : str }.

Record Payment : Type := {
  method : PaymentMethod;
  payment_status : str;
  paidAmount : number;
  remainingAmount : number
}.

Record BusinessInfo : Type := {
  business_name : str;
  business_address : str;
  business_phone : str
}.

Record InvoiceData : Type := {
  invoiceNumber : str;
  guestNumber : option number;
  specialNotes : option NumberOrString;
  tableNumber : option str;
  date : str;
  customer : Customer;
  items : list InvoiceItem;
  summary : Summary;
  payment : Payment;
  businessInfo : BusinessInfo
}.

(** [type KOTData = InvoiceData] *)
Definition KOTData : Type := InvoiceData.

Record BarcodeData : Type := {
  sku : str;
  brandName : option str;
  categoryName : option str;
  modelNo : option str;
  shopName : option str
}.

End WithNumbers.
End Types.

(* ================================================================== *)
(** * src/services/printer/ESCPOSEncoder.ts *)
(* ================================================================== *)

Module ESCPOSEncoder.
Import JS Types.
Local Open Scope Z_scope.
Local Open Scope js_scope.

Definition ESC : Z := 0x1b.
Definition GS : Z := 0x1d.
Definition LF : Z := 0x0a.

Module COMMANDS.
Definition INIT : list Z := [ESC; 0x40].
Definition BOLD_ON : list Z := [ESC; 0x45; 0x01].
Definition BOLD_OFF : list Z := [ESC; 0x45; 0x00].
Definition ALIGN_LEFT : list Z := [ESC; 0x61; 0x00].
Definition ALIGN_CENTER : list Z := [ESC; 0x61; 0x01].
Definition ALIGN_RIGHT : list Z := [ESC; 0x61; 0x02].
Definition SIZE_NORMAL : list Z := [GS; 0x21; 0x00].
Definition SIZE_DOUBLE_HEIGHT : list Z := [GS; 0x21; 0x01].
Definition SIZE_DOUBLE_WIDTH : list Z := [GS; 0x21; 0x10].
Definition SIZE_DOUBLE : list Z := [GS; 0x21; 0x11].
Definition LINE_FEED : list Z := [LF].
Definition CUT_PARTIAL : list Z := [GS; 0x56; 0x01].
Definition CUT_FULL : list Z := [GS; 0x56; 0x00].
Definition FEED_AND_CUT : list Z := [ESC; 0x64; 0x03; GS; 0x56; 0x00].
End COMMANDS.

(** [PAPER_CONFIG[paperWidth].charsPerLine] *)
Definition PAPER_CONFIG (paperWidth : PaperWidth) : Z :=
  match paperWidth with mm58 => 32 | mm80 => 48 end.

(** The fields of an encoder object; [buffer] is a [number[]]. *)
Record t : Type := {
  buffer : list Z;
  paperWidth : PaperWidth;
  charsPerLine : Z
}.

Definition push (this : t) (bytes : list Z) : t :=
  {| buffer := buffer this ++ bytes;
     paperWidth := paperWidth this;
     charsPerLine := charsPerLine this |}.

Definition initialize (this : t) : t := push this COMMANDS.INIT.

(** [new ESCPOSEncoder(paperWidth)] *)
Definition new (paperWidth : PaperWidth) : t :=
  initialize {| buffer := []; paperWidth := paperWidth;
                charsPerLine := PAPER_CONFIG paperWidth |}.

Definition raw (this : t) (bytes : list Z) : t := push this bytes.

Definition text (this : t) (content : str) : t := push this (utf8 content).

Definition line (this : t) (content : str) : t := push (text this content) [LF].

Definition bold (this : t) (enabled : bool) : t :=
  raw this (if enabled then COMMANDS.BOLD_ON else COMMANDS.BOLD_OFF).

Inductive Alignment : Type := Left | Center | Right.

Definition align (this : t) (alignment : Alignment) : t :=
  raw this match alignment with
           | Center => COMMANDS.ALIGN_CENTER
           | Right => COMMANDS.ALIGN_RIGHT
           | Left => COMMANDS.ALIGN_LEFT
           end.

Inductive Size : Type := normal | double | double_height | double_width.

Definition size (this : t) (sz : Size) : t :=
  raw this match sz with
           | double => COMMANDS.SIZE_DOUBLE
           | double_height => COMMANDS.SIZE_DOUBLE_HEIGHT
           | double_width => COMMANDS.SIZE_DOUBLE_WIDTH
           | normal => COMMANDS.SIZE_NORMAL
           end.

(** [for (let i = 0; i < lines; i++) this.buffer.push(LF)] *)
Definition feed (this : t) (lines : Z) : t :=
  push this (List.repeat LF (Z.to_nat lines)).

Definition cut (this : t) (partial : bool) : t :=
  raw (feed this 3) (if partial then COMMANDS.CUT_PARTIAL else COMMANDS.CUT_FULL).

Definition separator (this : t) (char : str) : completion t :=
  s <- repeat char (charsPerLine this) ;;
  Normal (line this s).

Definition twoColumn (this : t) (left right : str) : completion t :=
  let space := Z.max (charsPerLine this - length left - length right) 1 in
  gap <- repeat [SPACE] space ;;
  Normal (line this (left ++ gap ++ right)).

Definition threeColumn (this : t) (left center right : str) : completion t :=
  let totalLen := length left + length center + length right in
  let remainingSpace := charsPerLine this - totalLen in
  let leftSpace := remainingSpace / 2 in
  let rightSpace := remainingSpace - leftSpace in
  leftGap <- repeat [SPACE] leftSpace ;;
  rightGap <- repeat [SPACE] rightSpace ;;
  Normal (line this (left ++ leftGap ++ center ++ rightGap ++ right)).

Definition centerText (this : t) (content : str) : completion t :=
  let padding := Z.max 0 ((charsPerLine this - length content) / 2) in
  pad <- repeat [SPACE] padding ;;
  Normal (line this (pad ++ content)).

(** One turn of the loop of [wrap], on the encoder and [currentLine]. *)
Definition wrap_word (state : t * str) (word : str) : t * str :=
  let (this, currentLine) := state in
  if length (trim (currentLine ++ [SPACE] ++ word)) <=? charsPerLine this
  then (this, trim (currentLine ++ [SPACE] ++ word))
  else ((if truthy currentLine then line this currentLine else this), word).

Definition wrap (this : t) (content : str) : t :=
  let words := split SPACE content in
  let (this', currentLine) := List.fold_left wrap_word words (this, ([] : str)) in
  if truthy currentLine then line this' currentLine else this'.

(** [new Uint8Array(this.buffer)]: every element is taken modulo 256. *)
Definition encode (this : t) : list Z := List.map (fun b => b mod 256) (buffer this).

Definition reset (this : t) : t :=
  initialize {| buffer := []; paperWidth := paperWidth this;
                charsPerLine := charsPerLine this |}.

Definition printBarcode (this : t) (data : str) : t :=
  let this := raw this [GS; 0x68; 50] in
  let this := raw this [GS; 0x77; 2] in
  let this := raw this [GS; 0x48; 2] in
  let barcodeData := utf8 data in
  let cmd := List.map (fun b => b mod 256)
               ([GS; 0x6b; 73; Z.of_nat (List.length barcodeData)] ++ barcodeData) in
  raw this cmd.

Section Generators.
Context {Num : Numbers}.

(** [new Date(s).toLocaleString()], which depends on the locale and the
    time zone of the device. *)
Variable Date_toLocaleString : str -> str.

(** [paperWidth === 58 ? 32 : 48] *)
Definition WIDTH (paperWidth : PaperWidth) : Z :=
  match paperWidth with mm58 => 32 | mm80 => 48 end.

Definition QTY_WIDTH : Z := 5.
Definition TOTAL_WIDTH : Z := 10.

(** [ITEM_WIDTH] of [generateKOT] *)
Definition KOT_ITEM_WIDTH (paperWidth : PaperWidth) : Z := WIDTH paperWidth - QTY_WIDTH - 2.

(** [ITEM_WIDTH] of [generateInvoice] *)
Definition INVOICE_ITEM_WIDTH (paperWidth : PaperWidth) : Z :=
  WIDTH paperWidth - QTY_WIDTH - TOTAL_WIDTH.

(** The text of the first line of an item of a kitchen ticket. *)
Definition generateKOT_row (paperWidth : PaperWidth) (item : InvoiceItem) : str :=
  let qty := padEnd (ToString (quantity item) ++ lit "x") QTY_WIDTH in
  let name := slice0 (productName item) (KOT_ITEM_WIDTH paperWidth) in
  qty ++ name.

(** The text of the line of the details of an item, in both documents. *)
Definition details_row (paperWidth : PaperWidth) (item : InvoiceItem) : str :=
  lit "     " ++ slice0 (details item) (WIDTH paperWidth - 5).

(** The callback of [data.items.forEach] in [generateKOT]. *)
Definition generateKOT_item (paperWidth : PaperWidth) (encoder : t) (item : InvoiceItem) : t :=
  let encoder := line encoder (generateKOT_row paperWidth item) in
  if truthy (details item) then line encoder (details_row paperWidth item) else encoder.

Definition String_of (v : NumberOrString) : str :=
  match v with a_number n => ToString n | a_string s => s end.

Definition truthy_value (v : NumberOrString) : bool :=
  match v with a_number n => ToBoolean n | a_string s => truthy s end.

Definition generateKOT (data : KOTData) (paperWidth : PaperWidth) : completion (list Z) :=
  let encoder := new paperWidth in
  let encoder := align encoder Center in
  let encoder := bold encoder true in
  let encoder := line encoder (business_name (businessInfo data)) in
  let encoder := bold encoder false in
  let encoder := size encoder double in
  let encoder := line encoder (lit "KITCHEN ORDER TICKET") in
  let encoder := size encoder normal in
  let encoder := line encoder (Date_toLocaleString (date data)) in
  encoder <- separator encoder (lit "-") ;;
  let encoder := align encoder Left in
  let encoder :=
    match tableNumber data with
    | Some n => if truthy n then line encoder (lit "Table : " ++ n) else encoder
    | None => encoder
    end in
  let encoder :=
    match guestNumber data with
    | Some n => if ToBoolean n then line encoder (lit "Guests: " ++ ToString n) else encoder
    | None => encoder
    end in
  encoder <- separator encoder (lit "-") ;;
  let encoder := bold encoder true in
  let encoder := line encoder (padEnd (lit "QTY ") QTY_WIDTH ++ lit "ITEM") in
  let encoder := bold encoder false in
  let encoder := List.fold_left (generateKOT_item paperWidth) (items data) encoder in
  encoder <- separator encoder (lit "-") ;;
  let totalQty := List.fold_left (fun sum item => add sum (quantity item)) (items data) zero in
  let encoder := bold encoder true in
  let encoder := line encoder (lit "Total Items: " ++ ToString totalQty) in
  let encoder :=
    match specialNotes data with
    | Some notes =>
        if truthy_value notes && truthy (trim (String_of notes)) then
          let encoder := feed encoder 1 in
          let encoder := bold encoder true in
          let encoder := line encoder (lit "SPECIAL INSTRUCTIONS:") in
          let encoder := bold encoder false in
          wrap encoder (String_of notes)
        else encoder
    | None => encoder
    end in
  let encoder := cut encoder false in
  Normal (encode encoder).

(** The text of the first line of an item of an invoice. *)
Definition generateInvoice_row (paperWidth : PaperWidth) (item : InvoiceItem) : str :=
  let qty := padEnd (ToString (quantity item) ++ lit "x") QTY_WIDTH in
  let name := slice0 (productName item) (INVOICE_ITEM_WIDTH paperWidth - 2) in
  let total := padStart (ToString (Math_round (subtotal item))) (TOTAL_WIDTH - 2) in
  qty ++ padEnd name (INVOICE_ITEM_WIDTH paperWidth - 1) ++ lit ".." ++ total.

(** The callback of [data.items.forEach] in [generateInvoice]. *)
Definition generateInvoice_item (paperWidth : PaperWidth) (encoder : t) (item : InvoiceItem) : t :=
  let encoder := line encoder (generateInvoice_row paperWidth item) in
  if truthy (details item) then line encoder (details_row paperWidth item) else encoder.

(** [method === "mobile_banking" ? "Mobile Banking" : method.toUpperCase()] *)
Definition paymentMethod_text (m : PaymentMethod) : str :=
  match m with
  | mobile_banking => lit "Mobile Banking"
  | cash => lit "CASH"
  | card => lit "CARD"
  | mixed => lit "MIXED"
  end.

(** The text of the line [TOTAL:] of the summary of an invoice. *)
Definition summary_total_text (data : InvoiceData) : str :=
  ToString (ToNumber (total (summary data))).

Definition generateInvoice (data : InvoiceData) (paperWidth : PaperWidth) : completion (list Z) :=
  let encoder := new paperWidth in
  let encoder := align encoder Center in
  let encoder := bold encoder true in
  let encoder := line encoder (business_name (businessInfo data)) in
  let encoder := bold encoder false in
  let encoder := line encoder (business_address (businessInfo data)) in
  let encoder := line encoder (lit "Tel: " ++ business_phone (businessInfo data)) in
  encoder <- separator encoder (lit "-") ;;
  let encoder := bold encoder true in
  let encoder := line encoder (lit "INVOICE") in
  let encoder := bold encoder false in
  let encoder := align encoder Left in
  let encoder := line encoder (lit "Invoice : #" ++ invoiceNumber data) in
  let encoder := line encoder (lit "Date    : " ++ Date_toLocaleString (date data)) in
  let encoder :=
    match tableNumber data with
    | Some n => if truthy n then line encoder (lit "Table   : " ++ n) else encoder
    | None => encoder
    end in
  let encoder :=
    match guestNumber data with
    | Some n => if ToBoolean n then line encoder (lit "Guests  : " ++ ToString n) else encoder
    | None => encoder
    end in
  let encoder := line encoder (lit "Customer: " ++ customer_name (customer data)) in
  let encoder := line encoder (lit "Phone   : " ++ customer_phone (customer data)) in
  encoder <- separator encoder (lit "-") ;;
  let encoder := bold encoder true in
  let encoder :=
    line encoder (padEnd (lit "QTY ") QTY_WIDTH
                  ++ padEnd (lit "ITEM") (INVOICE_ITEM_WIDTH paperWidth)
                  ++ padStart (lit "TOTAL") TOTAL_WIDTH) in
  let encoder := bold encoder false in
  let encoder := List.fold_left (generateInvoice_item paperWidth) (items data) encoder in
  encoder <- separator encoder (lit "-") ;;
  let encoder := bold encoder true in
  encoder <- twoColumn encoder (lit "TOTAL:") (summary_total_text data) ;;
  let encoder := bold encoder false in
  let encoder := feed encoder 1 in
  encoder <- twoColumn encoder (lit "Payment Method:") (paymentMethod_text (method (payment data))) ;;
  encoder <- twoColumn encoder (lit "Payment Status:") (payment_status (payment data)) ;;
  let encoder := bold encoder true in
  encoder <- twoColumn encoder (lit "Paid Amount:") (ToString (paidAmount (payment data))) ;;
  encoder <-
    (if gt_zero (remainingAmount (payment data))
     then twoColumn encoder (lit "Remaining:") (ToString (remainingAmount (payment data)))
     else Normal encoder) ;;
  encoder <- separator encoder (lit "-") ;;
  let encoder := align encoder Center in
  let encoder := bold encoder true in
  let encoder := line encoder (lit "THANK YOU!") in
  let encoder := cut encoder false in
  Normal (encode encoder).

(** [[a, b, c].filter(Boolean)]: the fields that are present and not empty. *)
Definition present (fields : list (option str)) : list str :=
  List.flat_map (fun f => match f with
                          | Some s => if truthy s then [s] else []
                          | None => []
                          end) fields.

Definition generateBarcodeLabel (data : BarcodeData) (paperWidth : PaperWidth) : completion (list Z) :=
  let encoder := new paperWidth in
  let topText := join (lit " / ") (present [brandName data; categoryName data; modelNo data]) in
  let encoder := align encoder Center in
  let encoder := line encoder (substring0 topText (match paperWidth with mm58 => 28 | mm80 => 44 end)) in
  let encoder := bold encoder true in
  let encoder :=
    line encoder (lit "SHOP: " ++ match shopName data with Some s => s | None => [] end) in
  let encoder := bold encoder false in
  let encoder := feed encoder 1 in
  let encoder := printBarcode encoder (sku data) in
  let encoder := cut (feed encoder 2) false in
  Normal (encode encoder).

End Generators.
End ESCPOSEncoder.

(* ================================================================== *)
(** * Integer-valued numbers *)
(* ================================================================== *)

(** The numbers that are integers, with NaN: the conversions below are
    those of ECMAScript on integers that a double holds exactly and
    prints without an exponent, and on decimal integer literals.  The
    concrete documents of this development use this instance. *)
Module IntegerNumbers.
Import JS.
Local Open Scope Z_scope.

(** [None] is NaN. *)
Definition t : Type := option Z.

Definition toString (x : t) : str :=
  match x with
  | None => lit "NaN"
  | Some z => lit (DecimalString.NilZero.string_of_int (Z.to_int z))
  end.

Definition is_digit (c : char) : bool := ((48 <=? c) && (c <=? 57))%N.

Definition digits_value (s : str) : Z :=
  List.fold_left (fun acc c => acc * 10 + (Z.of_N c - 48)) s 0.

Definition unsigned_literal (s : str) : t :=
  match s with
  | [] => None
  | _ => if List.forallb is_digit s then Some (digits_value s) else None
  end.

(** [Number(s)]: white space around the literal is ignored and the empty
    text is 0; a text that is not a decimal integer literal is NaN here. *)
Definition toNumber (s : str) : t :=
  match trim s with
  | [] => Some 0
  | c :: rest =>
      if (c =? 45)%N then option_map Z.opp (unsigned_literal rest)
      else if (c =? 43)%N then unsigned_literal rest
      else unsigned_literal (c :: rest)
  end.

Definition plus (x y : t) : t :=
  match x, y with
  | Some a, Some b => Some (a + b)
  | _, _ => None
  end.

#[export] Instance numbers : Numbers := {|
  number := t;
  ToString := toString;
  ToNumber := toNumber;
  Math_round := fun x => x;
  ToBoolean := fun x => match x with Some z => negb (z =? 0) | None => false end;
  gt_zero := fun x => match x with Some z => 0 <? z | None => false end;
  add := plus;
  zero := Some 0
|}.

(** The number with an integer value. *)
Definition int (z : Z) : @number numbers := Some z.

End IntegerNumbers.

(* ================================================================== *)
(** * src/services/printer/PrinterStorage.ts *)
(* ================================================================== *)

Module PrinterStorage.
Import JS Types.
Local Open Scope Z_scope.

Record PrintSettings : Type := {
  autoPrint : bool;
  kotPapperWidth : PaperWidth;
  invoicePaperWidth : PaperWidth;
  showPrintDialog : bool;
  soundEnabled : bool
}.

Definition DEFAULT_SETTINGS : PrintSettings :=
  {| autoPrint := false; kotPapperWidth := mm80; invoicePaperWidth := mm80;
     showPrintDialog := true; soundEnabled := true |}.

(** [Partial<PrintSettings>] *)
Record PartialPrintSettings : Type := {
  autoPrint' : option bool;
  kotPapperWidth' : option PaperWidth;
  invoicePaperWidth' : option PaperWidth;
  showPrintDialog' : option bool;
  soundEnabled' : option bool
}.

Definition or_else {A} (update : option A) (current : A) : A :=
  match update with Some a => a | None => current end.

(** [{ ...current, ...settings }] *)
Definition spread (current : PrintSettings) (settings : PartialPrintSettings) : PrintSettings :=
  {| autoPrint := or_else (autoPrint' settings) (autoPrint current);
     kotPapperWidth := or_else (kotPapperWidth' settings) (kotPapperWidth current);
     invoicePaperWidth := or_else (invoicePaperWidth' settings) (invoicePaperWidth current);
     showPrintDialog := or_else (showPrintDialog' settings) (showPrintDialog current);
     soundEnabled := or_else (soundEnabled' settings) (soundEnabled current) |}.

(** The content of AsyncStorage under the three keys of [STORAGE_KEYS]:
    for a key that is set, the value [JSON.parse] reads from its text.
    The store is the device's own; its calls are taken to succeed, and
    each method below runs from its first read to its last write without
    another writer in between. *)
Record AsyncStorage : Type := {
  PRINTERS : option (list PrinterConfig.t);
  DEFAULT_PRINTER : option str;
  PRINT_SETTINGS : option PartialPrintSettings
}.

Definition empty : AsyncStorage :=
  {| PRINTERS := None; DEFAULT_PRINTER := None; PRINT_SETTINGS := None |}.

Definition setItem_PRINTERS (printers : list PrinterConfig.t) (store : AsyncStorage) : AsyncStorage :=
  {| PRINTERS := Some printers;
     DEFAULT_PRINTER := DEFAULT_PRINTER store;
     PRINT_SETTINGS := PRINT_SETTINGS store |}.

Definition setItem_DEFAULT_PRINTER (id : option str) (store : AsyncStorage) : AsyncStorage :=
  {| PRINTERS := PRINTERS store;
     DEFAULT_PRINTER := id;
     PRINT_SETTINGS := PRINT_SETTINGS store |}.

Definition setItem_PRINT_SETTINGS (settings : PartialPrintSettings) (store : AsyncStorage) : AsyncStorage :=
  {| PRINTERS := PRINTERS store;
     DEFAULT_PRINTER := DEFAULT_PRINTER store;
     PRINT_SETTINGS := Some settings |}.

Definition getAllPrinters (store : AsyncStorage) : list PrinterConfig.t :=
  match PRINTERS store with Some printers => printers | None => [] end.

(** [printers.findIndex(p => p.id === id)], -1 when there is none. *)
Fixpoint findIndex (id : str) (printers : list PrinterConfig.t) : Z :=
  match printers with
  | [] => -1
  | p :: rest =>
      if eqb (PrinterConfig.id p) id then 0
      else let i := findIndex id rest in if i <? 0 then -1 else i + 1
  end.

(** [printers[index] = printer] for an index within the array. *)
Fixpoint assign (printers : list PrinterConfig.t) (index : nat) (printer : PrinterConfig.t)
  : list PrinterConfig.t :=
  match printers, index with
  | [], _ => []
  | _ :: rest, O => printer :: rest
  | p :: rest, S i => p :: assign rest i printer
  end.

(** [{ ...p, isDefault: flag }] *)
Definition with_isDefault (flag : bool) (p : PrinterConfig.t) : PrinterConfig.t :=
  {| PrinterConfig.id := PrinterConfig.id p;
     PrinterConfig.name := PrinterConfig.name p;
     PrinterConfig.type := PrinterConfig.type p;
     PrinterConfig.address := PrinterConfig.address p;
     PrinterConfig.isDefault := flag;
     PrinterConfig.paperWidth := PrinterConfig.paperWidth p;
     PrinterConfig.lastConnected := PrinterConfig.lastConnected p |}.

(** [printer.lastConnected = now] *)
Definition with_lastConnected (now : Z) (p : PrinterConfig.t) : PrinterConfig.t :=
  {| PrinterConfig.id := PrinterConfig.id p;
     PrinterConfig.name := PrinterConfig.name p;
     PrinterConfig.type := PrinterConfig.type p;
     PrinterConfig.address := PrinterConfig.address p;
     PrinterConfig.isDefault := PrinterConfig.isDefault p;
     PrinterConfig.paperWidth := PrinterConfig.paperWidth p;
     PrinterConfig.lastConnected := Some now |}.

Definition setDefaultPrinter (printerId : str) (store : AsyncStorage) : AsyncStorage :=
  let printers := getAllPrinters store in
  let updated :=
    List.map (fun p => with_isDefault (eqb (PrinterConfig.id p) printerId) p) printers in
  setItem_DEFAULT_PRINTER (Some printerId) (setItem_PRINTERS updated store).

(** The array [printers] of [savePrinter] after its [if]: the printer
    takes the place of the first one with its identifier, or is pushed. *)
Definition saved (printer : PrinterConfig.t) (printers : list PrinterConfig.t)
  : list PrinterConfig.t :=
  let existingIndex := findIndex (PrinterConfig.id printer) printers in
  if 0 <=? existingIndex then assign printers (Z.to_nat existingIndex) printer
  else printers ++ [printer].

Definition savePrinter (printer : PrinterConfig.t) (store : AsyncStorage) : AsyncStorage :=
  let printers := saved printer (getAllPrinters store) in
  let store := setItem_PRINTERS printers store in
  if PrinterConfig.isDefault printer then setDefaultPrinter (PrinterConfig.id printer) store
  else store.

Definition getPrinterById (id : str) (store : AsyncStorage) : option PrinterConfig.t :=
  List.find (fun p => eqb (PrinterConfig.id p) id) (getAllPrinters store).

Definition getDefaultPrinterId (store : AsyncStorage) : option str := DEFAULT_PRINTER store.

Definition deletePrinter (id : str) (store : AsyncStorage) : AsyncStorage :=
  let printers := getAllPrinters store in
  let filtered := List.filter (fun p => negb (eqb (PrinterConfig.id p) id)) printers in
  let store := setItem_PRINTERS filtered store in
  match getDefaultPrinterId store with
  | Some defaultId => if eqb defaultId id then setItem_DEFAULT_PRINTER None store else store
  | None => store
  end.

Definition getDefaultPrinter (store : AsyncStorage) : option PrinterConfig.t :=
  match getDefaultPrinterId store with
  | Some id => if truthy id then getPrinterById id store else None
  | None => None
  end.

Definition getSettings (store : AsyncStorage) : PrintSettings :=
  match PRINT_SETTINGS store with
  | Some data => spread DEFAULT_SETTINGS data
  | None => DEFAULT_SETTINGS
  end.

Definition all_of (s : PrintSettings) : PartialPrintSettings :=
  {| autoPrint' := Some (autoPrint s);
     kotPapperWidth' := Some (kotPapperWidth s);
     invoicePaperWidth' := Some (invoicePaperWidth s);
     showPrintDialog' := Some (showPrintDialog s);
     soundEnabled' := Some (soundEnabled s) |}.

Definition saveSettings (settings : PartialPrintSettings) (store : AsyncStorage) : AsyncStorage :=
  let current := getSettings store in
  let updated := spread current settings in
  setItem_PRINT_SETTINGS (all_of updated) store.

Definition clearAll (store : AsyncStorage) : AsyncStorage := empty.

(** [now] is the value of [Date.now()]. *)
Definition updateLastConnected (printerId : str) (now : Z) (store : AsyncStorage) : AsyncStorage :=
  match getPrinterById printerId store with
  | Some printer => savePrinter (with_lastConnected now printer) store
  | None => store
  end.

(** The calls a client makes on the store. *)
Inductive operation : Type :=
| op_savePrinter (printer : PrinterConfig.t)
| op_deletePrinter (id : str)
| op_setDefaultPrinter (printerId : str)
| op_saveSettings (settings : PartialPrintSettings)
| op_clearAll
| op_updateLastConnected (printerId : str) (now : Z).

Definition perform (store : AsyncStorage) (op : operation) : AsyncStorage :=
  match op with
  | op_savePrinter printer => savePrinter printer store
  | op_deletePrinter id => deletePrinter id store
  | op_setDefaultPrinter printerId => setDefaultPrinter printerId store
  | op_saveSettings settings => saveSettings settings store
  | op_clearAll => clearAll store
  | op_updateLastConnected printerId now => updateLastConnected printerId now store
  end.

End PrinterStorage.

(* ================================================================== *)
(** * src/services/printer/PrinterService.ts *)
(* ================================================================== *)

(** The orchestrator is one object whose methods are [async].  A method
    runs without interruption up to an [await] on a transport adapter or
    on the configuration store; there it is suspended, and it is resumed
    when the awaited promise settles.  A step of the model is one such
    uninterrupted run: a call from a client, the settling of an awaited
    promise, or the firing of a retry timer.

    The state object, the array of the queue and the jobs are objects of
    the JavaScript heap that the orchestrator hands out in events and in
    [getState]; they are kept in stores and named by references, so that
    what is shared in the code is shared in the model. *)
Module PrinterService.
Import JS Types.
Local Open Scope Z_scope.

Section Orchestrator.

(** The payload of a job: [InvoiceData | KOTData | BarcodeData]. *)
Variable Payload : Type.

(** The generators of the encoder, on the payload of a job as
    [executePrintJob] casts it. *)
Variable generateKOT : Payload -> PaperWidth -> completion (list Z).
Variable generateInvoice : Payload -> PaperWidth -> completion (list Z).
Variable generateBarcodeLabel : Payload -> PaperWidth -> completion (list Z).

(** [Platform.OS === "web"] *)
Variable Platform_OS_web : bool.

(** References to a state object, to an array of jobs, to a job. *)
Definition sref : Type := nat.
Definition aref : Type := nat.
Definition jref : Type := nat.

Record PrinterState : Type := {
  status : PrinterStatus.t;
  connectedPrinter : option PrinterConfig.t;
  availableDevices : list BluetoothDevice;
  printQueue : aref;
  lastError : option str
}.

(** What a listener receives.  [data] is the object itself. *)
Inductive Event : Type :=
| state_changed (data : sref)
| device_connected (data : PrinterConfig.t)
| device_disconnected
| job_added (data : jref)
| print_started (data : jref)
| print_completed (data : jref)
| print_failed (data : jref) (error : option str)
| queue_cleared
| error_event (error : option str).

(** The calls of [Alert.alert]. *)
Inductive Alert : Type :=
| No_Printer_Connected
| Print_Failed (type : PrintJobType) (message : option str).

(** A suspended call, named by the [await] it stands at. *)
Inductive Task : Type :=
| connect_at_adapter (config : PrinterConfig.t)
| connect_at_updateLastConnected (config : PrinterConfig.t)
| connect_at_savePrinter (config : PrinterConfig.t)
| disconnect_at_adapter
| processQueue_at_send (job : jref) (rest : list jref).

Record World : Type := {
  (** the heap *)
  states : list PrinterState;
  arrays : list (list jref);
  jobs : list (PrintJob.t Payload);
  (** the fields of the orchestrator *)
  this_state : sref;
  isProcessingQueue : bool;
  (** the suspended calls and the pending retry timers *)
  awaiting : list Task;
  timers : nat;
  (** what has been emitted, shown and handed to an adapter *)
  events : list Event;
  alerts : list Alert;
  sent : list (PrinterConnectionType * list Z)
}.

Definition set_states v (w : World) : World :=
  {| states := v; arrays := arrays w; jobs := jobs w; this_state := this_state w;
     isProcessingQueue := isProcessingQueue w; awaiting := awaiting w; timers := timers w;
     events := events w; alerts := alerts w; sent := sent w |}.

Definition set_arrays v (w : World) : World :=
  {| states := states w; arrays := v; jobs := jobs w; this_state := this_state w;
     isProcessingQueue := isProcessingQueue w; awaiting := awaiting w; timers := timers w;
     events := events w; alerts := alerts w; sent := sent w |}.

Definition set_jobs v (w : World) : World :=
  {| states := states w; arrays := arrays w; jobs := v; this_state := this_state w;
     isProcessingQueue := isProcessingQueue w; awaiting := awaiting w; timers := timers w;
     events := events w; alerts := alerts w; sent := sent w |}.

Definition set_this_state v (w : World) : World :=
  {| states := states w; arrays := arrays w; jobs := jobs w; this_state := v;
     isProcessingQueue := isProcessingQueue w; awaiting := awaiting w; timers := timers w;
     events := events w; alerts := alerts w; sent := sent w |}.

Definition set_isProcessingQueue v (w : World) : World :=
  {| states := states w; arrays := arrays w; jobs := jobs w; this_state := this_state w;
     isProcessingQueue := v; awaiting := awaiting w; timers := timers w;
     events := events w; alerts := alerts w; sent := sent w |}.

Definition set_awaiting v (w : World) : World :=
  {| states := states w; arrays := arrays w; jobs := jobs w; this_state := this_state w;
     isProcessingQueue := isProcessingQueue w; awaiting := v; timers := timers w;
     events := events w; alerts := alerts w; sent := sent w |}.

Definition set_timers v (w : World) : World :=
  {| states := states w; arrays := arrays w; jobs := jobs w; this_state := this_state w;
     isProcessingQueue := isProcessingQueue w; awaiting := awaiting w; timers := v;
     events := events w; alerts := alerts w; sent := sent w |}.

Definition set_events v (w : World) : World :=
  {| states := states w; arrays := arrays w; jobs := jobs w; this_state := this_state w;
     isProcessingQueue := isProcessingQueue w; awaiting := awaiting w; timers := timers w;
     events := v; alerts := alerts w; sent := sent w |}.

Definition set_alerts v (w : World) : World :=
  {| states := states w; arrays := arrays w; jobs := jobs w; this_state := this_state w;
     isProcessingQueue := isProcessingQueue w; awaiting := awaiting w; timers := timers w;
     events := events w; alerts := v; sent := sent w |}.

Definition set_sent v (w : World) : World :=
  {| states := states w; arrays := arrays w; jobs := jobs w; this_state := this_state w;
     isProcessingQueue := isProcessingQueue w; awaiting := awaiting w; timers := timers w;
     events := events w; alerts := alerts w; sent := v |}.

(** The state of a newly built orchestrator. *)
Definition initial_state : PrinterState :=
  {| status := PrinterStatus.disconnected; connectedPrinter := None;
     availableDevices := []; printQueue := O; lastError := None |}.

Definition initial : World :=
  {| states := [initial_state]; arrays := [[]]; jobs := []; this_state := O;
     isProcessingQueue := false; awaiting := []; timers := O;
     events := []; alerts := []; sent := [] |}.

(** ** The heap *)

(** Writing in place the object at a reference. *)
Fixpoint modify {A} (f : A -> A) (r : nat) (heap : list A) : list A :=
  match heap, r with
  | [], _ => []
  | x :: rest, O => f x :: rest
  | x :: rest, S r' => x :: modify f r' rest
  end.

(** The state object at a reference. *)
Definition state_at (w : World) (r : sref) : PrinterState := List.nth r (states w) initial_state.

(** [this.state] *)
Definition state (w : World) : PrinterState := state_at w (this_state w).

(** The elements of the array at a reference. *)
Definition array_at (w : World) (r : aref) : list jref := List.nth r (arrays w) [].

(** The job at a reference. *)
Definition job_at (w : World) (r : jref) : option (PrintJob.t Payload) := List.nth_error (jobs w) r.

Definition write_job (f : PrintJob.t Payload -> PrintJob.t Payload) (r : jref) (w : World) : World :=
  set_jobs (modify f r (jobs w)) w.

Definition with_status (s : JobStatus.t) (j : PrintJob.t Payload) : PrintJob.t Payload :=
  {| PrintJob.id := PrintJob.id j; PrintJob.type := PrintJob.type j;
     PrintJob.payload := PrintJob.payload j; PrintJob.timestamp := PrintJob.timestamp j;
     PrintJob.status := s; PrintJob.retryCount := PrintJob.retryCount j;
     PrintJob.error := PrintJob.error j |}.

(** [job.retryCount++; job.error = message] *)
Definition with_failure (message : str) (j : PrintJob.t Payload) : PrintJob.t Payload :=
  {| PrintJob.id := PrintJob.id j; PrintJob.type := PrintJob.type j;
     PrintJob.payload := PrintJob.payload j; PrintJob.timestamp := PrintJob.timestamp j;
     PrintJob.status := PrintJob.status j; PrintJob.retryCount := PrintJob.retryCount j + 1;
     PrintJob.error := Some message |}.

(** [this.state.printQueue = queue], an assignment to a field of the
    object [this.state]. *)
Definition with_printQueue (queue : aref) (s : PrinterState) : PrinterState :=
  {| status := status s; connectedPrinter := connectedPrinter s;
     availableDevices := availableDevices s; printQueue := queue; lastError := lastError s |}.

(** ** State management *)

(** [getState()]: [{ ...this.state }], a new object with the fields of
    [this.state]. *)
Definition getState (w : World) : sref * World :=
  (List.length (states w), set_states (states w ++ [state w]) w).

Definition emit (event : Event) (w : World) : World :=
  set_events (events w ++ [event]) w.

(** [Partial<PrinterState>], with the fields the methods below pass. *)
Record Updates : Type := {
  status' : option PrinterStatus.t;
  connectedPrinter' : option (option PrinterConfig.t);
  lastError' : option (option str)
}.

Definition or_else {A} (update : option A) (current : A) : A :=
  match update with Some a => a | None => current end.

(** [this.state = { ...this.state, ...updates }] and the event, whose
    data is [this.state]. *)
Definition updateState (updates : Updates) (w : World) : World :=
  let s := state w in
  let s' := {| status := or_else (status' updates) (status s);
               connectedPrinter := or_else (connectedPrinter' updates) (connectedPrinter s);
               availableDevices := availableDevices s;
               printQueue := printQueue s;
               lastError := or_else (lastError' updates) (lastError s) |} in
  let r := List.length (states w) in
  let w := set_this_state r (set_states (states w ++ [s']) w) in
  emit (state_changed (this_state w)) w.

Definition setStatus (s : PrinterStatus.t) (w : World) : World :=
  updateState {| status' := Some s; connectedPrinter' := None; lastError' := None |} w.

Definition setError (e : option str) (w : World) : World :=
  updateState {| status' := None; connectedPrinter' := None; lastError' := Some e |} w.

(** [error.message || fallback] *)
Definition message_or (message : option str) (fallback : str) : str :=
  match message with
  | Some m => if truthy m then m else fallback
  | None => fallback
  end.

(** ** Print queue *)

(** [this.state.printQueue] *)
Definition queue (w : World) : list jref := array_at w (printQueue (state w)).

Definition job_status_is (w : World) (s : JobStatus.t) (r : jref) : bool :=
  match job_at w r with
  | Some j => JobStatus.eqb (PrintJob.status j) s
  | None => false
  end.

(** [this.state.printQueue = this.state.printQueue.filter(keep)]: the
    filter makes a new array, which is stored in the field of the state
    object. *)
Definition filter_queue (keep : jref -> bool) (w : World) : World :=
  let filtered := List.filter keep (queue w) in
  let a := List.length (arrays w) in
  let w := set_arrays (arrays w ++ [filtered]) w in
  set_states (modify (with_printQueue a) (this_state w) (states w)) w.

Definition removeJobFromQueue (jobId : str) (w : World) : World :=
  filter_queue (fun r => match job_at w r with
                         | Some j => negb (eqb (PrintJob.id j) jobId)
                         | None => true
                         end) w.

Definition clearQueue (w : World) : World :=
  emit queue_cleared (filter_queue (job_status_is w JobStatus.printing) w).

Definition showNoPrinterAlert (w : World) : World :=
  if Platform_OS_web then w else set_alerts (alerts w ++ [No_Printer_Connected]) w.

(** [sendToPrinter], up to the [await] on the adapter of the connected
    printer: the data is handed to that adapter, or the error is thrown. *)
Definition sendToPrinter (data : list Z) (w : World) : World + str :=
  match connectedPrinter (state w) with
  | None => inr (lit "No printer connected")
  | Some printer => inl (set_sent (sent w ++ [(PrinterConfig.type printer, data)]) w)
  end.

(** The [catch] block of [executePrintJob]. *)
Definition executePrintJob_catch (job : jref) (message : option str) (w : World) : World :=
  let w := write_job (with_failure (message_or message (lit "Print failed"))) job w in
  let w :=
    match job_at w job with
    | Some j =>
        if PrintJob.retryCount j <? 3 then
          let w := write_job (with_status JobStatus.pending) job w in
          set_timers (S (timers w)) w
        else
          let w := write_job (with_status JobStatus.failed) job w in
          let w := removeJobFromQueue (PrintJob.id j) w in
          let w := emit (print_failed job message) w in
          set_alerts (alerts w ++ [Print_Failed (PrintJob.type j) message]) w
    | None => w
    end in
  setStatus PrinterStatus.connected w.

(** The [try] block of [executePrintJob] after the [await]. *)
Definition executePrintJob_sent (job : jref) (w : World) : World :=
  let w := write_job (with_status JobStatus.completed) job w in
  let w :=
    match job_at w job with
    | Some j => removeJobFromQueue (PrintJob.id j) w
    | None => w
    end in
  let w := setStatus PrinterStatus.connected w in
  emit (print_completed job) w.

(** The [if] of [executePrintJob] on the type of the job. *)
Definition generate (type : PrintJobType) (payload : Payload) (paperWidth : PaperWidth)
  : completion (list Z) :=
  match type with
  | KOT => generateKOT payload paperWidth
  | INVOICE => generateInvoice payload paperWidth
  | BARCODE | BARCODE_LABEL => generateBarcodeLabel payload paperWidth
  end.

(** [executePrintJob] from its start: it is left suspended at the
    [await] of [sendToPrinter] ([true]), or it has run to its end through
    its [catch] block ([false]). *)
Definition executePrintJob (job : jref) (w : World) : World * bool :=
  let w := write_job (with_status JobStatus.printing) job w in
  let w := setStatus PrinterStatus.printing w in
  let w := emit (print_started job) w in
  match job_at w job with
  | Some j =>
      let paperWidth :=
        match connectedPrinter (state w) with
        | Some printer => PrinterConfig.paperWidth printer
        | None => mm80
        end in
      match generate (PrintJob.type j) (PrintJob.payload j) paperWidth with
      | Normal printData =>
          match sendToPrinter printData w with
          | inl w => (w, true)
          | inr m => (executePrintJob_catch job (Some m) w, false)
          end
      | Throw e => (executePrintJob_catch job (Some (message e)) w, false)
      end
  | None => (w, false)
  end.

(** The loop of [processQueue] over the jobs of [pendingJobs] that are
    left, and the statement after it. *)
Fixpoint processQueue_loop (pendingJobs : list jref) (w : World) : World :=
  match pendingJobs with
  | [] => set_isProcessingQueue false w
  | job :: rest =>
      if negb (PrinterStatus.eqb (status (state w)) PrinterStatus.connected)
      then set_isProcessingQueue false w
      else
        let (w, suspended) := executePrintJob job w in
        if suspended then set_awaiting (awaiting w ++ [processQueue_at_send job rest]) w
        else processQueue_loop rest w
  end.

Definition processQueue (w : World) : World :=
  if isProcessingQueue w then w
  else
    let pendingJobs := List.filter (job_status_is w JobStatus.pending) (queue w) in
    match pendingJobs with
    | [] => w
    | _ =>
        if negb (PrinterStatus.eqb (status (state w)) PrinterStatus.connected)
           || match connectedPrinter (state w) with None => true | Some _ => false end
        then showNoPrinterAlert w
        else processQueue_loop pendingJobs (set_isProcessingQueue true w)
    end.

(** [addPrintJob]; [jobId] is the identifier the method builds from the
    clock and a random number and [now] the value of [Date.now()]. *)
Definition addPrintJob (type : PrintJobType) (payload : Payload) (jobId : str) (now : Z)
  (w : World) : str * World :=
  let job := {| PrintJob.id := jobId; PrintJob.type := type; PrintJob.payload := payload;
                PrintJob.timestamp := now; PrintJob.status := JobStatus.pending;
                PrintJob.retryCount := 0; PrintJob.error := None |} in
  let r := List.length (jobs w) in
  let w := set_jobs (jobs w ++ [job]) w in
  let w := set_arrays (modify (fun a => a ++ [r]) (printQueue (state w)) (arrays w)) w in
  let w := emit (job_added r) w in
  let w := processQueue w in
  (jobId, w).

(** ** Connection management *)

(** [connect] up to the [await] on the adapter of [config.type]. *)
Definition connect (config : PrinterConfig.t) (w : World) : World :=
  let w := setStatus PrinterStatus.connecting w in
  let w := setError None w in
  set_awaiting (awaiting w ++ [connect_at_adapter config]) w.

(** The [catch] block of [connect]. *)
Definition connect_catch (message : option str) (w : World) : World :=
  let w := updateState {| status' := Some PrinterStatus.error;
                          connectedPrinter' := None;
                          lastError' := Some (Some (message_or message (lit "Connection failed"))) |} w in
  emit (error_event message) w.

(** [disconnect] up to the [await] on the adapter. *)
Definition disconnect (w : World) : World :=
  match connectedPrinter (state w) with
  | None => w
  | Some _ => set_awaiting (awaiting w ++ [disconnect_at_adapter]) w
  end.

(** ** Steps *)

(** How an awaited promise settles. *)
Inductive Outcome : Type :=
| fulfilled (value : bool)
| rejected (message : option str).

(** A suspended call goes on with the outcome of the promise it awaits. *)
Definition resume (task : Task) (outcome : Outcome) (w : World) : World :=
  match task with
  | connect_at_adapter config =>
      match outcome with
      | fulfilled true =>
          let w := updateState {| status' := Some PrinterStatus.connected;
                                  connectedPrinter' := Some (Some config);
                                  lastError' := Some None |} w in
          set_awaiting (awaiting w ++ [connect_at_updateLastConnected config]) w
      | fulfilled false => connect_catch (Some (lit "Connection failed")) w
      | rejected m => connect_catch m w
      end
  | connect_at_updateLastConnected config =>
      match outcome with
      | fulfilled _ => set_awaiting (awaiting w ++ [connect_at_savePrinter config]) w
      | rejected m => connect_catch m w
      end
  | connect_at_savePrinter config =>
      match outcome with
      | fulfilled _ => processQueue (emit (device_connected config) w)
      | rejected m => connect_catch m w
      end
  | disconnect_at_adapter =>
      let w := updateState {| status' := Some PrinterStatus.disconnected;
                              connectedPrinter' := Some None;
                              lastError' := None |} w in
      emit device_disconnected w
  | processQueue_at_send job rest =>
      let w :=
        match outcome with
        | fulfilled _ => executePrintJob_sent job w
        | rejected m => executePrintJob_catch job m w
        end in
      processQueue_loop rest w
  end.

(** The callback of the retry timer of [executePrintJob]. *)
Definition retry (w : World) : World := processQueue (set_isProcessingQueue false w).

(** What happens to the orchestrator: a call of a client, the settling
    of the promise the [n]-th suspended call awaits, a retry timer. *)
Inductive Input : Type :=
| call_connect (config : PrinterConfig.t)
| call_disconnect
| call_addPrintJob (type : PrintJobType) (payload : Payload) (jobId : str) (now : Z)
| call_clearQueue
| call_getState
| settles (n : nat) (outcome : Outcome)
| timer_fires.

Fixpoint remove_nth {A} (n : nat) (l : list A) : list A :=
  match l, n with
  | [], _ => []
  | _ :: rest, O => rest
  | x :: rest, S n' => x :: remove_nth n' rest
  end.

Definition step (w : World) (input : Input) : World :=
  match input with
  | call_connect config => connect config w
  | call_disconnect => disconnect w
  | call_addPrintJob type payload jobId now => snd (addPrintJob type payload jobId now w)
  | call_clearQueue => clearQueue w
  | call_getState => snd (getState w)
  | settles n outcome =>
      match List.nth_error (awaiting w) n with
      | Some task => resume task outcome (set_awaiting (remove_nth n (awaiting w)) w)
      | None => w
      end
  | timer_fires =>
      match timers w with
      | O => w
      | S n => retry (set_timers n w)
      end
  end.

Definition run (w : World) (inputs : list Input) : World := List.fold_left step inputs w.

(** ** Observations *)

(** The jobs whose execution has been started, in the order of the
    [print_started] events. *)
Definition started (w : World) : list jref :=
  List.flat_map (fun e => match e with print_started r => [r] | _ => [] end) (events w).

(** The jobs for which [print_failed] has been emitted, in order. *)
Definition failures (w : World) : list jref :=
  List.flat_map (fun e => match e with print_failed r _ => [r] | _ => [] end) (events w).

(** The references of the jobs whose status is [printing]. *)
Definition printing_jobs (w : World) : list jref :=
  List.filter (job_status_is w JobStatus.printing) (List.seq 0 (List.length (jobs w))).

(** What a holder of a reference to a state object reads through it. *)
Record Snapshot : Type := {
  seen_status : PrinterStatus.t;
  seen_connectedPrinter : option PrinterConfig.t;
  seen_printQueue : list (option (PrintJob.t Payload));
  seen_lastError : option str
}.

Definition read (w : World) (r : sref) : Snapshot :=
  let s := state_at w r in
  {| seen_status := status s;
     seen_connectedPrinter := connectedPrinter s;
     seen_printQueue := List.map (job_at w) (array_at w (printQueue s));
     seen_lastError := lastError s |}.

(** What the statements about the queue look at. *)
Record Observation : Type := {
  the_status : PrinterStatus.t;
  the_printer : option PrinterConfig.t;
  the_jobs : list (PrintJob.t Payload);
  the_awaiting : list Task;
  the_started : list jref
}.

Definition observe (w : World) : Observation :=
  {| the_status := status (state w);
     the_printer := connectedPrinter (state w);
     the_jobs := jobs w;
     the_awaiting := awaiting w;
     the_started := started w |}.

(** The worlds a run goes through, the first one included. *)
Fixpoint trace (w : World) (inputs : list Input) : list World :=
  match inputs with
  | [] => [w]
  | input :: rest => w :: trace (step w input) rest
  end.

(** The statuses of the jobs, in the order of their creation. *)
Definition job_statuses (w : World) : list JobStatus.t :=
  List.map (@PrintJob.status Payload) (jobs w).

(** [this.state] is an object of the heap. *)
Definition allocated (w : World) : Prop := (this_state w < List.length (states w))%nat.

(** An assignment to fields of the state object at a reference, by a
    holder of the reference. *)
Definition assign_fields (f : PrinterState -> PrinterState) (r : sref) (w : World) : World :=
  set_states (modify f r (states w)) w.

(** One submission while no printer is connected, then the call of
    [connect] and the three promises it awaits, fulfilled; then the
    send is rejected three times, a retry timer firing after the first
    and the second rejection. *)
Definition one_job_whose_send_fails (config : PrinterConfig.t)
  (type : PrintJobType) (payload : Payload) (jobId : str) (now : Z)
  (message1 message2 message3 : option str) : list Input :=
  [call_addPrintJob type payload jobId now;
   call_connect config;
   settles 0 (fulfilled true); settles 0 (fulfilled true); settles 0 (fulfilled true);
   settles 0 (rejected message1); timer_fires;
   settles 0 (rejected message2); timer_fires;
   settles 0 (rejected message3)].

(** A job as [addPrintJob] makes it. *)
Definition pending_job (jobId : str) (type : PrintJobType) (payload : Payload) (now : Z)
  : PrintJob.t Payload :=
  {| PrintJob.id := jobId; PrintJob.type := type; PrintJob.payload := payload;
     PrintJob.timestamp := now; PrintJob.status := JobStatus.pending;
     PrintJob.retryCount := 0; PrintJob.error := None |}.

(** Three submissions, then the call of [connect] and the three
    promises it awaits (of the adapter and of the two calls of the
    store), fulfilled. *)
Definition three_jobs_then_connect (config : PrinterConfig.t)
  (type1 : PrintJobType) (payload1 : Payload) (jobId1 : str) (now1 : Z)
  (type2 : PrintJobType) (payload2 : Payload) (jobId2 : str) (now2 : Z)
  (type3 : PrintJobType) (payload3 : Payload) (jobId3 : str) (now3 : Z) : list Input :=
  [call_addPrintJob type1 payload1 jobId1 now1;
   call_addPrintJob type2 payload2 jobId2 now2;
   call_addPrintJob type3 payload3 jobId3 now3;
   call_connect config;
   settles 0 (fulfilled true); settles 0 (fulfilled true); settles 0 (fulfilled true)].

(** The job after the [catch] block of [executePrintJob]. *)
Definition failed_attempt (message : option str) (j : PrintJob.t Payload) : PrintJob.t Payload :=
  let j := with_failure (message_or message (lit "Print failed")) j in
  with_status (if PrintJob.retryCount j <? 3 then JobStatus.pending else JobStatus.failed) j.

(** What a job is, apart from what its execution writes in it. *)
Definition submitted (j : PrintJob.t Payload) : str * PrintJobType * Payload * Z :=
  (PrintJob.id j, PrintJob.type j, PrintJob.payload j, PrintJob.timestamp j).

Definition none_printing (js : list (PrintJob.t Payload)) : Prop :=
  forall r j, List.nth_error js r = Some j -> PrintJob.status j <> JobStatus.printing.

Definition only_printing (r : jref) (js : list (PrintJob.t Payload)) : Prop :=
  (exists j, List.nth_error js r = Some j /\ PrintJob.status j = JobStatus.printing)
  /\ forall r' j, r' <> r -> List.nth_error js r' = Some j ->
     PrintJob.status j <> JobStatus.printing.

(** No two jobs have the status [printing]. *)
Definition at_most_one_printing (w : World) : Prop :=
  forall r1 r2 j1 j2,
    job_at w r1 = Some j1 -> job_at w r2 = Some j2 ->
    PrintJob.status j1 = JobStatus.printing -> PrintJob.status j2 = JobStatus.printing ->
    r1 = r2.

(** The inputs that are not calls of a client: promises that settle and
    retry timers that fire. *)
Definition environment (input : Input) : Prop :=
  match input with
  | settles _ _ | timer_fires => True
  | _ => False
  end.

(** The states of a drain of three jobs submitted before the connection:
    idle after the three have been started, or suspended at the send of
    one job, the jobs before it started in order and the ones after it
    left. *)
Definition started_all (starts : list jref) : Prop :=
  exists more, starts = [0; 1; 2]%nat ++ more /\ List.Forall (fun r => (r < 3)%nat) more.

Definition draining (config : PrinterConfig.t)
  (submissions : list (str * PrintJobType * Payload * Z)) (w : World) : Prop :=
  the_printer (observe w) = Some config
  /\ List.map submitted (jobs w) = submissions
  /\ List.length (jobs w) = 3%nat
  /\ ((the_awaiting (observe w) = []
       /\ the_status (observe w) = PrinterStatus.connected
       /\ none_printing (jobs w)
       /\ started_all (the_started (observe w)))
      \/ (exists r rest,
            the_awaiting (observe w) = [processQueue_at_send r rest]
            /\ the_status (observe w) = PrinterStatus.printing
            /\ only_printing r (jobs w)
            /\ List.Forall (fun r' => (r' < 3)%nat) rest
            /\ ((r = 0%nat /\ rest = [1; 2]%nat /\ the_started (observe w) = [0]%nat)
                \/ (r = 1%nat /\ rest = [2]%nat /\ the_started (observe w) = [0; 1]%nat)
                \/ started_all (the_started (observe w))))).

End Orchestrator.

(** A generator that returns for every document. *)
Definition returning {Payload : Type} (data : Payload -> PaperWidth -> list Z)
  : Payload -> PaperWidth -> completion (list Z) :=
  fun payload paperWidth => Normal (data payload paperWidth).

Arguments initial {Payload}.
Arguments submitted {Payload} j.
Arguments environment {Payload} input.
Arguments initial_state : clear implicits.
Arguments call_connect {Payload} config.
Arguments call_disconnect {Payload}.
Arguments call_clearQueue {Payload}.
Arguments call_getState {Payload}.
Arguments settles {Payload} n outcome.
Arguments timer_fires {Payload}.

End PrinterService.

(* ================================================================== *)
(** * The orchestrator with the encoder of the app *)
(* ================================================================== *)

Module PrinterApp.
Import JS Types.

Section Device.
Context {Num : Numbers}.
Variable Date_toLocaleString : str -> str.

(** [InvoiceData | KOTData | BarcodeData] *)
Inductive Document : Type :=
| invoice_document (data : InvoiceData)
| barcode_document (data : BarcodeData).

(** [job.payload as KOTData]: the cast checks nothing; on a barcode
    document the generator throws at [data.businessInfo.name]. *)
Definition generateKOT (payload : Document) (paperWidth : PaperWidth) : completion (list Z) :=
  match payload with
  | invoice_document data => ESCPOSEncoder.generateKOT Date_toLocaleString data paperWidth
  | barcode_document _ => Throw (TypeError (lit "Cannot read property 'name' of undefined"))
  end.

Definition generateInvoice (payload : Document) (paperWidth : PaperWidth) : completion (list Z) :=
  match payload with
  | invoice_document data => ESCPOSEncoder.generateInvoice Date_toLocaleString data paperWidth
  | barcode_document _ => Throw (TypeError (lit "Cannot read property 'name' of undefined"))
  end.

(** [job.payload as BarcodeData]: an invoice has none of the fields of a
    label, and the encoding of an undefined [sku] is empty. *)
Definition generateBarcodeLabel (payload : Document) (paperWidth : PaperWidth) : completion (list Z) :=
  match payload with
  | barcode_document data => ESCPOSEncoder.generateBarcodeLabel data paperWidth
  | invoice_document _ =>
      ESCPOSEncoder.generateBarcodeLabel
        {| sku := []; brandName := None; categoryName := None; modelNo := None;
           shopName := None |} paperWidth
  end.

(** The orchestrator on a phone or a tablet ([Platform.OS] is not web). *)
Definition step : PrinterService.World Document -> PrinterService.Input Document
                  -> PrinterService.World Document :=
  PrinterService.step generateKOT generateInvoice generateBarcodeLabel false.

Definition run : PrinterService.World Document -> list (PrinterService.Input Document)
                 -> PrinterService.World Document :=
  PrinterService.run generateKOT generateInvoice generateBarcodeLabel false.

End Device.
End PrinterApp.

(* ================================================================== *)
(** * The USB adapter of src/services/printer/PrinterService.ts *)
(* ================================================================== *)

Module USBPrinter.
Import JS.
Local Open Scope Z_scope.

(** The alphabet of [btoa]. *)
Definition BASE64 : str :=
  lit "ABCDEFGHIJKLMNOPQRSTUVWXYZabcdefghijklmnopqrstuvwxyz0123456789+/".

Definition PAD : char := 61%N.

Definition base64_digit (n : Z) : char := List.nth (Z.to_nat n) BASE64 PAD.

(** The base64 text of a sequence of bytes: four characters for three
    bytes, the last group padded with [=]. *)
Fixpoint base64 (bytes : list Z) : str :=
  match bytes with
  | [] => []
  | [a] => [base64_digit (a / 4); base64_digit (a mod 4 * 16); PAD; PAD]
  | [a; b] =>
      [base64_digit (a / 4); base64_digit (a mod 4 * 16 + b / 16);
       base64_digit (b mod 16 * 4); PAD]
  | a :: b :: c :: rest =>
      base64_digit (a / 4) :: base64_digit (a mod 4 * 16 + b / 16)
        :: base64_digit (b mod 16 * 4 + c / 64) :: base64_digit (c mod 64)
        :: base64 rest
  end.

(** [btoa(binary)]: it throws when a code unit is above 255. *)
Definition btoa (binary : str) : completion str :=
  if List.forallb (fun c => (c <? 256)%N) binary
  then Normal (base64 (List.map Z.of_N binary))
  else Throw (Error (lit "Invalid character")).

(** [String.fromCharCode(code)] *)
Definition fromCharCode (code : Z) : char := Z.to_N (code mod 65536).

(** [uint8ArrayToBase64]: the loop appends one code unit for each
    element of the array. *)
Definition uint8ArrayToBase64 (data : list Z) : completion str :=
  btoa (List.map fromCharCode data).

Record USBDevice : Type := {
  deviceId : IntegerNumbers.t;
  vendorId : Z;
  productId : Z;
  name : str
}.

(** The fields of the adapter; [USBSerial] tells whether the library
    has been loaded. *)
Record t : Type := {
  isLibraryAvailable : bool;
  USBSerial : bool;
  connectedDevice : option USBDevice;
  isConnected : bool
}.

Definition new : t :=
  {| isLibraryAvailable := false; USBSerial := false;
     connectedDevice := None; isConnected := false |}.

(** [initializeLibrary]; [loaded] tells whether the import gave the
    library. *)
Definition initializeLibrary (Platform_OS_android loaded : bool) (this : t) : t :=
  if negb Platform_OS_android then this
  else if loaded then
    {| isLibraryAvailable := true; USBSerial := true;
       connectedDevice := connectedDevice this; isConnected := isConnected this |}
  else this.

Definition isAvailable (Platform_OS_android : bool) (this : t) : bool :=
  isLibraryAvailable this && Platform_OS_android.

(** [connect(deviceId)]; [opened] is how the promise of
    [USBSerial.open] settles. *)
Definition connect (deviceId : IntegerNumbers.t) (opened : completion unit) (this : t)
  : t * completion bool :=
  if negb (USBSerial this) then (this, Throw (Error (lit "USB library not available")))
  else
    match opened with
    | Normal _ =>
        ({| isLibraryAvailable := isLibraryAvailable this; USBSerial := USBSerial this;
            connectedDevice :=
              Some {| deviceId := deviceId; vendorId := 0; productId := 0;
                      name := lit "USB Printer (" ++ IntegerNumbers.toString deviceId
                              ++ lit ")" |};
            isConnected := true |},
         Normal true)
    | Throw e =>
        ({| isLibraryAvailable := isLibraryAvailable this; USBSerial := USBSerial this;
            connectedDevice := None; isConnected := false |},
         Throw e)
    end.

(** [disconnect()]; [closed] is how the promise of [USBSerial.close]
    settles. *)
Definition disconnect (closed : completion unit) (this : t) : t :=
  if negb (USBSerial this) || negb (isConnected this) then this
  else
    match closed with
    | Normal _ | Throw _ =>
        {| isLibraryAvailable := isLibraryAvailable this; USBSerial := USBSerial this;
           connectedDevice := None; isConnected := false |}
    end.

(** [sendRawData(data)]: the text handed to [USBSerial.writeBase64];
    [written] is how the promise of that call settles. *)
Definition sendRawData (data : list Z) (written : completion unit) (this : t)
  : completion str :=
  if negb (USBSerial this) then Throw (Error (lit "USB library not available"))
  else if negb (isConnected this) then Throw (Error (lit "No USB printer connected"))
  else
    match uint8ArrayToBase64 data with
    | Normal text =>
        match written with
        | Normal _ => Normal text
        | Throw e => Throw e
        end
    | Throw e => Throw e
    end.

(** The calls on the adapter that change it. *)
Inductive operation : Type :=
| op_initializeLibrary (Platform_OS_android loaded : bool)
| op_connect (deviceId : IntegerNumbers.t) (opened : completion unit)
| op_disconnect (closed : completion unit).

Definition perform (this : t) (op : operation) : t :=
  match op with
  | op_initializeLibrary android loaded => initializeLibrary android loaded this
  | op_connect deviceId opened => fst (connect deviceId opened this)
  | op_disconnect closed => disconnect closed this
  end.

End USBPrinter.

(* ================================================================== *)
(** * Connections: the adapter that [connect] calls *)
(* ================================================================== *)

Module Connections.
Import JS Types.
Local Open Scope Z_scope.

(** The value of a digit in a radix of at most 36. *)
Definition digit_value (c : char) : option Z :=
  if ((48 <=? c) && (c <=? 57))%N then Some (Z.of_N c - 48)
  else if ((97 <=? c) && (c <=? 122))%N then Some (Z.of_N c - 87)
  else if ((65 <=? c) && (c <=? 90))%N then Some (Z.of_N c - 55)
  else None.

(** The number that the longest prefix of digits of the radix denotes,
    after the digits read so far; NaN when there is no digit. *)
Fixpoint digits (radix : Z) (s : str) (read : option Z) : option Z :=
  match s with
  | [] => read
  | c :: rest =>
      match digit_value c with
      | Some d =>
          if d <? radix
          then digits radix rest (Some (match read with Some n => n | None => 0 end * radix + d))
          else read
      | None => read
      end
  end.

(** [parseInt(s)] with no radix: white space, a sign, [0x] or [0X] for
    radix 16, then the digits.  The value is the integer the digits
    denote, which is the value of JavaScript where a double holds it. *)
Definition parseInt (s : str) : IntegerNumbers.t :=
  let s := trimStart s in
  let negative := match s with c :: _ => (c =? 45)%N | [] => false end in
  let s := match s with
           | c :: rest => if ((c =? 45) || (c =? 43))%N then rest else s
           | [] => s
           end in
  let magnitude :=
    match s with
    | z :: x :: rest =>
        if ((z =? 48) && ((x =? 120) || (x =? 88)))%N then digits 16 rest None
        else digits 10 s None
    | _ => digits 10 s None
    end in
  if negative then option_map Z.opp magnitude else magnitude.

(** ToBoolean on a number: false on 0 and on NaN. *)
Definition number_truthy (x : IntegerNumbers.t) : bool :=
  match x with Some z => negb (z =? 0) | None => false end.

(** [s.replace(/c/g, by)] for one character [c]. *)
Definition replace_all (c : char) (by_ : str) (s : str) : str :=
  List.flat_map (fun x => if char_eqb x c then by_ else [x]) s.

(** The configuration that [connectBluetooth] connects to. *)
Definition connectBluetooth (address name : str) (paperWidth : PaperWidth) : PrinterConfig.t :=
  {| PrinterConfig.id := lit "bt_" ++ replace_all 58%N [] address;
     PrinterConfig.name := name;
     PrinterConfig.type := bluetooth;
     PrinterConfig.address := address;
     PrinterConfig.isDefault := false;
     PrinterConfig.paperWidth := paperWidth;
     PrinterConfig.lastConnected := None |}.

(** The configuration that [connectUSB] connects to. *)
Definition connectUSB (deviceId : IntegerNumbers.t) (name : str) (paperWidth : PaperWidth)
  : PrinterConfig.t :=
  {| PrinterConfig.id := lit "usb_" ++ IntegerNumbers.toString deviceId;
     PrinterConfig.name := name;
     PrinterConfig.type := usb;
     PrinterConfig.address := IntegerNumbers.toString deviceId;
     PrinterConfig.isDefault := false;
     PrinterConfig.paperWidth := paperWidth;
     PrinterConfig.lastConnected := None |}.

(** The configuration that [connectNetwork] connects to; the default of
    [port] is 9100. *)
Definition connectNetwork (ip : str) (port : IntegerNumbers.t) (name : option str)
  (paperWidth : PaperWidth) : PrinterConfig.t :=
  {| PrinterConfig.id :=
       lit "net_" ++ replace_all 46%N (lit "_") ip ++ lit "_" ++ IntegerNumbers.toString port;
     PrinterConfig.name :=
       match name with
       | Some n => if truthy n then n else lit "Network Printer (" ++ ip ++ lit ")"
       | None => lit "Network Printer (" ++ ip ++ lit ")"
       end;
     PrinterConfig.type := network;
     PrinterConfig.address := ip ++ lit ":" ++ IntegerNumbers.toString port;
     PrinterConfig.isDefault := false;
     PrinterConfig.paperWidth := paperWidth;
     PrinterConfig.lastConnected := None |}.

(** The call of an adapter that the [switch] of [connect] makes. *)
Inductive AdapterCall : Type :=
| BluetoothPrinter_connect (address : str)
| USBPrinter_connect (deviceId : IntegerNumbers.t)
| NetworkPrinter_connect (ip : str) (port : IntegerNumbers.t).

(** [parseInt(port) || 9100], where [port] may be undefined. *)
Definition port_or_9100 (port : option str) : IntegerNumbers.t :=
  match port with
  | Some p => if number_truthy (parseInt p) then parseInt p else Some 9100
  | None => Some 9100
  end.

Definition connect_call (config : PrinterConfig.t) : AdapterCall :=
  match PrinterConfig.type config with
  | bluetooth => BluetoothPrinter_connect (PrinterConfig.address config)
  | usb => USBPrinter_connect (parseInt (PrinterConfig.address config))
  | network | wifi =>
      let parts := split 58%N (PrinterConfig.address config) in
      NetworkPrinter_connect (List.nth 0 parts []) (port_or_9100 (List.nth_error parts 1))
  end.

(** [Platform.OS] *)
Inductive Platform_OS : Type := android | ios | web | windows | macos.

(** [getAvailableMethods()], from whether the library of each adapter
    has been loaded. *)
Definition getAvailableMethods (OS : Platform_OS)
  (BluetoothPrinter_isLibraryAvailable USBPrinter_isLibraryAvailable
   NetworkPrinter_isLibraryAvailable : bool) : list PrinterConnectionType :=
  let methods := [] in
  let methods :=
    if BluetoothPrinter_isLibraryAvailable && negb (match OS with web => true | _ => false end)
    then methods ++ [bluetooth] else methods in
  let methods :=
    if USBPrinter_isLibraryAvailable && match OS with android => true | _ => false end
    then methods ++ [usb] else methods in
  let methods := if NetworkPrinter_isLibraryAvailable then methods ++ [network] else methods in
  match methods with
  | [] =>
      match OS with
      | android => [bluetooth; usb; network]
      | ios => [bluetooth; network]
      | _ => []
      end
  | _ => methods
  end.

End Connections.

(* ================================================================== *)
(** * The handler of the messages of the WebView *)
(* ================================================================== *)

Module WebViewMessageHandler.
Import JS Types.
Local Open Scope Z_scope.

Section Handler.
Context {Num : Numbers}.
Variable Date_toLocaleString : str -> str.

Local Abbreviation Document := (@PrinterApp.Document Num).
Local Abbreviation World := (PrinterService.World Document).

(** What [JSON.parse] gives for a message: the type, when the message
    has one, and the payload, a document, when the message has one
    ([None] is a payload that is missing, null or otherwise falsy). *)
Record WebViewMessage : Type := {
  type : option str;
  payload : option Document
}.

(** The [data] of a response. *)
Inductive ResponseData : Type :=
| queued (jobId message : str)
| printer_status (status : PrinterStatus.t)
    (connectedPrinter : option (str * PrinterConnectionType * PaperWidth)) (queueLength : Z)
| notice (message : str).

Record WebViewResponse : Type := {
  response_type : str;
  success : bool;
  data : option ResponseData;
  error : option str
}.

(** The handler: whether [webViewRef.current] is set, and the responses
    injected in the WebView so far. *)
Record t : Type := {
  webViewRef_current : bool;
  injected : list WebViewResponse
}.

Definition sendResponse (response : WebViewResponse) (this : t) : t :=
  if webViewRef_current this
  then {| webViewRef_current := true; injected := injected this ++ [response] |}
  else this.

Definition failure (response_type error : str) : WebViewResponse :=
  {| response_type := response_type; success := false; data := None; error := Some error |}.

Definition addPrintJob (type : PrintJobType) (payload : Document) (jobId : str) (now : Z)
  (w : World) : str * World :=
  PrinterService.addPrintJob (PrinterApp.generateKOT Date_toLocaleString)
    (PrinterApp.generateInvoice Date_toLocaleString) PrinterApp.generateBarcodeLabel false
    type payload jobId now w.

(** [handlePrintKOT] and [handlePrintInvoice] *)
Definition handlePrint (jobType : PrintJobType) (response_type message : str)
  (payload : option Document) (jobId : str) (now : Z) (w : World) (this : t) : World * t :=
  match payload with
  | None => (w, sendResponse (failure response_type (lit "No payload provided")) this)
  | Some p =>
      let (jobId, w) := addPrintJob jobType p jobId now w in
      (w, sendResponse {| response_type := response_type; success := true;
                          data := Some (queued jobId message); error := None |} this)
  end.

Definition handlePrintKOT :=
  handlePrint KOT (lit "PRINT_KOT_RESPONSE") (lit "KOT print job queued").

Definition handlePrintInvoice :=
  handlePrint INVOICE (lit "PRINT_INVOICE_RESPONSE") (lit "Invoice print job queued").

(** [payload.sku], undefined on a document that is not a label. *)
Definition payload_sku (p : Document) : option str :=
  match p with
  | PrinterApp.barcode_document d => Some (sku d)
  | PrinterApp.invoice_document _ => None
  end.

(** [!payload || !payload.sku] *)
Definition without_sku (payload : option Document) : bool :=
  match payload with
  | None => true
  | Some p => match payload_sku p with Some s => negb (truthy s) | None => true end
  end.

(** [handlePrintBarcode] and [handlePrintBarcodeLabel] *)
Definition handlePrintLabel (jobType : PrintJobType) (response_type message : str)
  (payload : option Document) (jobId : str) (now : Z) (w : World) (this : t) : World * t :=
  if without_sku payload
  then (w, sendResponse (failure response_type (lit "No SKU provided")) this)
  else
    match payload with
    | Some p =>
        let (jobId, w) := addPrintJob jobType p jobId now w in
        (w, sendResponse {| response_type := response_type; success := true;
                            data := Some (queued jobId message); error := None |} this)
    | None => (w, this)
    end.

Definition handlePrintBarcode :=
  handlePrintLabel BARCODE (lit "PRINT_BARCODE_RESPONSE") (lit "Barcode print job queued").

Definition handlePrintBarcodeLabel :=
  handlePrintLabel BARCODE_LABEL (lit "PRINT_BARCODE_LABEL_RESPONSE")
    (lit "Barcode label print job queued").

Definition handleGetPrinterStatus (w : World) (this : t) : World * t :=
  let (r, w) := PrinterService.getState w in
  let state := PrinterService.state_at w r in
  (w, sendResponse
        {| response_type := lit "PRINTER_STATUS_RESPONSE"; success := true;
           data :=
             Some (printer_status (PrinterService.status state)
                     (match PrinterService.connectedPrinter state with
                      | Some printer =>
                          Some (PrinterConfig.name printer, PrinterConfig.type printer,
                                PrinterConfig.paperWidth printer)
                      | None => None
                      end)
                     (Z.of_nat
                        (List.length
                           (PrinterService.array_at w (PrinterService.printQueue state)))));
           error := None |} this).

Definition handleConnectPrinter (w : World) (this : t) : World * t :=
  (w, sendResponse (failure (lit "CONNECT_PRINTER_RESPONSE") (lit "Connect from Settings menu"))
        this).

(** The response of [handleDisconnectPrinter], sent when the call of
    [disconnect] has ended. *)
Definition disconnected (this : t) : t :=
  sendResponse {| response_type := lit "DISCONNECT_PRINTER_RESPONSE"; success := true;
                  data := Some (notice (lit "Printer disconnected")); error := None |} this.

(** [handleDisconnectPrinter] up to the end of the call of [disconnect],
    or to the [await] on the adapter in it, where it is suspended
    ([true]). *)
Definition handleDisconnectPrinter (w : World) (this : t) : World * t * bool :=
  match PrinterService.connectedPrinter (PrinterService.state w) with
  | None => (w, disconnected this, false)
  | Some _ => (PrinterService.disconnect w, this, true)
  end.

(** [handleMessage], on the message that [JSON.parse] gives for the text
    received, or on what is thrown by it or by the reading of the type of
    what it gives; [jobId] and [now] are the identifier and the time that
    [addPrintJob] takes from the clock and the random numbers. *)
Definition handleMessage (parsed : completion WebViewMessage) (jobId : str) (now : Z)
  (w : World) (this : t) : World * t * bool :=
  match parsed with
  | Throw e =>
      (w, sendResponse
            (failure (lit "ERROR")
               (PrinterService.message_or (Some (message e)) (lit "Failed to process message")))
            this, false)
  | Normal m =>
      match type m with
      | None => (w, this, false)
      | Some t =>
          if negb (truthy t) then (w, this, false)
          else if eqb t (lit "PRINT_KOT") then (handlePrintKOT (payload m) jobId now w this, false)
          else if eqb t (lit "PRINT_INVOICE")
               then (handlePrintInvoice (payload m) jobId now w this, false)
          else if eqb t (lit "PRINT_BARCODE")
               then (handlePrintBarcode (payload m) jobId now w this, false)
          else if eqb t (lit "PRINT_BARCODE_LABEL")
               then (handlePrintBarcodeLabel (payload m) jobId now w this, false)
          else if eqb t (lit "GET_PRINTER_STATUS") then (handleGetPrinterStatus w this, false)
          else if eqb t (lit "CONNECT_PRINTER") then (handleConnectPrinter w this, false)
          else if eqb t (lit "DISCONNECT_PRINTER") then handleDisconnectPrinter w this
          else (w, this, false)
      end
  end.

End Handler.
End WebViewMessageHandler.

(* ================================================================== *)
(** * Notions used by the statements *)
(* ================================================================== *)

Module Spec.
Import JS Types.
Local Open Scope Z_scope.

(** [part] occurs in [whole] as a block of consecutive code units. *)
Definition occurs_in (part whole : str) : Prop :=
  exists before after, whole = before ++ part ++ after.

(** A text whose only white space is the space character. *)
Definition plain (content : str) : Prop :=
  List.Forall (fun c => is_whitespace c = true -> c = SPACE) content.

(** The words of a text: what is between its spaces, the empty pieces
    that two spaces in a row (or a space at an end) give left out. *)
Definition words (content : str) : list str :=
  List.filter truthy (split SPACE content).

(** The arguments of the calls of [line] that [wrap] makes, in order:
    the loop of [ESCPOSEncoder.wrap] with the lines kept in a list
    instead of being appended to the buffer. *)
Definition wrap_word_lines (charsPerLine : Z) (state : list str * str) (word : str)
  : list str * str :=
  let (lines, currentLine) := state in
  if length (trim (currentLine ++ [SPACE] ++ word)) <=? charsPerLine
  then (lines, trim (currentLine ++ [SPACE] ++ word))
  else ((if truthy currentLine then lines ++ [currentLine] else lines), word).

Definition wrap_lines (charsPerLine : Z) (content : str) : list str :=
  let (lines, currentLine) :=
    List.fold_left (wrap_word_lines charsPerLine) (split SPACE content)
      (([] : list str), ([] : str)) in
  if truthy currentLine then lines ++ [currentLine] else lines.

(** A text that is not empty and has no white space at either end. *)
Definition clean (u : str) : Prop :=
  (exists a rest, u = a :: rest /\ is_whitespace a = false)
  /\ (exists front b, u = front ++ [b] /\ is_whitespace b = false).

(** A piece with no white space in it. *)
Definition spaceless (w : str) : Prop := List.Forall (fun c => is_whitespace c = false) w.

(** Empty, or with no white space at the ends: what [currentLine] holds
    while a plain text is wrapped. *)
Definition tidy (s : str) : Prop := s = [] \/ clean s.

(** The calls of [line] on the lines of a list, in order. *)
Definition emit_lines (lines : list str) (this : ESCPOSEncoder.t) : ESCPOSEncoder.t :=
  List.fold_left ESCPOSEncoder.line lines this.

(** The statement after the loop of [wrap], on the lines kept in a list. *)
Definition finish (state : list str * str) : list str :=
  if truthy (snd state) then fst state ++ [snd state] else fst state.

(** A line that is not empty and is within the budget or is one of the
    pieces [ws] of the text. *)
Definition wrapped (budget : Z) (ws : list str) (l : str) : Prop :=
  truthy l = true /\ (length l <= budget \/ List.In l ws).

(** The block [u] is whole in a finished line or in the current line. *)
Definition held (u : str) (state : list str * str) : Prop :=
  (exists l, List.In l (fst state) /\ occurs_in u l) \/ occurs_in u (snd state).

(** Word wrap as the specification words it: a word joins the current
    line while the line, a space and the word fit the budget; a word
    that does not fit ends the line and starts the next one.  An empty
    current line is not a line and takes the word without a space. *)
Definition flush (currentLine : str) : list str :=
  if truthy currentLine then [currentLine] else [].

Definition trial (currentLine word : str) : str :=
  if truthy currentLine then currentLine ++ [SPACE] ++ word else word.

Fixpoint greedy_wrap (budget : Z) (currentLine : str) (ws : list str) : list str :=
  match ws with
  | [] => flush currentLine
  | word :: rest =>
      if length (trial currentLine word) <=? budget
      then greedy_wrap budget (trial currentLine word) rest
      else flush currentLine ++ greedy_wrap budget word rest
  end.

(** A value that one element of a [Uint8Array] holds. *)
Definition is_byte (b : Z) : Prop := 0 <= b < 256.

(** A text of UTF-16 code units; one whose code units are all ASCII. *)
Definition code_units (s : str) : Prop := List.Forall (fun c => (c < 65536)%N) s.

Definition ascii (s : str) : Prop := List.Forall (fun c => (c < 128)%N) s.

(** The encoder [e] is the encoder [a] after more bytes have been
    appended to its buffer. *)
Definition grows (a e : ESCPOSEncoder.t) : Prop :=
  ESCPOSEncoder.charsPerLine e = ESCPOSEncoder.charsPerLine a
  /\ exists bytes, ESCPOSEncoder.buffer e = ESCPOSEncoder.buffer a ++ bytes.

(** Data that starts with the command that initialises the printer and
    ends with three line feeds and the command of the full cut. *)
Definition ticket (data : list Z) : Prop :=
  exists body, data = ESCPOSEncoder.COMMANDS.INIT ++ body
                      ++ [ESCPOSEncoder.LF; ESCPOSEncoder.LF; ESCPOSEncoder.LF]
                      ++ ESCPOSEncoder.COMMANDS.CUT_FULL.

(** The first line of an item of a kitchen ticket as a layout with a
    quantity field of 5 characters and the name cut at the line budget
    less 5 would have it. *)
Definition row_of_5_and_the_rest {Num : Numbers} (paperWidth : PaperWidth)
  (item : InvoiceItem) (row : str) : Prop :=
  exists pad,
    let field := ToString (quantity item) ++ lit "x" ++ pad in
    length field = 5
    /\ row = field ++ slice0 (productName item) (ESCPOSEncoder.WIDTH paperWidth - 5).

(** The profiles whose default flag is set. *)
Definition defaults (printers : list PrinterConfig.t) : list PrinterConfig.t :=
  List.filter PrinterConfig.isDefault printers.

Definition ids (printers : list PrinterConfig.t) : list str :=
  List.map PrinterConfig.id printers.

(** Exactly one profile has the default flag, and it is [id]. *)
Definition the_default_is (id : str) (printers : list PrinterConfig.t) : Prop :=
  exists p, defaults printers = [p] /\ PrinterConfig.id p = id.

(** The profiles of a store have distinct identifiers and at most one
    of them has the default flag. *)
Definition consistent (store : PrinterStorage.AsyncStorage) : Prop :=
  List.NoDup (ids (PrinterStorage.getAllPrinters store))
  /\ (List.length (defaults (PrinterStorage.getAllPrinters store)) <= 1)%nat.

(** Two profiles of a shop: a Bluetooth printer at the counter, which
    is the default, and a network printer in the kitchen. *)
Definition counter_printer : PrinterConfig.t :=
  {| PrinterConfig.id := lit "bt_001122AABBCC";
     PrinterConfig.name := lit "Counter";
     PrinterConfig.type := bluetooth;
     PrinterConfig.address := lit "00:11:22:AA:BB:CC";
     PrinterConfig.isDefault := true;
     PrinterConfig.paperWidth := mm58;
     PrinterConfig.lastConnected := None |}.

Definition kitchen_printer : PrinterConfig.t :=
  {| PrinterConfig.id := lit "net_192_168_0_50_9100";
     PrinterConfig.name := lit "Kitchen";
     PrinterConfig.type := network;
     PrinterConfig.address := lit "192.168.0.50:9100";
     PrinterConfig.isDefault := false;
     PrinterConfig.paperWidth := mm80;
     PrinterConfig.lastConnected := None |}.

(** An order of the shop and the label of one of its products, with
    integer quantities and amounts. *)
Definition lunch_order : @InvoiceData IntegerNumbers.numbers :=
  {| invoiceNumber := lit "INV-1042";
     guestNumber := Some (IntegerNumbers.int 2);
     specialNotes := Some (a_string (lit "No onions please, extra spicy"));
     tableNumber := Some (lit "7");
     date := lit "2025-01-05T12:30:00.000Z";
     customer := {| customer_name := lit "Walk-in"; customer_phone := lit "01700000000" |};
     items := [ {| productName := lit "Chicken Biryani"; details := lit "Large";
                   quantity := IntegerNumbers.int 2; subtotal := IntegerNumbers.int 900 |};
                {| productName := lit "Lemonade"; details := [];
                   quantity := IntegerNumbers.int 1; subtotal := IntegerNumbers.int 120 |} ];
     summary := {| total := lit "1020" |};
     payment := {| method := cash; payment_status := lit "paid";
                   paidAmount := IntegerNumbers.int 1020;
                   remainingAmount := IntegerNumbers.int 0 |};
     businessInfo := {| business_name := lit "Glory Cafe";
                        business_address := lit "12 Lake Road";
                        business_phone := lit "029876543" |} |}.

Definition tea_label : BarcodeData :=
  {| sku := lit "SKU123"; brandName := Some (lit "Glory"); categoryName := Some (lit "Tea");
     modelNo := None; shopName := Some (lit "Glory Cafe") |}.

(** The formatting of dates of a device that writes a date as the text
    it is given. *)
Definition date_as_given (s : str) : str := s.

(** The orchestrator of that device. *)
Definition shop_step := PrinterApp.step (Num := IntegerNumbers.numbers) date_as_given.
Definition shop_run := PrinterApp.run (Num := IntegerNumbers.numbers) date_as_given.
Definition shop_generateKOT := PrinterApp.generateKOT (Num := IntegerNumbers.numbers) date_as_given.
Definition shop_generateInvoice :=
  PrinterApp.generateInvoice (Num := IntegerNumbers.numbers) date_as_given.
Definition shop_generateBarcodeLabel :=
  PrinterApp.generateBarcodeLabel (Num := IntegerNumbers.numbers).

Definition shop_store : PrinterStorage.AsyncStorage :=
  PrinterStorage.savePrinter kitchen_printer
    (PrinterStorage.savePrinter counter_printer PrinterStorage.empty).

(** A printer is connected, an order is submitted and its send starts;
    [disconnect] is called and the adapter disconnects while the send
    is in flight; the send then settles. *)
Definition disconnect_during_a_send (outcome : PrinterService.Outcome)
  : list (PrinterService.Input PrinterApp.Document) :=
  [PrinterService.call_connect kitchen_printer;
   PrinterService.settles 0 (PrinterService.fulfilled true);
   PrinterService.settles 0 (PrinterService.fulfilled true);
   PrinterService.settles 0 (PrinterService.fulfilled true);
   PrinterService.call_addPrintJob KOT (PrinterApp.invoice_document lunch_order)
     (lit "job_1700000000000_k3x9") 1700000000000;
   PrinterService.call_disconnect;
   PrinterService.settles 1 (PrinterService.fulfilled true);
   PrinterService.settles 0 outcome].

(** [state.status = s], an assignment by a holder of the object. *)
Definition assign_status (s : PrinterStatus.t) (state : PrinterService.PrinterState)
  : PrinterService.PrinterState :=
  {| PrinterService.status := s;
     PrinterService.connectedPrinter := PrinterService.connectedPrinter state;
     PrinterService.availableDevices := PrinterService.availableDevices state;
     PrinterService.printQueue := PrinterService.printQueue state;
     PrinterService.lastError := PrinterService.lastError state |}.

(** The text of the digits of a decimal number. *)
Definition decimal (d : Decimal.uint) : str :=
  lit (DecimalString.NilEmpty.string_of_uint d).

(** The value of a character of the base64 alphabet, and the bytes
    that a base64 text stands for. *)
Definition base64_value (c : char) : Z :=
  (fix index (alphabet : str) (n : Z) : Z :=
     match alphabet with
     | [] => 0
     | a :: rest => if char_eqb a c then n else index rest (n + 1)
     end) USBPrinter.BASE64 0.

Fixpoint base64_bytes (fuel : nat) (text : str) : list Z :=
  match fuel, text with
  | S fuel', a :: b :: c :: d :: rest =>
      let va := base64_value a in
      let vb := base64_value b in
      let vc := base64_value c in
      let vd := base64_value d in
      if char_eqb c USBPrinter.PAD then [va * 4 + vb / 16]
      else if char_eqb d USBPrinter.PAD then [va * 4 + vb / 16; vb mod 16 * 16 + vc / 4]
      else (va * 4 + vb / 16) :: (vb mod 16 * 16 + vc / 4) :: (vc mod 4 * 64 + vd)
             :: base64_bytes fuel' rest
  | _, _ => []
  end.

(** A text of characters of the base64 alphabet and of paddings. *)
Definition base64_text (text : str) : Prop :=
  List.Forall (fun c => List.In c USBPrinter.BASE64 \/ c = USBPrinter.PAD) text.

(** The adapter says it is connected exactly when it has a device. *)
Definition USB_consistent (adapter : USBPrinter.t) : Prop :=
  USBPrinter.isConnected adapter = true <-> USBPrinter.connectedDevice adapter <> None.

Section Accounts.
Variable Payload : Type.

(** [this.state] and the array of its queue are objects of the heap. *)
Definition well_formed (w : PrinterService.World Payload) : Prop :=
  PrinterService.allocated w
  /\ (PrinterService.printQueue (PrinterService.state w)
      < List.length (PrinterService.arrays w))%nat.

(** The retry count of the job at a reference, 0 where there is none. *)
Definition retries (js : list (PrintJob.t Payload)) (r : nat) : Z :=
  match List.nth_error js r with
  | Some j => PrintJob.retryCount j
  | None => 0
  end.

(** The number of suspended executions of the job at a reference. *)
Definition sends_in_flight (tasks : list PrinterService.Task) (r : nat) : nat :=
  List.length
    (List.filter (fun task => match task with
                              | PrinterService.processQueue_at_send job _ => Nat.eqb job r
                              | _ => false
                              end) tasks).

(** The number of [print_started] events of the job at a reference. *)
Definition attempts (starts : list nat) (r : nat) : nat :=
  List.length (List.filter (Nat.eqb r) starts).

(** Every counted retry and every send in flight of a job has its own
    [print_started] event. *)
Definition accounted (w : PrinterService.World Payload) : Prop :=
  forall r,
    retries (PrinterService.jobs w) r
    + Z.of_nat (sends_in_flight (PrinterService.awaiting w) r)
    <= Z.of_nat (attempts (PrinterService.started w) r).

(** The same while the execution of the job [job] has been started and
    is neither suspended nor through its [catch] block yet. *)
Definition owed (job : nat) (w : PrinterService.World Payload) : Prop :=
  forall r,
    retries (PrinterService.jobs w) r
    + Z.of_nat (sends_in_flight (PrinterService.awaiting w) r)
    + (if Nat.eqb job r then 1 else 0)
    <= Z.of_nat (attempts (PrinterService.started w) r).

(** A job for which [print_failed] has been emitted has been started
    three times at least. *)
Definition failed_after_three (w : PrinterService.World Payload) : Prop :=
  forall r, List.In r (PrinterService.failures w) ->
            (3 <= attempts (PrinterService.started w) r)%nat.

(** The jobs of [w'] are the jobs of [w], with the identifier, the type,
    the payload and the time they were submitted with, and more jobs
    after them. *)
Definition keeps_the_jobs (w w' : PrinterService.World Payload) : Prop :=
  exists more,
    List.map PrinterService.submitted (PrinterService.jobs w')
    = List.map PrinterService.submitted (PrinterService.jobs w) ++ more.

(** Two submissions while no printer is connected, then the call of
    [connect] and the three promises it awaits, fulfilled, which starts
    the send of the first job; then [clearQueue] is called, and the send
    settles. *)
Definition clearQueue_during_a_send (config : PrinterConfig.t)
  (type1 : PrintJobType) (payload1 : Payload) (jobId1 : str) (now1 : Z)
  (type2 : PrintJobType) (payload2 : Payload) (jobId2 : str) (now2 : Z)
  : list (PrinterService.Input Payload) :=
  [PrinterService.call_addPrintJob type1 payload1 jobId1 now1;
   PrinterService.call_addPrintJob type2 payload2 jobId2 now2;
   PrinterService.call_connect config;
   PrinterService.settles 0 (PrinterService.fulfilled true);
   PrinterService.settles 0 (PrinterService.fulfilled true);
   PrinterService.settles 0 (PrinterService.fulfilled true);
   PrinterService.call_clearQueue].

End Accounts.

(** Jobs are started first come, first served: when a job is started,
    every job with a smaller reference (submitted before it) has been
    started already. *)
Definition first_come_first_served (starts : list nat) : Prop :=
  forall before r after, starts = before ++ r :: after ->
  forall r', (r' < r)%nat -> List.In r' before.

(** The messages of the WebView that ask for a print, each with the type
    of the job it asks for. *)
Definition print_messages : list (str * PrintJobType) :=
  [(lit "PRINT_KOT", KOT); (lit "PRINT_INVOICE", INVOICE);
   (lit "PRINT_BARCODE", BARCODE); (lit "PRINT_BARCODE_LABEL", BARCODE_LABEL)].

(** The payload of a print message can be queued: there is one, and for
    a barcode or a label it has a SKU that is not empty. *)
Definition printable {Num : Numbers} (jobType : PrintJobType)
  (payload : option (@PrinterApp.Document Num)) : bool :=
  match payload, jobType with
  | None, _ => false
  | Some _, (KOT | INVOICE) => true
  | Some (PrinterApp.barcode_document label), (BARCODE | BARCODE_LABEL) => truthy (sku label)
  | Some (PrinterApp.invoice_document _), (BARCODE | BARCODE_LABEL) => false
  end.

(** The error of the response to a print message that is not queued. *)
Definition nothing_to_print (jobType : PrintJobType) : str :=
  match jobType with
  | KOT | INVOICE => lit "No payload provided"
  | BARCODE | BARCODE_LABEL => lit "No SKU provided"
  end.

End Spec.

(* ================================================================== *)
(** * Properties of the layout primitives *)
(* ================================================================== *)

Section LayoutPrimitives.
Import JS Types ESCPOSEncoder.
Local Open Scope Z_scope.

Lemma length_app (a b : str) : length (a ++ b) = length a + length b.
Proof. unfold length. rewrite List.length_app. lia. Qed.

Lemma length_nonneg (a : str) : 0 <= length a.
Proof. unfold length. lia. Qed.

Lemma length_spaces (n : nat) : length (List.repeat SPACE n) = Z.of_nat n.
Proof. unfold length. now rewrite List.repeat_length. Qed.

Lemma concat_repeat_singleton (c : char) (n : nat) :
  List.concat (List.repeat [c] n) = List.repeat c n.
Proof. induction n as [|n IH]; simpl; [reflexivity | now rewrite IH]. Qed.

(** [" ".repeat(count)] for a count that is not negative. *)
Lemma repeat_space (count : Z) :
  0 <= count -> repeat [SPACE] count = Normal (List.repeat SPACE (Z.to_nat count)).
Proof.
  intros H. unfold repeat.
  destruct (Z.ltb_spec count 0) as [Hneg|_]; [lia|].
  now rewrite concat_repeat_singleton.
Qed.

Lemma repeat_negative (s : str) (count : Z) :
  count < 0 -> repeat s count = Throw (RangeError (lit "Invalid count value")).
Proof.
  intros H. unfold repeat. destruct (Z.ltb_spec count 0); [reflexivity | lia].
Qed.

(** C3. The line [twoColumn] renders is the left text, spaces and the
    right text.  When the two texts together are shorter than the line
    budget the spaces fill the line to exactly the budget, so the right
    text ends at the right margin.  When they are as long as the budget
    or longer, both texts are kept whole with one space between them. *)
Theorem twoColumn_fills_the_budget :
  forall (this : t) (left right : str),
    (length left + length right < charsPerLine this ->
     let gap := List.repeat SPACE (Z.to_nat (charsPerLine this - length left - length right)) in
     twoColumn this left right = Normal (line this (left ++ gap ++ right))
     /\ length (left ++ gap ++ right) = charsPerLine this)
    /\ (charsPerLine this <= length left + length right ->
        twoColumn this left right = Normal (line this (left ++ [SPACE] ++ right))).
Proof.
  intros this left right. split.
  - intros Hlt gap. unfold twoColumn.
    rewrite Z.max_l by lia. rewrite repeat_space by lia. simpl. split; [reflexivity|].
    unfold gap. rewrite !length_app, length_spaces. lia.
  - intros Hge. unfold twoColumn. rewrite Z.max_r by lia. reflexivity.
Qed.

Lemma twoColumn_fills_the_budget_witness :
  (length (lit "TOTAL:") + length (lit "1250") < charsPerLine (new mm58)
   /\ twoColumn (new mm58) (lit "TOTAL:") (lit "1250")
      = Normal (line (new mm58) (lit "TOTAL:                      1250")))
  /\ (charsPerLine (new mm58) <= length (lit "Payment Method:") + length (lit "Mobile Banking, paid")
      /\ twoColumn (new mm58) (lit "Payment Method:") (lit "Mobile Banking, paid")
         = Normal (line (new mm58) (lit "Payment Method: Mobile Banking, paid"))).
Proof.
  split.
  - split; [vm_compute; reflexivity|].
    destruct (twoColumn_fills_the_budget (new mm58) (lit "TOTAL:") (lit "1250")) as [H _].
    assert (Hlt : length (lit "TOTAL:") + length (lit "1250") < charsPerLine (new mm58))
      by (vm_compute; reflexivity).
    destruct (H Hlt) as [E _]. rewrite E. reflexivity.
  - split; [vm_compute; intros H; discriminate H|].
    destruct (twoColumn_fills_the_budget (new mm58) (lit "Payment Method:")
                (lit "Mobile Banking, paid")) as [_ H].
    rewrite H; [reflexivity | vm_compute; intros H'; discriminate H'].
Defined.

Lemma threeColumn_fits (this : t) (left center right : str) :
  length left + length center + length right <= charsPerLine this ->
  let remainder := charsPerLine this - (length left + length center + length right) in
  threeColumn this left center right
  = Normal (line this (left ++ List.repeat SPACE (Z.to_nat (remainder / 2)) ++ center
                       ++ List.repeat SPACE (Z.to_nat (remainder - remainder / 2)) ++ right))
  /\ 0 <= remainder / 2 <= remainder.
Proof.
  intros Hfit remainder.
  assert (Hrem : 0 <= remainder) by (unfold remainder; lia).
  assert (Hhalf : 0 <= remainder / 2) by (apply Z.div_pos; lia).
  assert (Hle : remainder / 2 <= remainder) by (apply Z.div_le_upper_bound; lia).
  assert (Hrest : 0 <= remainder - remainder / 2) by lia.
  unfold threeColumn. fold remainder.
  rewrite (repeat_space Hhalf). simpl. rewrite (repeat_space Hrest). simpl.
  split; [reflexivity | lia].
Qed.

(** C4. When the three texts fit the line budget, [threeColumn] puts
    the floor of half of the remaining space between the first and the
    second text and the rest of it between the second and the third;
    on an 80mm printer (48 characters) the texts A, B and C get 22 and
    23 spaces. *)
Theorem threeColumn_splits_the_remainder :
  (forall (this : t) (left center right : str),
     length left + length center + length right <= charsPerLine this ->
     let remainder := charsPerLine this - (length left + length center + length right) in
     let leftGap := List.repeat SPACE (Z.to_nat (remainder / 2)) in
     let rightGap := List.repeat SPACE (Z.to_nat (remainder - remainder / 2)) in
     threeColumn this left center right
     = Normal (line this (left ++ leftGap ++ center ++ rightGap ++ right))
     /\ length leftGap + length rightGap = remainder)
  /\ threeColumn (new mm80) (lit "A") (lit "B") (lit "C")
     = Normal (line (new mm80)
                 (lit "A" ++ List.repeat SPACE 22 ++ lit "B" ++ List.repeat SPACE 23 ++ lit "C")).
Proof.
  split; [|reflexivity].
  intros this left center right Hfit remainder leftGap rightGap.
  destruct (threeColumn_fits this left center right Hfit) as [E Hhalf].
  fold remainder in E, Hhalf. split; [exact E|].
  unfold leftGap, rightGap. rewrite !length_spaces. lia.
Qed.

Lemma threeColumn_splits_the_remainder_witness :
  length (lit "Qty") + length (lit "Item") + length (lit "Total") <= charsPerLine (new mm58)
  /\ threeColumn (new mm58) (lit "Qty") (lit "Item") (lit "Total")
     = Normal (line (new mm58) (lit "Qty          Item          Total")).
Proof.
  split; [vm_compute; intros H; discriminate H|].
  destruct threeColumn_splits_the_remainder as [H _].
  destruct (H (new mm58) (lit "Qty") (lit "Item") (lit "Total")) as [E _].
  - vm_compute; intros H'; discriminate H'.
  - rewrite E. reflexivity.
Defined.

(** C7. [threeColumn] on texts that together are longer than the line
    budget: the count of [repeat] is negative and the call throws a
    [RangeError], on a 58mm printer for texts of 20, 10 and 3
    characters.  [twoColumn] and [centerText], which bound their count
    from below, and [wrap] return for all texts. *)
Theorem threeColumn_throws_on_long_texts :
  threeColumn (new mm58) (lit "Chicken Tikka Masala") (lit "2 x 450.00") (lit "900")
  = Throw (RangeError (lit "Invalid count value"))
  /\ (forall (this : t) (left center right : str),
        returns (threeColumn this left center right)
        = (length left + length center + length right <=? charsPerLine this))
  /\ (forall (this : t) (left right : str), returns (twoColumn this left right) = true)
  /\ (forall (this : t) (content : str), returns (centerText this content) = true).
Proof.
  split; [reflexivity|]. split; [|split].
  - intros this left center right.
    set (total := length left + length center + length right).
    destruct (Z.leb_spec total (charsPerLine this)) as [Hfit|Hlong].
    + destruct (threeColumn_fits this left center right Hfit) as [E _]. now rewrite E.
    + unfold threeColumn. fold total.
      assert (Hneg : (charsPerLine this - total) / 2 < 0)
        by (apply Z.div_lt_upper_bound; lia).
      now rewrite (repeat_negative _ Hneg).
  - intros this left right. unfold twoColumn.
    rewrite repeat_space by lia. reflexivity.
  - intros this content. unfold centerText.
    rewrite repeat_space by lia. reflexivity.
Qed.

End LayoutPrimitives.

(* ================================================================== *)
(** * Properties of word wrap *)
(* ================================================================== *)

Section WordWrap.
Import JS Types ESCPOSEncoder Spec.
Local Open Scope Z_scope.

(** ** White space at the ends of a text *)

Lemma trimStart_before (pre : str) (a : char) (rest : str) :
  is_whitespace a = false -> trimStart (pre ++ a :: rest) = trimStart pre ++ a :: rest.
Proof.
  intros Ha. induction pre as [|c pre IH]; simpl.
  - now rewrite Ha.
  - destruct (is_whitespace c); [exact IH | reflexivity].
Qed.

Lemma trimEnd_after (front : str) (b : char) (post : str) :
  is_whitespace b = false -> trimEnd (front ++ b :: post) = front ++ b :: trimEnd post.
Proof.
  intros Hb. unfold trimEnd.
  rewrite List.rev_app_distr. simpl. rewrite <- List.app_assoc. simpl.
  rewrite trimStart_before by exact Hb.
  rewrite List.rev_app_distr. simpl. rewrite List.rev_involutive.
  now rewrite <- List.app_assoc.
Qed.

(** [trim] leaves alone a clean block and what is between the white
    space before it and the white space after it. *)
Lemma trim_around (pre u post : str) :
  clean u -> trim (pre ++ u ++ post) = trimStart pre ++ u ++ trimEnd post.
Proof.
  intros [(a & rest & Ea & Ha) (front & b & Eb & Hb)]. unfold trim.
  assert (E1 : trimEnd (pre ++ u ++ post) = pre ++ u ++ trimEnd post).
  { rewrite Eb.
    replace (pre ++ (front ++ [b]) ++ post) with ((pre ++ front) ++ b :: post)
      by (now rewrite <- !List.app_assoc).
    rewrite trimEnd_after by exact Hb. now rewrite <- !List.app_assoc. }
  rewrite E1. rewrite Ea. simpl. now rewrite trimStart_before by exact Ha.
Qed.

Lemma trim_clean (u : str) : clean u -> trim u = u.
Proof.
  intros Hu. assert (E := @trim_around [] u [] Hu).
  unfold trimEnd in E. simpl in E. rewrite List.app_nil_r in E. exact E.
Qed.

Lemma trimStart_head (s : str) :
  trimStart s = [] \/ exists a rest, trimStart s = a :: rest /\ is_whitespace a = false.
Proof.
  induction s as [|c s IH]; simpl; [now left|].
  destruct (is_whitespace c) eqn:Hc; [exact IH|].
  right. now exists c, s.
Qed.

Lemma trimStart_suffix (s : str) : exists pre, s = pre ++ trimStart s.
Proof.
  induction s as [|c s [pre IH]]; simpl; [now exists []|].
  destruct (is_whitespace c).
  - exists (c :: pre). simpl. now rewrite <- IH.
  - now exists [].
Qed.

Lemma trimEnd_prefix (s : str) : exists post, s = trimEnd s ++ post.
Proof.
  unfold trimEnd. destruct (trimStart_suffix (List.rev s)) as [pre E].
  exists (List.rev pre).
  rewrite <- List.rev_app_distr, <- E. now rewrite List.rev_involutive.
Qed.

Lemma trimEnd_last (s : str) :
  trimEnd s = [] \/ exists front b, trimEnd s = front ++ [b] /\ is_whitespace b = false.
Proof.
  unfold trimEnd. destruct (trimStart_head (List.rev s)) as [E|(a & rest & E & Ha)].
  - left. now rewrite E.
  - right. exists (List.rev rest), a. rewrite E. simpl. now split.
Qed.

(** What [trim] returns is empty or clean. *)
Lemma trim_empty_or_clean (s : str) : trim s = [] \/ clean (trim s).
Proof.
  unfold trim.
  destruct (trimStart_head (trimEnd s)) as [E|(a & rest & E & Ha)]; [now left|].
  right. split; [now exists a, rest|].
  destruct (trimEnd_last s) as [E0|(front & b & E0 & Hb)].
  - rewrite E0 in E. discriminate E.
  - destruct (trimStart_suffix (trimEnd s)) as [pre Epre].
    rewrite E in *.
    destruct (@List.exists_last _ (a :: rest)) as (front' & b' & E'); [discriminate|].
    exists front', b'. split; [exact E'|].
    rewrite E0, E' in Epre. rewrite List.app_assoc in Epre.
    apply List.app_inj_tail in Epre. destruct Epre as [_ ->]. exact Hb.
Qed.

Lemma trim_occurs (s : str) : occurs_in (trim s) s.
Proof.
  unfold trim, occurs_in.
  destruct (trimEnd_prefix s) as [post Epost].
  destruct (trimStart_suffix (trimEnd s)) as [pre Epre].
  exists pre, post. rewrite List.app_assoc, <- Epre. exact Epost.
Qed.

Lemma occurs_in_trans (u s s' : str) : occurs_in u s -> occurs_in s s' -> occurs_in u s'.
Proof.
  intros (b1 & a1 & ->) (b2 & a2 & ->). exists (b2 ++ b1), (a1 ++ a2).
  now rewrite <- !List.app_assoc.
Qed.

Lemma occurs_in_refl (s : str) : occurs_in s s.
Proof. exists [], []. simpl. now rewrite List.app_nil_r. Qed.

(** A clean block of a text is still in the text when it is trimmed. *)
Lemma occurs_in_trim (u s : str) : clean u -> occurs_in u s -> occurs_in u (trim s).
Proof.
  intros Hu (before & after & ->). rewrite trim_around by exact Hu.
  now exists (trimStart before), (trimEnd after).
Qed.

Lemma clean_truthy (u : str) : clean u -> truthy u = true.
Proof. now intros [(a & rest & -> & _) _]. Qed.

Lemma occurs_in_truthy (u s : str) : truthy u = true -> occurs_in u s -> truthy s = true.
Proof.
  intros Hu (before & after & ->).
  destruct u; [discriminate|]. now destruct before.
Qed.

(** ** The lines of [wrap] *)

Lemma charsPerLine_emit_lines (lines : list str) (this : t) :
  charsPerLine (emit_lines lines this) = charsPerLine this.
Proof.
  revert this. induction lines as [|l lines IH]; intros this; simpl; [reflexivity|].
  unfold emit_lines in IH. now rewrite IH.
Qed.

Lemma emit_lines_snoc (lines : list str) (l : str) (this : t) :
  emit_lines (lines ++ [l]) this = line (emit_lines lines this) l.
Proof. unfold emit_lines. now rewrite List.fold_left_app. Qed.

Lemma wrap_loop_lines (this : t) (ws : list str) :
  forall (lines : list str) (currentLine : str),
    List.fold_left wrap_word ws (emit_lines lines this, currentLine)
    = (emit_lines (fst (List.fold_left (wrap_word_lines (charsPerLine this)) ws
                          (lines, currentLine))) this,
       snd (List.fold_left (wrap_word_lines (charsPerLine this)) ws (lines, currentLine))).
Proof.
  induction ws as [|w ws IH]; intros lines currentLine; simpl; [reflexivity|].
  rewrite charsPerLine_emit_lines.
  destruct (length (trim (currentLine ++ SPACE :: w)) <=? charsPerLine this).
  - apply IH.
  - destruct (truthy currentLine).
    + rewrite <- emit_lines_snoc. apply IH.
    + apply IH.
Qed.

(** [wrap] appends to the buffer the lines of [wrap_lines], in order. *)
Lemma wrap_emits_wrap_lines (this : t) (content : str) :
  wrap this content = emit_lines (wrap_lines (charsPerLine this) content) this.
Proof.
  unfold wrap, wrap_lines.
  assert (E := wrap_loop_lines this (split SPACE content) [] []).
  change (emit_lines [] this) with this in E. rewrite E.
  destruct (List.fold_left (wrap_word_lines _) _ _) as [lines currentLine]. cbn [fst snd].
  destruct (truthy currentLine); cbv iota; [now rewrite emit_lines_snoc | reflexivity].
Qed.

(** ** The lines of [wrap], kept in a list *)

Variable budget : Z.

Lemma wrap_lines_finish (content : str) :
  wrap_lines budget content
  = finish (List.fold_left (wrap_word_lines budget) (split SPACE content) ([], [])).
Proof.
  unfold wrap_lines, finish.
  now destruct (List.fold_left (wrap_word_lines _) _ _) as [lines currentLine].
Qed.

(** ** No word is broken *)

Lemma held_step (u : str) (state : list str * str) (word : str) :
  clean u -> held u state -> held u (wrap_word_lines budget state word).
Proof.
  intros Hu H. destruct state as [lines currentLine]. unfold wrap_word_lines.
  unfold held in *. cbn [fst snd] in H.
  destruct (length (trim (currentLine ++ [SPACE] ++ word)) <=? budget); cbn [fst snd].
  - destruct H as [H|H]; [now left|]. right.
    apply occurs_in_trim; [exact Hu|].
    apply (occurs_in_trans H). exists [], ([SPACE] ++ word). reflexivity.
  - left. destruct H as [(l & Hin & Hl)|H].
    + exists l. split; [|exact Hl].
      destruct (truthy currentLine); [apply List.in_or_app; now left | exact Hin].
    + exists currentLine. split; [|exact H].
      rewrite (occurs_in_truthy (clean_truthy Hu) H).
      apply List.in_or_app. right. now left.
Qed.

Lemma held_word (state : list str * str) (word : str) :
  clean (trim word) -> held (trim word) (wrap_word_lines budget state word).
Proof.
  intros Hu. destruct state as [lines currentLine]. unfold wrap_word_lines.
  unfold held.
  destruct (length (trim (currentLine ++ [SPACE] ++ word)) <=? budget); right; cbn [snd].
  - apply occurs_in_trim; [exact Hu|].
    apply (occurs_in_trans (trim_occurs word)).
    exists (currentLine ++ [SPACE]), []. now rewrite List.app_nil_r, <- List.app_assoc.
  - apply trim_occurs.
Qed.

Lemma held_loop (u : str) (ws : list str) :
  clean u ->
  forall state,
    held u state \/ (exists word, List.In word ws /\ trim word = u) ->
    held u (List.fold_left (wrap_word_lines budget) ws state).
Proof.
  intros Hu. induction ws as [|w ws IH]; intros state H; simpl.
  - destruct H as [H|(word & [] & _)]. exact H.
  - apply IH. destruct H as [H|(word & [->|Hin] & E)].
    + left. now apply held_step.
    + left. rewrite <- E. apply held_word. now rewrite E.
    + right. now exists word.
Qed.

Lemma held_finish (u : str) (state : list str * str) :
  clean u -> held u state -> exists l, List.In l (finish state) /\ occurs_in u l.
Proof.
  intros Hu [(l & Hin & Hl)|H]; unfold finish.
  - exists l. split; [|exact Hl].
    destruct (truthy (snd state)); [apply List.in_or_app; now left | exact Hin].
  - exists (snd state). split; [|exact H].
    rewrite (occurs_in_truthy (clean_truthy Hu) H).
    apply List.in_or_app. right. now left.
Qed.

(** Every piece between two spaces of the text, without the white
    space at its ends, is whole in one of the lines. *)
Lemma wrap_lines_keep_words (content word : str) :
  List.In word (split SPACE content) -> trim word <> [] ->
  exists l, List.In l (wrap_lines budget content) /\ occurs_in (trim word) l.
Proof.
  intros Hin Hne. rewrite wrap_lines_finish.
  assert (Hu : clean (trim word)) by (destruct (trim_empty_or_clean word); tauto).
  apply held_finish; [exact Hu|]. apply held_loop; [exact Hu|]. right. now exists word.
Qed.

(** ** Plain texts: the greedy wrap of the words *)

Lemma split_plain (content : str) :
  plain content -> List.Forall spaceless (split SPACE content).
Proof.
  induction content as [|c content IH]; intros Hp; simpl.
  - repeat constructor.
  - inversion Hp as [|? ? Hc Hrest]; subst. specialize (IH Hrest).
    unfold char_eqb. destruct (N.eqb_spec c SPACE) as [->|Hne].
    + constructor; [constructor | exact IH].
    + assert (Hn : is_whitespace c = false).
      { destruct (is_whitespace c) eqn:E; [|reflexivity]. elim Hne. now apply Hc. }
      destruct (split SPACE content) as [|w ws].
      * repeat constructor. exact Hn.
      * inversion IH; subst. constructor; [constructor|]; assumption.
Qed.

Lemma spaceless_clean (w : str) : spaceless w -> truthy w = true -> clean w.
Proof.
  intros Hw Ht. destruct w as [|a rest]; [discriminate|]. split.
  - exists a, rest. split; [reflexivity|]. now inversion Hw.
  - destruct (@List.exists_last _ (a :: rest)) as (front & b & E); [discriminate|].
    exists front, b. split; [exact E|].
    unfold spaceless in Hw. rewrite List.Forall_forall in Hw. apply Hw.
    rewrite E. apply List.in_or_app. right. now left.
Qed.

Lemma clean_join (a m b : str) : clean a -> clean b -> clean (a ++ m ++ b).
Proof.
  intros [(x & ra & -> & Hx) _] [_ (fb & y & -> & Hy)]. split.
  - now exists x, (ra ++ m ++ fb ++ [y]).
  - exists ((x :: ra) ++ m ++ fb), y. split; [|exact Hy].
    now rewrite <- !List.app_assoc.
Qed.

Lemma tidy_trial (currentLine word : str) :
  tidy currentLine -> spaceless word -> truthy word = true -> clean (trial currentLine word).
Proof.
  intros Hc Hw Ht. assert (Hcw := spaceless_clean Hw Ht). unfold trial.
  destruct Hc as [->|Hc]; [exact Hcw|].
  rewrite (clean_truthy Hc). now apply clean_join.
Qed.

(** On a tidy current line and a piece without white space, the text
    [wrap] measures is the trial line of the specification, and the
    current line itself when the piece is empty. *)
Lemma trim_join (currentLine word : str) :
  tidy currentLine -> spaceless word ->
  trim (currentLine ++ [SPACE] ++ word)
  = if truthy word then trial currentLine word else currentLine.
Proof.
  intros Hc Hw. destruct (truthy word) eqn:Ht.
  - assert (Hcw := spaceless_clean Hw Ht). unfold trial.
    destruct Hc as [->|Hc].
    + change ([] ++ [SPACE] ++ word) with ([SPACE] ++ word).
      rewrite <- (List.app_nil_r word) at 1.
      rewrite trim_around by exact Hcw. cbn. now rewrite List.app_nil_r.
    + rewrite (clean_truthy Hc). apply trim_clean. now apply clean_join.
  - destruct word; [|discriminate]. destruct Hc as [->|Hc]; [reflexivity|].
    change (currentLine ++ [SPACE] ++ []) with ([] ++ currentLine ++ [SPACE]).
    rewrite trim_around by exact Hc. cbn. now rewrite List.app_nil_r.
Qed.

Lemma greedy_wrap_long (long word : str) (rest : list str) :
  clean long -> budget < length long ->
  greedy_wrap budget long (word :: rest) = [long] ++ greedy_wrap budget word rest.
Proof.
  intros Hl Hlong. cbn [greedy_wrap]. unfold trial, flush. rewrite (clean_truthy Hl).
  assert (Hover : budget < length (long ++ [SPACE] ++ word)).
  { rewrite length_app. generalize (length_nonneg ([SPACE] ++ word)). lia. }
  destruct (Z.leb_spec (length (long ++ [SPACE] ++ word)) budget); [lia | reflexivity].
Qed.

Lemma wrap_loop_greedy (ws : list str) :
  List.Forall spaceless ws ->
  (forall lines currentLine, tidy currentLine ->
     finish (List.fold_left (wrap_word_lines budget) ws (lines, currentLine))
     = lines ++ greedy_wrap budget currentLine (List.filter truthy ws))
  /\ (forall lines long, clean long -> budget < length long ->
        finish (List.fold_left (wrap_word_lines budget) ws (lines ++ [long], []))
        = lines ++ greedy_wrap budget long (List.filter truthy ws)).
Proof.
  induction 1 as [|w ws Hw _ [IH1 IH2]].
  - split.
    + intros lines currentLine _. simpl. unfold finish, flush. cbn [fst snd].
      destruct (truthy currentLine); [reflexivity | now rewrite List.app_nil_r].
    + intros lines long Hl _. simpl. unfold finish, flush. cbn [fst snd truthy].
      now rewrite (clean_truthy Hl).
  - split.
    + intros lines currentLine Hc. cbn [List.fold_left wrap_word_lines List.filter].
      rewrite (trim_join Hc Hw). destruct (truthy w) eqn:Ht.
      * cbn [greedy_wrap].
        destruct (Z.leb_spec (length (trial currentLine w)) budget) as [Hfit|Hover].
        -- apply IH1. right. now apply tidy_trial.
        -- rewrite IH1 by (right; now apply spaceless_clean).
           unfold flush. destruct (truthy currentLine); [now rewrite <- List.app_assoc|].
           reflexivity.
      * destruct (Z.leb_spec (length currentLine) budget) as [Hfit|Hover].
        -- now apply IH1.
        -- destruct w; [|discriminate]. destruct Hc as [->|Hc].
           ++ apply IH1. now left.
           ++ rewrite (clean_truthy Hc). now apply IH2.
    + intros lines long Hl Hlong. cbn [List.fold_left wrap_word_lines List.filter].
      rewrite (@trim_join [] w) by (assumption || now left).
      destruct (truthy w) eqn:Ht; cbv iota.
      * rewrite greedy_wrap_long by assumption.
        change (trial [] w) with w. cbn [truthy].
        assert (E : finish (List.fold_left (wrap_word_lines budget) ws (lines ++ [long], w))
                    = lines ++ [long] ++ greedy_wrap budget w (List.filter truthy ws)).
        { rewrite IH1 by (right; now apply spaceless_clean). now rewrite <- List.app_assoc. }
        destruct (length w <=? budget); exact E.
      * destruct w; [|discriminate]. cbn [truthy].
        destruct (length [] <=? budget); now apply IH2.
Qed.

(** The lines of a plain text are the greedy wrap of its words. *)
Lemma wrap_lines_greedy (content : str) :
  plain content -> wrap_lines budget content = greedy_wrap budget [] (words content).
Proof.
  intros Hp. rewrite wrap_lines_finish.
  destruct (wrap_loop_greedy (split_plain Hp)) as [H _].
  apply (H [] []). now left.
Qed.

(** ** The lines of a plain text, split again *)

Lemma split_app (a b : str) :
  split SPACE (a ++ SPACE :: b) = split SPACE a ++ split SPACE b.
Proof.
  induction a as [|c a IH]; simpl; [reflexivity|].
  rewrite IH. destruct (char_eqb c SPACE); [reflexivity|].
  destruct (split SPACE a) as [|w ws] eqn:E; [|reflexivity].
  destruct a; simpl in E; [discriminate|].
  destruct (char_eqb c0 SPACE); [discriminate|].
  destruct (split SPACE a); discriminate.
Qed.

Lemma split_spaceless (w : str) : spaceless w -> split SPACE w = [w].
Proof.
  induction 1 as [|c w Hc _ IH]; simpl; [reflexivity|].
  rewrite IH. unfold char_eqb. destruct (N.eqb_spec c SPACE) as [->|_]; [discriminate|reflexivity].
Qed.

Lemma greedy_wrap_words (ws : list str) :
  List.Forall spaceless ws -> List.Forall (fun w => truthy w = true) ws ->
  forall currentLine,
    List.flat_map (split SPACE) (greedy_wrap budget currentLine ws)
    = (if truthy currentLine then split SPACE currentLine else []) ++ ws.
Proof.
  induction 1 as [|w ws Hw _ IH]; intros Ht currentLine.
  - simpl. unfold flush. destruct (truthy currentLine); simpl; now rewrite ?List.app_nil_r.
  - inversion Ht as [|? ? Htw Htws]; subst. specialize (IH Htws).
    cbn [greedy_wrap]. destruct (length (trial currentLine w) <=? budget).
    + rewrite IH. unfold trial. destruct (truthy currentLine) eqn:Hc.
      * assert (Hn : truthy (currentLine ++ [SPACE] ++ w) = true)
          by (destruct currentLine; [discriminate | reflexivity]).
        rewrite Hn. change (currentLine ++ [SPACE] ++ w) with (currentLine ++ SPACE :: w).
        rewrite split_app, (split_spaceless Hw). now rewrite <- List.app_assoc.
      * rewrite Htw. now rewrite (split_spaceless Hw).
    + rewrite List.flat_map_app, IH, Htw, (split_spaceless Hw).
      unfold flush. destruct (truthy currentLine); simpl; now rewrite ?List.app_nil_r.
Qed.

Lemma words_truthy (content : str) : List.Forall (fun w => truthy w = true) (words content).
Proof.
  unfold words. apply List.Forall_forall. intros w Hin.
  apply List.filter_In in Hin. tauto.
Qed.

Lemma words_spaceless (content : str) : plain content -> List.Forall spaceless (words content).
Proof.
  intros Hp. unfold words. apply List.Forall_forall. intros w Hin.
  apply List.filter_In in Hin. destruct Hin as [Hin _].
  generalize (split_plain Hp). rewrite List.Forall_forall. intros H. now apply H.
Qed.

(** The lines of a plain text, split at their spaces, are its words. *)
Lemma wrap_lines_words (content : str) :
  plain content -> List.flat_map (split SPACE) (wrap_lines budget content) = words content.
Proof.
  intros Hp. rewrite (wrap_lines_greedy Hp).
  now rewrite (greedy_wrap_words (words_spaceless Hp) (words_truthy content)).
Qed.

End WordWrap.



(* ================================================================== *)
(** * Properties of the item rows *)
(* ================================================================== *)

Section ItemRows.
Import JS Types ESCPOSEncoder Spec.
Local Open Scope Z_scope.
Context {Num : Numbers}.

Lemma length_padEnd (s : str) (targetLength : Z) :
  length (padEnd s targetLength) = Z.max targetLength (length s).
Proof.
  unfold padEnd, padding. rewrite length_app, length_spaces.
  generalize (length_nonneg s). lia.
Qed.

Lemma length_padStart (s : str) (targetLength : Z) :
  length (padStart s targetLength) = Z.max targetLength (length s).
Proof.
  unfold padStart, padding. rewrite length_app, length_spaces.
  generalize (length_nonneg s). lia.
Qed.

Lemma length_slice0 (s : str) (end_ : Z) :
  0 <= end_ -> length (slice0 s end_) = Z.min end_ (length s).
Proof.
  intros H. unfold slice0. destruct (Z.ltb_spec end_ 0); [lia|].
  unfold length. rewrite List.length_firstn.
  generalize (List.length s). intros n. lia.
Qed.

Lemma slice0_prefix (s : str) (end_ : Z) : exists rest, s = slice0 s end_ ++ rest.
Proof.
  unfold slice0. eexists. symmetry. apply List.firstn_skipn.
Qed.

Lemma WIDTH_values (paperWidth : PaperWidth) : WIDTH paperWidth = 32 \/ WIDTH paperWidth = 48.
Proof. destruct paperWidth; [now left | now right]. Qed.


End ItemRows.


(* ================================================================== *)
(** * Properties of the configuration store *)
(* ================================================================== *)

Section DefaultProfile.
Import JS Types PrinterStorage Spec.
Local Open Scope Z_scope.

Lemma eqb_eq (a b : str) : eqb a b = true <-> a = b.
Proof.
  revert b. induction a as [|x a IH]; intros [|y b]; simpl; split; try easy.
  - intros H. apply andb_true_iff in H. destruct H as [Hx Hab].
    apply N.eqb_eq in Hx. apply IH in Hab. now subst.
  - intros H. inversion H; subst. apply andb_true_iff. split.
    + apply N.eqb_refl.
    + now apply IH.
Qed.

Lemma eqb_refl (a : str) : eqb a a = true.
Proof. now apply eqb_eq. Qed.

Lemma eqb_neq (a b : str) : eqb a b = false <-> a <> b.
Proof.
  split.
  - intros H E. apply eqb_eq in E. congruence.
  - intros H. destruct (eqb a b) eqn:E; [|reflexivity]. apply eqb_eq in E. contradiction.
Qed.

Lemma str_eq_dec (a b : str) : {a = b} + {a <> b}.
Proof. apply List.list_eq_dec. apply N.eq_dec. Qed.

(** ** [setDefaultPrinter] *)

Lemma getAllPrinters_setDefaultPrinter (x : str) (store : AsyncStorage) :
  getAllPrinters (setDefaultPrinter x store)
  = List.map (fun p => with_isDefault (eqb (PrinterConfig.id p) x) p) (getAllPrinters store).
Proof. reflexivity. Qed.

Lemma ids_flagged (x : str) (l : list PrinterConfig.t) :
  ids (List.map (fun p => with_isDefault (eqb (PrinterConfig.id p) x) p) l) = ids l.
Proof. unfold ids. rewrite List.map_map. reflexivity. Qed.

Lemma defaults_flagged_absent (x : str) (l : list PrinterConfig.t) :
  ~ List.In x (ids l) ->
  defaults (List.map (fun p => with_isDefault (eqb (PrinterConfig.id p) x) p) l) = [].
Proof.
  induction l as [|q l IH]; intros Hx; simpl; [reflexivity|].
  destruct (eqb (PrinterConfig.id q) x) eqn:E.
  - apply eqb_eq in E. elim Hx. now left.
  - apply IH. intros H. apply Hx. now right.
Qed.

Lemma defaults_flagged_present (x : str) (l : list PrinterConfig.t) :
  List.NoDup (ids l) -> List.In x (ids l) ->
  the_default_is x (List.map (fun p => with_isDefault (eqb (PrinterConfig.id p) x) p) l).
Proof.
  induction l as [|q l IH]; intros Hnd Hx; [contradiction|].
  simpl in Hnd. inversion Hnd as [|? ? Hq Hl]; subst. unfold the_default_is. simpl.
  destruct (eqb (PrinterConfig.id q) x) eqn:E.
  - apply eqb_eq in E. exists (with_isDefault true q). split; [|exact E].
    rewrite defaults_flagged_absent; [reflexivity|]. now rewrite <- E.
  - apply eqb_neq in E. destruct Hx as [Hx|Hx]; [contradiction|]. now apply IH.
Qed.

Lemma defaults_flagged_at_most_one (x : str) (l : list PrinterConfig.t) :
  List.NoDup (ids l) ->
  (List.length (defaults (List.map (fun p => with_isDefault (eqb (PrinterConfig.id p) x) p) l))
   <= 1)%nat.
Proof.
  intros Hnd. destruct (List.in_dec str_eq_dec x (ids l)) as [Hx|Hx].
  - destruct (@defaults_flagged_present x l Hnd Hx) as (p & -> & _). simpl. lia.
  - rewrite (@defaults_flagged_absent x l Hx). simpl. lia.
Qed.

Lemma setDefaultPrinter_consistent (x : str) (store : AsyncStorage) :
  consistent store -> consistent (setDefaultPrinter x store).
Proof.
  intros [Hnd _]. unfold consistent. rewrite getAllPrinters_setDefaultPrinter, ids_flagged.
  split; [exact Hnd | now apply defaults_flagged_at_most_one].
Qed.

(** ** [savePrinter] *)

Lemma findIndex_bounds (x : str) (l : list PrinterConfig.t) :
  findIndex x l = -1 \/ 0 <= findIndex x l.
Proof.
  induction l as [|q l IH]; simpl; [now left|].
  destruct (eqb (PrinterConfig.id q) x); [right; lia|].
  destruct (Z.ltb_spec (findIndex x l) 0); [now left | right; lia].
Qed.

Lemma saved_cons (p q : PrinterConfig.t) (l : list PrinterConfig.t) :
  saved p (q :: l)
  = if eqb (PrinterConfig.id q) (PrinterConfig.id p) then p :: l else q :: saved p l.
Proof.
  unfold saved. simpl.
  destruct (eqb (PrinterConfig.id q) (PrinterConfig.id p)); [reflexivity|].
  destruct (Z.ltb_spec (findIndex (PrinterConfig.id p) l) 0) as [Hneg|Hpos].
  - destruct (Z.leb_spec 0 (findIndex (PrinterConfig.id p) l)); [lia | reflexivity].
  - destruct (Z.leb_spec 0 (findIndex (PrinterConfig.id p) l)); [|lia].
    destruct (Z.leb_spec 0 (findIndex (PrinterConfig.id p) l + 1)); [|lia].
    replace (Z.to_nat (findIndex (PrinterConfig.id p) l + 1))
      with (S (Z.to_nat (findIndex (PrinterConfig.id p) l))) by lia.
    reflexivity.
Qed.

Lemma ids_saved_present (p : PrinterConfig.t) (l : list PrinterConfig.t) :
  List.In (PrinterConfig.id p) (ids l) -> ids (saved p l) = ids l.
Proof.
  induction l as [|q l IH]; intros Hin; [contradiction|].
  rewrite saved_cons. destruct (eqb (PrinterConfig.id q) (PrinterConfig.id p)) eqn:E.
  - apply eqb_eq in E. simpl. now rewrite E.
  - apply eqb_neq in E. destruct Hin as [Hq|Hin]; [contradiction|].
    simpl. now rewrite IH.
Qed.

Lemma ids_saved_absent (p : PrinterConfig.t) (l : list PrinterConfig.t) :
  ~ List.In (PrinterConfig.id p) (ids l) -> ids (saved p l) = ids l ++ [PrinterConfig.id p].
Proof.
  induction l as [|q l IH]; intros Hn; [reflexivity|].
  rewrite saved_cons. destruct (eqb (PrinterConfig.id q) (PrinterConfig.id p)) eqn:E.
  - apply eqb_eq in E. elim Hn. now left.
  - simpl. rewrite IH; [reflexivity|]. intros H. apply Hn. now right.
Qed.

Lemma saved_NoDup (p : PrinterConfig.t) (l : list PrinterConfig.t) :
  List.NoDup (ids l) -> List.NoDup (ids (saved p l)).
Proof.
  intros Hnd. destruct (List.in_dec str_eq_dec (PrinterConfig.id p) (ids l)) as [Hin|Hn].
  - now rewrite ids_saved_present.
  - rewrite ids_saved_absent by exact Hn.
    apply List.NoDup_app; [exact Hnd | repeat constructor; easy |].
    intros x Hx [<-|[]]. contradiction.
Qed.

Lemma defaults_saved (p : PrinterConfig.t) (l : list PrinterConfig.t) :
  PrinterConfig.isDefault p = false ->
  (List.length (defaults (saved p l)) <= List.length (defaults l))%nat.
Proof.
  intros Hp. unfold defaults. induction l as [|q l IH].
  - unfold saved. simpl. now rewrite Hp.
  - rewrite saved_cons. destruct (eqb (PrinterConfig.id q) (PrinterConfig.id p)).
    + simpl. rewrite Hp. destruct (PrinterConfig.isDefault q); simpl; lia.
    + simpl. destruct (PrinterConfig.isDefault q); simpl; lia.
Qed.

Lemma savePrinter_consistent (p : PrinterConfig.t) (store : AsyncStorage) :
  consistent store -> consistent (savePrinter p store).
Proof.
  intros [Hnd Hone]. unfold savePrinter.
  assert (Hsaved : consistent (setItem_PRINTERS (saved p (getAllPrinters store)) store)
                   \/ PrinterConfig.isDefault p = true).
  { destruct (PrinterConfig.isDefault p) eqn:Hp; [now right|]. left. split.
    - now apply saved_NoDup.
    - change (getAllPrinters (setItem_PRINTERS (saved p (getAllPrinters store)) store))
        with (saved p (getAllPrinters store)).
      generalize (@defaults_saved p (getAllPrinters store) Hp). lia. }
  destruct (PrinterConfig.isDefault p) eqn:Hp.
  - unfold consistent. rewrite getAllPrinters_setDefaultPrinter, ids_flagged.
    assert (Hnd' := @saved_NoDup p (getAllPrinters store) Hnd).
    split; [exact Hnd' | now apply defaults_flagged_at_most_one].
  - destruct Hsaved as [H|H]; [exact H | discriminate H].
Qed.

(** ** The other operations *)

Lemma filter_NoDup_ids (keep : PrinterConfig.t -> bool) (l : list PrinterConfig.t) :
  List.NoDup (ids l) -> List.NoDup (ids (List.filter keep l)).
Proof.
  induction l as [|q l IH]; intros Hnd; simpl; [constructor|].
  simpl in Hnd. inversion Hnd as [|? ? Hq Hl]; subst.
  destruct (keep q); [|now apply IH]. simpl. constructor; [|now apply IH].
  intros Hin. apply Hq. unfold ids in *. apply List.in_map_iff in Hin.
  destruct Hin as (r & Er & Hr). apply List.filter_In in Hr.
  apply List.in_map_iff. exists r. tauto.
Qed.

Lemma filter_defaults_le (keep : PrinterConfig.t -> bool) (l : list PrinterConfig.t) :
  (List.length (defaults (List.filter keep l)) <= List.length (defaults l))%nat.
Proof.
  unfold defaults. induction l as [|q l IH]; simpl; [lia|].
  destruct (keep q); simpl; destruct (PrinterConfig.isDefault q); simpl; lia.
Qed.

Lemma deletePrinter_consistent (x : str) (store : AsyncStorage) :
  consistent store -> consistent (deletePrinter x store).
Proof.
  intros [Hnd Hone].
  set (keep := fun p => negb (eqb (PrinterConfig.id p) x)).
  assert (H : consistent (setItem_PRINTERS (List.filter keep (getAllPrinters store)) store)).
  { split;
      change (getAllPrinters (setItem_PRINTERS (List.filter keep (getAllPrinters store)) store))
        with (List.filter keep (getAllPrinters store)).
    - now apply filter_NoDup_ids.
    - generalize (filter_defaults_le keep (getAllPrinters store)). lia. }
  unfold deletePrinter. fold keep. simpl.
  destruct (DEFAULT_PRINTER store) as [d|]; [|exact H].
  destruct (eqb d x); exact H.
Qed.

Lemma perform_consistent (store : AsyncStorage) (op : operation) :
  consistent store -> consistent (perform store op).
Proof.
  intros H. destruct op as [p|x|x|settings| |x now]; simpl.
  - now apply savePrinter_consistent.
  - now apply deletePrinter_consistent.
  - now apply setDefaultPrinter_consistent.
  - exact H.
  - split; simpl; [constructor | lia].
  - unfold updateLastConnected. destruct (getPrinterById x store); [|exact H].
    now apply savePrinter_consistent.
Qed.

(** C9, as the code has it.  In a store whose profiles have distinct
    identifiers and at most one default flag, every operation leaves a
    store of that kind.  After [setDefaultPrinter] with the identifier
    of a stored profile, exactly one profile has the default flag and
    it is that one; with an identifier that no stored profile has, no
    profile has the flag. *)
Theorem setDefaultPrinter_marks_the_stored_profile :
  forall store : AsyncStorage,
    consistent store ->
    (forall op, consistent (perform store op))
    /\ (forall id, List.In id (ids (getAllPrinters store)) ->
        the_default_is id (getAllPrinters (setDefaultPrinter id store)))
    /\ (forall id, ~ List.In id (ids (getAllPrinters store)) ->
        defaults (getAllPrinters (setDefaultPrinter id store)) = []).
Proof.
  intros store Hc. split; [|split].
  - intros op. now apply perform_consistent.
  - intros id Hin. rewrite getAllPrinters_setDefaultPrinter.
    destruct Hc as [Hnd _]. now apply defaults_flagged_present.
  - intros id Hn. rewrite getAllPrinters_setDefaultPrinter.
    now apply defaults_flagged_absent.
Qed.

End DefaultProfile.

Lemma setDefaultPrinter_marks_the_stored_profile_witness :
  Spec.consistent Spec.shop_store
  /\ Spec.the_default_is (Types.PrinterConfig.id Spec.kitchen_printer)
       (PrinterStorage.getAllPrinters
          (PrinterStorage.setDefaultPrinter (Types.PrinterConfig.id Spec.kitchen_printer)
             Spec.shop_store))
  /\ Spec.consistent
       (PrinterStorage.perform Spec.shop_store
          (PrinterStorage.op_updateLastConnected (Types.PrinterConfig.id Spec.counter_printer) 1700000000000)).
Proof.
  assert (Hc : Spec.consistent Spec.shop_store).
  { split.
    - vm_compute. repeat constructor; simpl; intuition discriminate.
    - vm_compute. apply le_n. }
  destruct (setDefaultPrinter_marks_the_stored_profile Hc) as (Hop & Hset & _).
  split; [exact Hc|]. split.
  - apply Hset. vm_compute. tauto.
  - apply Hop.
Defined.

(** C9, as stated, does not hold for every identifier: in the store of
    the shop, [setDefaultPrinter] with the identifier of a USB printer
    that was never saved clears the flag of the printer of the counter
    and sets no other, so no profile is the default. *)
Lemma setDefaultPrinter_of_an_unknown_identifier :
  Spec.defaults (PrinterStorage.getAllPrinters Spec.shop_store) = [Spec.counter_printer]
  /\ Spec.defaults
       (PrinterStorage.getAllPrinters
          (PrinterStorage.setDefaultPrinter (JS.lit "usb_7") Spec.shop_store)) = []
  /\ ~ Spec.the_default_is (JS.lit "usb_7")
         (PrinterStorage.getAllPrinters
            (PrinterStorage.setDefaultPrinter (JS.lit "usb_7") Spec.shop_store)).
Proof.
  split; [reflexivity|]. split; [reflexivity|].
  intros (p & H & _). vm_compute in H. discriminate H.
Qed.

(* ================================================================== *)
(** * Properties of the orchestrator *)
(* ================================================================== *)

Section Orchestrator.
Import JS Types PrinterService.
Local Open Scope Z_scope.

Variable Payload : Type.
Variable generateKOT : Payload -> PaperWidth -> completion (list Z).
Variable generateInvoice : Payload -> PaperWidth -> completion (list Z).
Variable generateBarcodeLabel : Payload -> PaperWidth -> completion (list Z).
Variable Platform_OS_web : bool.

Local Abbreviation World := (World Payload).
Local Abbreviation Job := (PrintJob.t Payload).
Local Abbreviation executePrintJob :=
  (executePrintJob generateKOT generateInvoice generateBarcodeLabel).
Local Abbreviation processQueue_loop :=
  (processQueue_loop generateKOT generateInvoice generateBarcodeLabel).
Local Abbreviation processQueue :=
  (processQueue generateKOT generateInvoice generateBarcodeLabel Platform_OS_web).
Local Abbreviation step := (step generateKOT generateInvoice generateBarcodeLabel Platform_OS_web).
Local Abbreviation run := (run generateKOT generateInvoice generateBarcodeLabel Platform_OS_web).
Local Abbreviation generate := (generate generateKOT generateInvoice generateBarcodeLabel).

(** ** Objects of the heap *)

Lemma length_modify {A} (f : A -> A) (r : nat) (heap : list A) :
  List.length (modify f r heap) = List.length heap.
Proof.
  revert r. induction heap as [|x heap IH]; intros [|r]; simpl; auto.
Qed.

Lemma nth_error_modify {A} (f : A -> A) (r r' : nat) (heap : list A) :
  List.nth_error (modify f r heap) r'
  = if Nat.eqb r r' then option_map f (List.nth_error heap r') else List.nth_error heap r'.
Proof.
  revert r r'. induction heap as [|x heap IH]; intros [|r] [|r']; simpl; auto.
  now destruct (Nat.eqb r r').
Qed.

Lemma nth_modify {A} (f : A -> A) (r : nat) (heap : list A) (d : A) :
  List.nth r (modify f r heap) d = List.nth r heap d
  \/ List.nth r (modify f r heap) d = f (List.nth r heap d).
Proof.
  revert r. induction heap as [|x heap IH]; intros [|r]; simpl; auto.
Qed.

Lemma modify_nothing {A} (f : A -> A) (r : nat) (heap : list A) :
  List.nth_error heap r = None -> modify f r heap = heap.
Proof.
  revert r. induction heap as [|x heap IH]; intros [|r] H; simpl in *; try easy.
  now rewrite IH.
Qed.

Lemma modify_modify {A} (f g h : A -> A) (r : nat) (heap : list A) :
  (forall x, List.nth_error heap r = Some x -> h x = g (f x)) ->
  modify g r (modify f r heap) = modify h r heap.
Proof.
  revert r. induction heap as [|x heap IH]; intros [|r] H; simpl; auto.
  - now rewrite (H x).
  - now rewrite IH.
Qed.

Lemma map_modify {A B} (k : A -> B) (f : A -> A) (r : nat) (heap : list A) :
  (forall x, k (f x) = k x) -> List.map k (modify f r heap) = List.map k heap.
Proof.
  intros H. revert r. induction heap as [|x heap IH]; intros [|r]; simpl; auto.
  - now rewrite H.
  - now rewrite IH.
Qed.

(** ** What each method leaves of an observation *)

Lemma started_emit (e : Event) (w : World) :
  started (emit e w)
  = started w ++ match e with print_started r => [r] | _ => [] end.
Proof.
  unfold started, emit. simpl. rewrite List.flat_map_app. simpl.
  now rewrite List.app_nil_r.
Qed.

Lemma observe_emit (e : Event) (w : World) :
  observe (emit e w)
  = {| the_status := the_status (observe w);
       the_printer := the_printer (observe w);
       the_jobs := the_jobs (observe w);
       the_awaiting := the_awaiting (observe w);
       the_started := the_started (observe w)
                      ++ match e with print_started r => [r] | _ => [] end |}.
Proof. unfold observe. rewrite started_emit. reflexivity. Qed.

Lemma state_updateState (updates : Updates) (w : World) :
  state (updateState updates w)
  = {| status := or_else (status' updates) (status (state w));
       connectedPrinter := or_else (connectedPrinter' updates) (connectedPrinter (state w));
       availableDevices := availableDevices (state w);
       printQueue := printQueue (state w);
       lastError := or_else (lastError' updates) (lastError (state w)) |}.
Proof.
  unfold updateState, emit, state at 1, state_at. simpl.
  now rewrite List.nth_middle.
Qed.

Lemma observe_updateState (updates : Updates) (w : World) :
  observe (updateState updates w)
  = {| the_status := or_else (status' updates) (the_status (observe w));
       the_printer := or_else (connectedPrinter' updates) (the_printer (observe w));
       the_jobs := the_jobs (observe w);
       the_awaiting := the_awaiting (observe w);
       the_started := the_started (observe w) |}.
Proof.
  unfold observe at 1. rewrite state_updateState. simpl.
  unfold updateState. rewrite started_emit. simpl. now rewrite List.app_nil_r.
Qed.

Lemma observe_setStatus (s : PrinterStatus.t) (w : World) :
  observe (setStatus s w)
  = {| the_status := s;
       the_printer := the_printer (observe w);
       the_jobs := the_jobs (observe w);
       the_awaiting := the_awaiting (observe w);
       the_started := the_started (observe w) |}.
Proof. unfold setStatus. now rewrite observe_updateState. Qed.

Lemma observe_write_job (f : Job -> Job) (r : jref) (w : World) :
  observe (write_job f r w)
  = {| the_status := the_status (observe w);
       the_printer := the_printer (observe w);
       the_jobs := modify f r (the_jobs (observe w));
       the_awaiting := the_awaiting (observe w);
       the_started := the_started (observe w) |}.
Proof. reflexivity. Qed.

Lemma observe_filter_queue (keep : jref -> bool) (w : World) :
  observe (filter_queue keep w) = observe w.
Proof.
  unfold observe, filter_queue, state, state_at, started. simpl.
  destruct (nth_modify (with_printQueue (List.length (arrays w))) (this_state w) (states w)
              (initial_state)) as [E|E]; rewrite E; reflexivity.
Qed.

Lemma observe_removeJobFromQueue (jobId : str) (w : World) :
  observe (removeJobFromQueue jobId w) = observe w.
Proof. apply observe_filter_queue. Qed.

Lemma status_failed_attempt (m : option str) (j : Job) :
  PrintJob.status (failed_attempt m j) <> JobStatus.printing.
Proof.
  unfold failed_attempt. simpl.
  destruct (PrintJob.retryCount j + 1 <? 3); discriminate.
Qed.

Lemma observe_set_timers (n : nat) (w : World) : observe (set_timers n w) = observe w.
Proof. reflexivity. Qed.

Lemma observe_set_alerts (a : list Alert) (w : World) : observe (set_alerts a w) = observe w.
Proof. reflexivity. Qed.

Lemma observe_set_sent (d : list (PrinterConnectionType * list Z)) (w : World) :
  observe (set_sent d w) = observe w.
Proof. reflexivity. Qed.

Lemma observe_set_isProcessingQueue (b : bool) (w : World) :
  observe (set_isProcessingQueue b w) = observe w.
Proof. reflexivity. Qed.

Lemma observe_set_awaiting (a : list Task) (w : World) :
  observe (set_awaiting a w)
  = {| the_status := the_status (observe w);
       the_printer := the_printer (observe w);
       the_jobs := the_jobs (observe w);
       the_awaiting := a;
       the_started := the_started (observe w) |}.
Proof. reflexivity. Qed.

Lemma job_at_write_job (f : Job -> Job) (r r' : jref) (w : World) :
  job_at (write_job f r w) r'
  = if Nat.eqb r r' then option_map f (job_at w r') else job_at w r'.
Proof. unfold job_at. simpl. apply nth_error_modify. Qed.

Create Rewrite HintDb observe.

Hint Rewrite observe_emit observe_updateState observe_setStatus observe_write_job
  observe_filter_queue observe_removeJobFromQueue observe_set_timers observe_set_alerts
  observe_set_sent observe_set_isProcessingQueue observe_set_awaiting : observe.

Ltac observing :=
  autorewrite with observe;
  cbn [the_status the_printer the_jobs the_awaiting the_started or_else
       status' connectedPrinter' lastError'].

Lemma observe_executePrintJob_catch (job : jref) (m : option str) (w : World) :
  observe (executePrintJob_catch job m w)
  = {| the_status := PrinterStatus.connected;
       the_printer := the_printer (observe w);
       the_jobs := modify (failed_attempt m) job (the_jobs (observe w));
       the_awaiting := the_awaiting (observe w);
       the_started := the_started (observe w) |}.
Proof.
  unfold executePrintJob_catch.
  set (f := with_failure (message_or m (lit "Print failed"))).
  rewrite job_at_write_job, Nat.eqb_refl.
  assert (Hno : job_at w job = None -> modify f job (jobs w) = modify (failed_attempt m) job (jobs w)).
  { intros Hn. unfold job_at in Hn. now rewrite !modify_nothing. }
  destruct (job_at w job) as [j|] eqn:Ej; cbn [option_map].
  - assert (Hh : forall s, s = (if PrintJob.retryCount (f j) <? 3 then JobStatus.pending
                               else JobStatus.failed) ->
                 modify (with_status s) job (modify f job (jobs w))
                 = modify (failed_attempt m) job (jobs w)).
    { intros s ->. apply modify_modify. intros x Hx. unfold job_at in Ej.
      assert (x = j) by congruence. subst x. reflexivity. }
    destruct (PrintJob.retryCount (f j) <? 3) eqn:Hr; observing; rewrite ?List.app_nil_r;
      f_equal; now apply Hh.
  - observing. f_equal. now apply Hno.
Qed.

Lemma observe_executePrintJob_sent (job : jref) (w : World) :
  observe (executePrintJob_sent job w)
  = {| the_status := PrinterStatus.connected;
       the_printer := the_printer (observe w);
       the_jobs := modify (with_status JobStatus.completed) job (the_jobs (observe w));
       the_awaiting := the_awaiting (observe w);
       the_started := the_started (observe w) |}.
Proof.
  unfold executePrintJob_sent. observing.
  destruct (job_at _ job); observing; now rewrite List.app_nil_r.
Qed.

(** ** The [catch] block of one execution *)

Lemma failures_emit (e : Event) (w : World) :
  failures (emit e w)
  = failures w ++ match e with print_failed r _ => [r] | _ => [] end.
Proof.
  unfold failures, emit. simpl. rewrite List.flat_map_app. simpl.
  now rewrite List.app_nil_r.
Qed.

Lemma failures_setStatus (s : PrinterStatus.t) (w : World) :
  failures (setStatus s w) = failures w.
Proof.
  unfold setStatus, updateState. rewrite failures_emit. simpl. now rewrite List.app_nil_r.
Qed.

Lemma executePrintJob_catch_job (job : jref) (m : option str) (w : World) (j : Job) :
  job_at w job = Some j ->
  job_at (executePrintJob_catch job m w) job = Some (failed_attempt m j)
  /\ failures (executePrintJob_catch job m w)
     = failures w ++ (if PrintJob.retryCount j + 1 <? 3 then [] else [job])
  /\ timers (executePrintJob_catch job m w)
     = (if PrintJob.retryCount j + 1 <? 3 then S (timers w) else timers w).
Proof.
  intros Hj. split; [|split].
  - unfold job_at.
    change (jobs (executePrintJob_catch job m w))
      with (the_jobs (observe (executePrintJob_catch job m w))).
    rewrite observe_executePrintJob_catch. cbn [the_jobs observe].
    rewrite nth_error_modify, Nat.eqb_refl. unfold job_at in Hj. now rewrite Hj.
  - unfold executePrintJob_catch. rewrite failures_setStatus.
    rewrite job_at_write_job, Nat.eqb_refl, Hj. cbn [option_map].
    change (PrintJob.retryCount (with_failure (message_or m (lit "Print failed")) j))
      with (PrintJob.retryCount j + 1).
    destruct (PrintJob.retryCount j + 1 <? 3).
    + now rewrite List.app_nil_r.
    + change (failures (set_alerts ?a ?x)) with (failures x).
      now rewrite failures_emit.
  - unfold executePrintJob_catch.
    rewrite job_at_write_job, Nat.eqb_refl, Hj. cbn [option_map].
    change (PrintJob.retryCount (with_failure (message_or m (lit "Print failed")) j))
      with (PrintJob.retryCount j + 1).
    destruct (PrintJob.retryCount j + 1 <? 3); reflexivity.
Qed.

(** ** Jobs with the status [printing] *)

Lemma none_printing_modify (g : Job -> Job) (r : jref) (js : list Job) :
  none_printing js -> (forall j, PrintJob.status (g j) <> JobStatus.printing) ->
  none_printing (modify g r js).
Proof.
  intros H Hg r' j'. rewrite nth_error_modify.
  destruct (Nat.eqb r r'); [|apply H].
  destruct (List.nth_error js r'); simpl; [|discriminate]. intros [= <-]. apply Hg.
Qed.

Lemma only_printing_modify (r : jref) (js : list Job) :
  none_printing js -> (r < List.length js)%nat ->
  only_printing r (modify (with_status JobStatus.printing) r js).
Proof.
  intros H Hr. split.
  - destruct (List.nth_error js r) as [j|] eqn:E.
    + exists (with_status JobStatus.printing j). split; [|reflexivity].
      now rewrite nth_error_modify, Nat.eqb_refl, E.
    + apply List.nth_error_None in E. lia.
  - intros r' j' Hne. rewrite nth_error_modify.
    destruct (Nat.eqb_spec r r'); [congruence | apply H].
Qed.

Lemma only_printing_done (g : Job -> Job) (r : jref) (js : list Job) :
  only_printing r js -> (forall j, PrintJob.status (g j) <> JobStatus.printing) ->
  none_printing (modify g r js).
Proof.
  intros [_ H] Hg r' j'. rewrite nth_error_modify.
  destruct (Nat.eqb_spec r r') as [<-|Hne].
  - destruct (List.nth_error js r); simpl; [|discriminate]. intros [= <-]. apply Hg.
  - apply H. congruence.
Qed.

Lemma submitted_with_status (s : JobStatus.t) (j : Job) : submitted (with_status s j) = submitted j.
Proof. reflexivity. Qed.

Lemma submitted_failed_attempt (m : option str) (j : Job) :
  submitted (failed_attempt m j) = submitted j.
Proof. reflexivity. Qed.

(** ** One execution *)

Lemma executePrintJob_outcome (job : jref) (w : World) (j : Job) (c : PrinterConfig.t) :
  job_at w job = Some j -> the_printer (observe w) = Some c ->
  (exists w', executePrintJob job w = (w', true)
              /\ observe w'
                 = {| the_status := PrinterStatus.printing;
                      the_printer := Some c;
                      the_jobs := modify (with_status JobStatus.printing) job (jobs w);
                      the_awaiting := awaiting w;
                      the_started := started w ++ [job] |})
  \/ (exists w' m, executePrintJob job w = (w', false)
                   /\ observe w'
                      = {| the_status := PrinterStatus.connected;
                           the_printer := Some c;
                           the_jobs := modify (fun j => failed_attempt m (with_status JobStatus.printing j))
                                         job (jobs w);
                           the_awaiting := awaiting w;
                           the_started := started w ++ [job] |}).
Proof.
  intros Hj Hc. unfold PrinterService.executePrintJob.
  set (w1 := emit (print_started job)
               (setStatus PrinterStatus.printing (write_job (with_status JobStatus.printing) job w))).
  assert (E1 : observe w1
               = {| the_status := PrinterStatus.printing;
                    the_printer := Some c;
                    the_jobs := modify (with_status JobStatus.printing) job (jobs w);
                    the_awaiting := awaiting w;
                    the_started := started w ++ [job] |}).
  { unfold w1. observing. now rewrite Hc. }
  change (job_at w1 job) with (List.nth_error (the_jobs (observe w1)) job).
  change (connectedPrinter (state w1)) with (the_printer (observe w1)).
  unfold sendToPrinter.
  change (connectedPrinter (state w1)) with (the_printer (observe w1)).
  rewrite E1. cbn [the_jobs the_printer].
  rewrite nth_error_modify, Nat.eqb_refl. unfold job_at in Hj. rewrite Hj. cbn [option_map].
  destruct (generate _ _ _) as [printData|e].
  - left. eexists. split; [reflexivity|]. now rewrite observe_set_sent.
  - right. eexists. exists (Some (message e)). split; [reflexivity|].
    rewrite observe_executePrintJob_catch, E1. cbn [the_printer the_jobs the_awaiting the_started].
    f_equal. apply modify_modify. reflexivity.
Qed.

Lemma executePrintJob_suspends (job : jref) (w : World) (j : Job) (c : PrinterConfig.t) :
  job_at w job = Some j -> the_printer (observe w) = Some c ->
  returns (generate (PrintJob.type j) (PrintJob.payload j) (PrinterConfig.paperWidth c)) = true ->
  exists w', executePrintJob job w = (w', true)
             /\ observe w'
                = {| the_status := PrinterStatus.printing;
                     the_printer := Some c;
                     the_jobs := modify (with_status JobStatus.printing) job (jobs w);
                     the_awaiting := awaiting w;
                     the_started := started w ++ [job] |}.
Proof.
  intros Hj Hc Hg. unfold PrinterService.executePrintJob.
  set (w1 := emit (print_started job)
               (setStatus PrinterStatus.printing (write_job (with_status JobStatus.printing) job w))).
  assert (E1 : observe w1
               = {| the_status := PrinterStatus.printing;
                    the_printer := Some c;
                    the_jobs := modify (with_status JobStatus.printing) job (jobs w);
                    the_awaiting := awaiting w;
                    the_started := started w ++ [job] |}).
  { unfold w1. observing. now rewrite Hc. }
  change (job_at w1 job) with (List.nth_error (the_jobs (observe w1)) job).
  change (connectedPrinter (state w1)) with (the_printer (observe w1)).
  unfold sendToPrinter.
  change (connectedPrinter (state w1)) with (the_printer (observe w1)).
  rewrite E1. cbn [the_jobs the_printer].
  rewrite nth_error_modify, Nat.eqb_refl. unfold job_at in Hj. rewrite Hj. cbn [option_map].
  change (PrintJob.type (with_status JobStatus.printing j)) with (PrintJob.type j).
  change (PrintJob.payload (with_status JobStatus.printing j)) with (PrintJob.payload j).
  destruct (generate _ _ _) as [printData|e]; [|discriminate Hg].
  eexists. split; [reflexivity|]. now rewrite observe_set_sent.
Qed.

(** ** The loop of [processQueue] *)

Lemma processQueue_loop_outcome (c : PrinterConfig.t) (rest : list jref) :
  forall w : World,
    the_status (observe w) = PrinterStatus.connected ->
    the_printer (observe w) = Some c ->
    none_printing (jobs w) ->
    List.Forall (fun r => (r < List.length (jobs w))%nat) rest ->
    let w' := processQueue_loop rest w in
    the_printer (observe w') = Some c
    /\ List.map submitted (jobs w') = List.map submitted (jobs w)
    /\ ((exists before r after,
           rest = before ++ r :: after
           /\ the_awaiting (observe w') = awaiting w ++ [processQueue_at_send r after]
           /\ the_status (observe w') = PrinterStatus.printing
           /\ only_printing r (jobs w')
           /\ the_started (observe w') = started w ++ before ++ [r])
        \/ (the_awaiting (observe w') = awaiting w
            /\ the_status (observe w') = PrinterStatus.connected
            /\ none_printing (jobs w')
            /\ the_started (observe w') = started w ++ rest)).
Proof.
  induction rest as [|job rest IH]; intros w Hs Hp Hn Hv w'.
  - unfold w'. cbn [PrinterService.processQueue_loop]. rewrite observe_set_isProcessingQueue.
    split; [exact Hp|]. split; [reflexivity|]. right.
    repeat split; try assumption. now rewrite List.app_nil_r.
  - unfold w'. cbn [PrinterService.processQueue_loop].
    change (status (state w)) with (the_status (observe w)). rewrite Hs. cbn [PrinterStatus.eqb negb].
    inversion Hv as [|? ? Hjob Hrest]; subst.
    destruct (List.nth_error (jobs w) job) as [j|] eqn:Ej;
      [|apply List.nth_error_None in Ej; lia].
    destruct (@executePrintJob_outcome job w j c Ej Hp) as [(w1 & -> & E1)|(w1 & m & -> & E1)].
    + rewrite observe_set_awaiting.
      change (jobs (set_awaiting _ w1)) with (the_jobs (observe w1)).
      change (awaiting w1) with (the_awaiting (observe w1)).
      rewrite E1. cbn [the_status the_printer the_jobs the_awaiting the_started].
      split; [reflexivity|]. split; [now apply map_modify|]. left.
      exists [], job, rest. repeat split; try reflexivity.
      * destruct (@only_printing_modify job (jobs w) Hn Hjob) as [H _]. exact H.
      * apply (@only_printing_modify job (jobs w) Hn Hjob).
    + assert (Ej1 : jobs w1 = the_jobs (observe w1)) by reflexivity.
      assert (Ea1 : awaiting w1 = the_awaiting (observe w1)) by reflexivity.
      assert (Es1 : started w1 = the_started (observe w1)) by reflexivity.
      rewrite E1 in Ej1, Ea1, Es1. cbn [the_jobs the_awaiting the_started] in Ej1, Ea1, Es1.
      destruct (IH w1) as (Hp' & Hsub & Hcases).
      * now rewrite E1.
      * now rewrite E1.
      * rewrite Ej1. apply none_printing_modify; [exact Hn|].
        intros x. apply status_failed_attempt.
      * rewrite Ej1, length_modify. exact Hrest.
      * split; [exact Hp'|]. split.
        { rewrite Hsub, Ej1. now apply map_modify. }
        rewrite Ea1, Es1 in Hcases.
        destruct Hcases as [(before & r & after & -> & Ha & Hst & Ho & Hstarted)|(Ha & Hst & Hno & Hstarted)].
        -- left. exists (job :: before), r, after. repeat split; try assumption.
           ++ destruct Ho as [H _]. exact H.
           ++ apply Ho.
           ++ rewrite Hstarted. now rewrite <- List.app_assoc.
        -- right. repeat split; try assumption.
           rewrite Hstarted. now rewrite <- List.app_assoc.
Qed.

Lemma processQueue_loop_suspends (job : jref) (rest : list jref) (w : World) (j : Job)
  (c : PrinterConfig.t) :
  the_status (observe w) = PrinterStatus.connected ->
  the_printer (observe w) = Some c ->
  List.nth_error (the_jobs (observe w)) job = Some j ->
  returns (generate (PrintJob.type j) (PrintJob.payload j) (PrinterConfig.paperWidth c)) = true ->
  observe (processQueue_loop (job :: rest) w)
  = {| the_status := PrinterStatus.printing;
       the_printer := Some c;
       the_jobs := modify (with_status JobStatus.printing) job (the_jobs (observe w));
       the_awaiting := the_awaiting (observe w) ++ [processQueue_at_send job rest];
       the_started := the_started (observe w) ++ [job] |}.
Proof.
  intros Hs Hp Hj Hg. cbn [PrinterService.processQueue_loop].
  change (status (state w)) with (the_status (observe w)). rewrite Hs.
  cbn [PrinterStatus.eqb negb].
  destruct (@executePrintJob_suspends job w j c Hj Hp Hg) as (w1 & -> & E1).
  rewrite observe_set_awaiting.
  change (awaiting w1) with (the_awaiting (observe w1)). now rewrite E1.
Qed.

(** The promise of the send of job [r] is fulfilled. *)
Lemma step_send_fulfilled (r : jref) (rest : list jref) (v : bool) (w : World) :
  the_awaiting (observe w) = [processQueue_at_send r rest] ->
  step w (settles 0 (fulfilled v))
  = processQueue_loop rest (executePrintJob_sent r (set_awaiting [] w)).
Proof.
  intros Ha. cbn [PrinterService.step].
  change (awaiting w) with (the_awaiting (observe w)). now rewrite Ha.
Qed.

Lemma observe_showNoPrinterAlert (w : World) :
  observe (showNoPrinterAlert Platform_OS_web w) = observe w.
Proof. unfold showNoPrinterAlert. now destruct Platform_OS_web. Qed.

(** [processQueue] leaves things as they are, or the orchestrator is
    connected and it runs its loop over the pending jobs of the queue. *)
Lemma processQueue_outcome (w : World) :
  observe (processQueue w) = observe w
  \/ (the_status (observe w) = PrinterStatus.connected
      /\ exists c pendingJobs,
           the_printer (observe w) = Some c
           /\ List.Forall (fun r => (r < List.length (jobs w))%nat) pendingJobs
           /\ processQueue w = processQueue_loop pendingJobs (set_isProcessingQueue true w)).
Proof.
  unfold PrinterService.processQueue.
  destruct (isProcessingQueue w); [now left|].
  assert (Hv : List.Forall (fun r => (r < List.length (jobs w))%nat)
                 (List.filter (job_status_is w JobStatus.pending) (queue w))).
  { apply List.Forall_forall. intros r Hr. apply List.filter_In in Hr. destruct Hr as [_ Hr].
    unfold job_status_is, job_at in Hr.
    destruct (List.nth_error (jobs w) r) eqn:E; [|discriminate].
    apply List.nth_error_Some. congruence. }
  destruct (List.filter (job_status_is w JobStatus.pending) (queue w)) as [|r pendingJobs];
    [now left|].
  change (status (state w)) with (the_status (observe w)).
  change (connectedPrinter (state w)) with (the_printer (observe w)).
  destruct (the_status (observe w)); cbn [PrinterStatus.eqb negb orb];
    try (left; apply observe_showNoPrinterAlert).
  destruct (the_printer (observe w)) as [c|]; [|left; apply observe_showNoPrinterAlert].
  right. split; [reflexivity|]. now exists c, (r :: pendingJobs).
Qed.

Lemma processQueue_runs (w : World) (c : PrinterConfig.t) (r : jref) (rest : list jref) :
  isProcessingQueue w = false ->
  List.filter (job_status_is w JobStatus.pending) (queue w) = r :: rest ->
  status (state w) = PrinterStatus.connected ->
  connectedPrinter (state w) = Some c ->
  processQueue w = processQueue_loop (r :: rest) (set_isProcessingQueue true w).
Proof.
  intros Hf Hq Hs Hc. unfold PrinterService.processQueue.
  now rewrite Hf, Hq, Hs, Hc.
Qed.

(** ** The drain of three jobs *)

Section ThreeJobs.
Variable config : PrinterConfig.t.
Variable submissions : list (str * PrintJobType * Payload * Z).

Lemma draining_observe (w w' : World) :
  observe w' = observe w -> draining config submissions w -> draining config submissions w'.
Proof.
  intros E. unfold draining.
  change (jobs w') with (the_jobs (observe w')). change (jobs w) with (the_jobs (observe w)).
  now rewrite E.
Qed.

Lemma started_all_more (starts more : list jref) :
  started_all starts -> List.Forall (fun r => (r < 3)%nat) more -> started_all (starts ++ more).
Proof.
  intros (m & -> & Hm) Hmore. exists (m ++ more). split.
  - now rewrite <- List.app_assoc.
  - apply List.Forall_app. now split.
Qed.

Lemma draining_after_loop (rest : list jref) (w : World) :
  the_status (observe w) = PrinterStatus.connected ->
  the_printer (observe w) = Some config ->
  none_printing (jobs w) ->
  List.map submitted (jobs w) = submissions ->
  List.length (jobs w) = 3%nat ->
  List.Forall (fun r => (r < 3)%nat) rest ->
  awaiting w = [] ->
  (started w = [] /\ rest = [0; 1; 2]%nat)
  \/ (started w = [0]%nat /\ rest = [1; 2]%nat)
  \/ (started w = [0; 1]%nat /\ rest = [2]%nat)
  \/ started_all (started w) ->
  draining config submissions (processQueue_loop rest w).
Proof.
  intros Hs Hp Hn Hsub Hlen Hrest Ha Hq.
  assert (Hv : List.Forall (fun r => (r < List.length (jobs w))%nat) rest) by now rewrite Hlen.
  destruct (@processQueue_loop_outcome config rest w Hs Hp Hn Hv) as (Hp' & Hsub' & Hcases).
  unfold draining. split; [exact Hp'|]. split; [now rewrite Hsub'|]. split.
  { rewrite <- (List.length_map submitted), Hsub', List.length_map. exact Hlen. }
  rewrite Ha in Hcases. cbn [List.app] in Hcases.
  destruct Hcases as [(before & r & after & E & Haw & Hst & Ho & Hstarted)|(Haw & Hst & Hno & Hstarted)].
  - right. exists r, after. split; [exact Haw|]. split; [exact Hst|]. split; [exact Ho|].
    assert (Hparts : List.Forall (fun r => (r < 3)%nat) (before ++ [r])
                     /\ List.Forall (fun r => (r < 3)%nat) after).
    { rewrite E in Hrest. apply List.Forall_app in Hrest. destruct Hrest as [Hb Hr].
      inversion Hr; subst. split; [|assumption].
      apply List.Forall_app. split; [assumption | now constructor]. }
    destruct Hparts as [Hbr Hafter]. split; [exact Hafter|].
    rewrite Hstarted.
    destruct Hq as [[-> ->]|[[-> ->]|[[-> ->]|Hall]]].
    + destruct before as [|b0 [|b1 [|b2 before]]]; simpl in E; injection E as; subst.
      * left. now repeat split.
      * right. left. now repeat split.
      * right. right. exists []. now split.
      * destruct before; discriminate.
    + destruct before as [|b0 [|b1 before]]; simpl in E; injection E as; subst.
      * right. left. now repeat split.
      * right. right. exists []. now split.
      * destruct before; discriminate.
    + destruct before as [|b0 before]; simpl in E; injection E as; subst.
      * right. right. exists []. now split.
      * destruct before; discriminate.
    + right. right. now apply started_all_more.
  - left. split; [exact Haw|]. split; [exact Hst|]. split; [exact Hno|].
    rewrite Hstarted.
    destruct Hq as [[-> ->]|[[-> ->]|[[-> ->]|Hall]]];
      try (exists []; now split).
    now apply started_all_more.
Qed.

(** Promises that settle and retry timers that fire keep the drain in
    one of its states. *)
Lemma draining_step (w : World) (input : Input Payload) :
  draining config submissions w -> environment input ->
  draining config submissions (step w input).
Proof.
  intros Hd Henv. destruct input as [| | | | |n outcome|]; try contradiction.
  - (* a promise settles *)
    cbn [PrinterService.step]. assert (Hw := Hd).
    destruct Hd as (Hp & Hsub & Hlen & [(Ha & Hs & Hn & Hall)|(r & rest & Ha & Hs & Ho & Hrest & Hq)]).
    + change (awaiting w) with (the_awaiting (observe w)). rewrite Ha.
      destruct n; exact Hw.
    + change (awaiting w) with (the_awaiting (observe w)). rewrite Ha.
      destruct n as [|n]; cbn [List.nth_error remove_nth].
      2:{ destruct n; exact Hw. }
      cbn [PrinterService.resume].
      set (w0 := set_awaiting [] w).
      assert (E0 : observe w0
                   = {| the_status := the_status (observe w);
                        the_printer := the_printer (observe w);
                        the_jobs := the_jobs (observe w);
                        the_awaiting := [];
                        the_started := the_started (observe w) |}) by reflexivity.
      set (w1 := match outcome with
                 | fulfilled _ => executePrintJob_sent r w0
                 | rejected m => executePrintJob_catch r m w0
                 end).
      assert (E1 : exists g, (forall j, PrintJob.status (g j) <> JobStatus.printing)
                             /\ (forall j, submitted (g j) = submitted j)
                             /\ observe w1
                                = {| the_status := PrinterStatus.connected;
                                     the_printer := the_printer (observe w);
                                     the_jobs := modify g r (the_jobs (observe w));
                                     the_awaiting := [];
                                     the_started := the_started (observe w) |}).
      { unfold w1. destruct outcome as [v|m].
        - exists (with_status JobStatus.completed). split; [discriminate|]. split; [reflexivity|].
          now rewrite observe_executePrintJob_sent, E0.
        - exists (failed_attempt m). split; [apply status_failed_attempt|]. split; [reflexivity|].
          now rewrite observe_executePrintJob_catch, E0. }
      destruct E1 as (g & Hg & Hgsub & E1).
      assert (Ej1 : jobs w1 = the_jobs (observe w1)) by reflexivity.
      assert (Ea1 : awaiting w1 = the_awaiting (observe w1)) by reflexivity.
      assert (Es1 : started w1 = the_started (observe w1)) by reflexivity.
      rewrite E1 in Ej1, Ea1, Es1. cbn [the_jobs the_awaiting the_started] in Ej1, Ea1, Es1.
      apply draining_after_loop.
      * now rewrite E1.
      * rewrite E1. exact Hp.
      * rewrite Ej1. now apply only_printing_done.
      * rewrite Ej1. rewrite map_modify by exact Hgsub. exact Hsub.
      * rewrite Ej1, length_modify. exact Hlen.
      * exact Hrest.
      * exact Ea1.
      * rewrite Es1. destruct Hq as [(-> & -> & ->)|[(-> & -> & ->)|Hall]]; tauto.
  - (* a retry timer fires *)
    cbn [PrinterService.step]. destruct (timers w) as [|n]; [exact Hd|].
    unfold retry.
    set (w0 := set_isProcessingQueue false (set_timers n w)).
    assert (Hd0 : draining config submissions w0) by (now apply (draining_observe (w := w))).
    destruct (processQueue_outcome w0) as [E|(Hs & c & pendingJobs & Hc & Hv & ->)].
    + now apply (draining_observe E).
    + destruct Hd0 as (Hp & Hsub & Hlen & [(Ha & _ & Hn & Hall)|(r & rest & _ & Hs' & _)]);
        [|rewrite Hs in Hs'; discriminate].
      apply draining_after_loop; try assumption.
      * now rewrite Hlen in Hv.
      * tauto.
Qed.

Lemma draining_run (inputs : list (Input Payload)) :
  forall w : World,
    draining config submissions w -> List.Forall environment inputs ->
    draining config submissions (run w inputs).
Proof.
  induction inputs as [|input inputs IH]; intros w Hd Henv; [exact Hd|].
  inversion Henv; subst. simpl. apply IH; [|assumption]. now apply draining_step.
Qed.

Lemma first_come_first_served_started_all (starts : list jref) :
  started_all starts -> Spec.first_come_first_served starts.
Proof.
  intros (more & -> & Hmore) before r after E r' Hlt.
  destruct before as [|b0 [|b1 [|b2 before]]]; simpl in E; injection E as; subst.
  - lia.
  - simpl. lia.
  - simpl. lia.
  - assert (Hr : (r < 3)%nat).
    { rewrite List.Forall_forall in Hmore. apply Hmore.
      apply List.in_or_app. right. now left. }
    simpl. lia.
Qed.

Lemma draining_safe (w : World) :
  draining config submissions w ->
  Spec.first_come_first_served (started w) /\ at_most_one_printing w.
Proof.
  intros (Hp & Hsub & Hlen & Hcases).
  change (started w) with (the_started (observe w)). split.
  - destruct Hcases as [(_ & _ & _ & Hall)|(r & rest & _ & _ & _ & _ & Hq)].
    + now apply first_come_first_served_started_all.
    + destruct Hq as [(_ & _ & ->)|[(_ & _ & ->)|Hall]].
      * intros [|b before] x after E r' Hlt; simpl in E; injection E as; subst; [lia|].
        destruct before; discriminate.
      * intros [|b0 [|b1 before]] x after E r' Hlt; simpl in E; injection E as; subst.
        -- lia.
        -- simpl. lia.
        -- destruct before; discriminate.
      * now apply first_come_first_served_started_all.
  - intros r1 r2 j1 j2 H1 H2 Hs1 Hs2. unfold job_at in *.
    destruct Hcases as [(_ & _ & Hn & _)|(r & rest & _ & _ & [_ Ho] & _)].
    + elim (Hn _ _ H1 Hs1).
    + destruct (Nat.eq_dec r1 r) as [->|N1]; [|elim (Ho _ _ N1 H1 Hs1)].
      destruct (Nat.eq_dec r2 r) as [->|N2]; [reflexivity | elim (Ho _ _ N2 H2 Hs2)].
Qed.

End ThreeJobs.

Lemma run_app (w : World) (inputs more : list (Input Payload)) :
  run w (inputs ++ more) = run (run w inputs) more.
Proof. apply List.fold_left_app. Qed.

Lemma run_one (w : World) (input : Input Payload) : run w [input] = step w input.
Proof. reflexivity. Qed.

(** ** Three jobs submitted before the connection *)

Section Submitted.
Variable config : PrinterConfig.t.
Variables type1 type2 type3 : PrintJobType.
Variables payload1 payload2 payload3 : Payload.
Variables jobId1 jobId2 jobId3 : str.
Variables now1 now2 now3 : Z.

(** The orchestrator when [connect] is about to call [processQueue]:
    connected, the three jobs pending in the queue, nothing started. *)
Lemma before_the_drain :
  let before :=
    run initial
      [call_addPrintJob type1 payload1 jobId1 now1;
       call_addPrintJob type2 payload2 jobId2 now2;
       call_addPrintJob type3 payload3 jobId3 now3;
       call_connect config;
       settles 0 (fulfilled true); settles 0 (fulfilled true)] in
  let w := emit (device_connected config) (set_awaiting [] before) in
  awaiting before = [connect_at_savePrinter config]
  /\ isProcessingQueue w = false
  /\ List.filter (job_status_is w JobStatus.pending) (queue w) = [0; 1; 2]%nat
  /\ status (state w) = PrinterStatus.connected
  /\ connectedPrinter (state w) = Some config
  /\ jobs w
     = [ {| PrintJob.id := jobId1; PrintJob.type := type1; PrintJob.payload := payload1;
            PrintJob.timestamp := now1; PrintJob.status := JobStatus.pending;
            PrintJob.retryCount := 0; PrintJob.error := None |};
         {| PrintJob.id := jobId2; PrintJob.type := type2; PrintJob.payload := payload2;
            PrintJob.timestamp := now2; PrintJob.status := JobStatus.pending;
            PrintJob.retryCount := 0; PrintJob.error := None |};
         {| PrintJob.id := jobId3; PrintJob.type := type3; PrintJob.payload := payload3;
            PrintJob.timestamp := now3; PrintJob.status := JobStatus.pending;
            PrintJob.retryCount := 0; PrintJob.error := None |} ]
  /\ awaiting w = []
  /\ started w = [].
Proof.
  destruct Platform_OS_web; vm_compute; repeat split.
Qed.

Lemma connected_with_three_jobs :
  exists w : World,
    run initial (three_jobs_then_connect config type1 payload1 jobId1 now1 type2 payload2 jobId2 now2 type3 payload3 jobId3 now3) = processQueue_loop [0; 1; 2]%nat w
    /\ observe w
       = {| the_status := PrinterStatus.connected;
            the_printer := Some config;
            the_jobs := [pending_job jobId1 type1 payload1 now1;
                         pending_job jobId2 type2 payload2 now2;
                         pending_job jobId3 type3 payload3 now3];
            the_awaiting := [];
            the_started := [] |}.
Proof.
  unfold three_jobs_then_connect.
  change [call_addPrintJob type1 payload1 jobId1 now1;
          call_addPrintJob type2 payload2 jobId2 now2;
          call_addPrintJob type3 payload3 jobId3 now3;
          call_connect config;
          settles 0 (fulfilled true); settles 0 (fulfilled true);
          settles 0 (fulfilled true)]
    with ([call_addPrintJob type1 payload1 jobId1 now1;
           call_addPrintJob type2 payload2 jobId2 now2;
           call_addPrintJob type3 payload3 jobId3 now3;
           call_connect config;
           settles 0 (fulfilled true); settles 0 (fulfilled true)]
          ++ [settles 0 (fulfilled true)]).
  rewrite run_app, run_one.
  generalize before_the_drain. cbv zeta.
  generalize (run initial
                [call_addPrintJob type1 payload1 jobId1 now1;
                 call_addPrintJob type2 payload2 jobId2 now2;
                 call_addPrintJob type3 payload3 jobId3 now3;
                 call_connect config;
                 settles 0 (fulfilled true); settles 0 (fulfilled true)]).
  intros before (Ha & Hf & Hq & Hs & Hc & Hj & Hw & Hst).
  unfold PrinterService.step. rewrite Ha. cbn [List.nth_error remove_nth PrinterService.resume].
  revert Hf Hq Hs Hc Hj Hw Hst.
  generalize (emit (device_connected config) (set_awaiting [] before)).
  intros w Hf Hq Hs Hc Hj Hw Hst.
  rewrite (@processQueue_runs w config 0%nat [1; 2]%nat Hf Hq Hs Hc).
  exists (set_isProcessingQueue true w). split; [reflexivity|].
  rewrite observe_set_isProcessingQueue. unfold observe.
  now rewrite Hs, Hc, Hj, Hw, Hst.
Qed.

Lemma connected_with_three_jobs_draining :
  draining config
    [(jobId1, type1, payload1, now1); (jobId2, type2, payload2, now2);
     (jobId3, type3, payload3, now3)]
    (run initial (three_jobs_then_connect config type1 payload1 jobId1 now1 type2 payload2 jobId2 now2 type3 payload3 jobId3 now3)).
Proof.
  destruct connected_with_three_jobs as (w & -> & E).
  assert (Ej : jobs w = the_jobs (observe w)) by reflexivity.
  assert (Ea : awaiting w = the_awaiting (observe w)) by reflexivity.
  assert (Es : started w = the_started (observe w)) by reflexivity.
  rewrite E in Ej, Ea, Es. cbn [the_jobs the_awaiting the_started] in Ej, Ea, Es.
  apply draining_after_loop.
  - now rewrite E.
  - now rewrite E.
  - rewrite Ej.
    intros [|[|[|r]]] j H Hp; simpl in H;
      try (destruct r; discriminate H); injection H as <-; discriminate Hp.
  - now rewrite Ej.
  - now rewrite Ej.
  - repeat constructor.
  - exact Ea.
  - left. split; [exact Es | reflexivity].
Qed.

(** When the data of the three jobs is generated and the three sends
    are fulfilled, the jobs are started one after the other and all
    complete. *)
Lemma three_sends_fulfilled (v1 v2 v3 : bool) :
  returns (generate type1 payload1 (PrinterConfig.paperWidth config)) = true ->
  returns (generate type2 payload2 (PrinterConfig.paperWidth config)) = true ->
  returns (generate type3 payload3 (PrinterConfig.paperWidth config)) = true ->
  observe (run (run initial (three_jobs_then_connect config type1 payload1 jobId1 now1 type2 payload2 jobId2 now2 type3 payload3 jobId3 now3))
             [settles 0 (fulfilled v1); settles 0 (fulfilled v2); settles 0 (fulfilled v3)])
  = {| the_status := PrinterStatus.connected;
       the_printer := Some config;
       the_jobs := [with_status JobStatus.completed (pending_job jobId1 type1 payload1 now1);
                    with_status JobStatus.completed (pending_job jobId2 type2 payload2 now2);
                    with_status JobStatus.completed (pending_job jobId3 type3 payload3 now3)];
       the_awaiting := [];
       the_started := [0; 1; 2]%nat |}.
Proof.
  intros H1 H2 H3.
  destruct connected_with_three_jobs as (w & -> & E).
  cbn [PrinterService.run List.fold_left].
  (* the first job is sent *)
  set (w1 := processQueue_loop [0; 1; 2]%nat w).
  assert (E1 : observe w1 = _)
    by (apply (@processQueue_loop_suspends 0%nat [1; 2]%nat w
                 (pending_job jobId1 type1 payload1 now1) config);
        rewrite ?E; try reflexivity; exact H1).
  rewrite E in E1. cbn [the_jobs the_awaiting the_started modify List.app] in E1.
  clearbody w1. clear E w.
  (* it completes and the second job is sent *)
  rewrite (@step_send_fulfilled 0%nat [1; 2]%nat v1 w1) by (now rewrite E1).
  set (s1 := executePrintJob_sent 0%nat (set_awaiting [] w1)).
  assert (F1 : observe s1 = _) by (unfold s1; now rewrite observe_executePrintJob_sent, observe_set_awaiting).
  rewrite E1 in F1. cbn [the_status the_printer the_jobs the_awaiting the_started modify] in F1.
  clearbody s1. clear E1 w1.
  set (w2 := processQueue_loop [1; 2]%nat s1).
  assert (E2 : observe w2 = _)
    by (apply (@processQueue_loop_suspends 1%nat [2]%nat s1
                 (pending_job jobId2 type2 payload2 now2) config);
        rewrite ?F1; try reflexivity; exact H2).
  rewrite F1 in E2. cbn [the_jobs the_awaiting the_started modify List.app] in E2.
  clearbody w2. clear F1 s1.
  (* it completes and the third job is sent *)
  rewrite (@step_send_fulfilled 1%nat [2]%nat v2 w2) by (now rewrite E2).
  set (s2 := executePrintJob_sent 1%nat (set_awaiting [] w2)).
  assert (F2 : observe s2 = _) by (unfold s2; now rewrite observe_executePrintJob_sent, observe_set_awaiting).
  rewrite E2 in F2. cbn [the_status the_printer the_jobs the_awaiting the_started modify] in F2.
  clearbody s2. clear E2 w2.
  set (w3 := processQueue_loop [2]%nat s2).
  assert (E3 : observe w3 = _)
    by (apply (@processQueue_loop_suspends 2%nat [] s2
                 (pending_job jobId3 type3 payload3 now3) config);
        rewrite ?F2; try reflexivity; exact H3).
  rewrite F2 in E3. cbn [the_jobs the_awaiting the_started modify List.app] in E3.
  clearbody w3. clear F2 s2.
  (* it completes and the loop ends *)
  rewrite (@step_send_fulfilled 2%nat [] v3 w3) by (now rewrite E3).
  cbn [PrinterService.processQueue_loop].
  rewrite observe_set_isProcessingQueue, observe_executePrintJob_sent, observe_set_awaiting.
  rewrite E3. reflexivity.
Qed.


End Submitted.

(** ** Nothing suspended, no timer *)

Lemma run_idle (inputs : list (Input Payload)) :
  forall w : World,
    awaiting w = [] -> timers w = O -> List.Forall environment inputs -> run w inputs = w.
Proof.
  induction inputs as [|input inputs IH]; intros w Ha Ht He; [reflexivity|].
  inversion He as [|? ? Hi Hrest]; subst.
  assert (E : step w input = w).
  { destruct input; try contradiction; cbn [PrinterService.step].
    - rewrite Ha. now destruct n.
    - now rewrite Ht. }
  change (run w (input :: inputs)) with (run (step w input) inputs).
  rewrite E. now apply IH.
Qed.

(** ** The state object and its copies *)

Lemma allocated_updateState (updates : Updates) (w : World) : allocated (updateState updates w).
Proof.
  unfold allocated, updateState, emit. simpl. rewrite List.length_app. simpl. lia.
Qed.

Lemma allocated_filter_queue (keep : jref -> bool) (w : World) :
  allocated w -> allocated (filter_queue keep w).
Proof. unfold allocated, filter_queue. simpl. now rewrite length_modify. Qed.

Lemma allocated_executePrintJob_catch (job : jref) (m : option str) (w : World) :
  allocated (executePrintJob_catch job m w).
Proof. apply allocated_updateState. Qed.

Lemma allocated_executePrintJob_sent (job : jref) (w : World) :
  allocated (executePrintJob_sent job w).
Proof. unfold executePrintJob_sent. apply (allocated_updateState _ _). Qed.

Lemma allocated_executePrintJob (job : jref) (w : World) :
  allocated (fst (executePrintJob job w)).
Proof.
  unfold PrinterService.executePrintJob.
  set (w1 := emit (print_started job) _).
  assert (H1 : allocated w1) by apply (allocated_updateState _ _).
  destruct (job_at w1 job); [|exact H1].
  destruct (generate _ _ _); [|apply allocated_executePrintJob_catch].
  unfold sendToPrinter. destruct (connectedPrinter (state w1)).
  - exact H1.
  - apply allocated_executePrintJob_catch.
Qed.

Lemma allocated_processQueue_loop (rest : list jref) :
  forall w : World, allocated w -> allocated (processQueue_loop rest w).
Proof.
  induction rest as [|job rest IH]; intros w Hw; cbn [PrinterService.processQueue_loop].
  - exact Hw.
  - destruct (negb _); [exact Hw|].
    generalize (allocated_executePrintJob job w).
    destruct (executePrintJob job w) as [w1 suspended]. cbn [fst]. intros H1.
    destruct suspended; [exact H1 | now apply IH].
Qed.

Lemma allocated_processQueue (w : World) : allocated w -> allocated (processQueue w).
Proof.
  intros Hw. unfold PrinterService.processQueue.
  destruct (isProcessingQueue w); [exact Hw|].
  destruct (List.filter _ _); [exact Hw|].
  destruct (_ || _).
  - unfold showNoPrinterAlert. now destruct Platform_OS_web.
  - now apply allocated_processQueue_loop.
Qed.

Lemma allocated_step (w : World) (input : Input Payload) :
  allocated w -> allocated (step w input).
Proof.
  intros Hw. destruct input as [config| |type payload jobId now| | |n outcome|];
    cbn [PrinterService.step].
  - apply (allocated_updateState _ _).
  - unfold disconnect. now destruct (connectedPrinter (state w)).
  - unfold addPrintJob. cbn [snd]. now apply allocated_processQueue.
  - unfold clearQueue. now apply (allocated_filter_queue _).
  - unfold allocated, getState in *. simpl. rewrite List.length_app. simpl. lia.
  - destruct (List.nth_error (awaiting w) n) as [task|]; [|exact Hw].
    destruct task as [config|config|config| |job rest]; cbn [PrinterService.resume].
    + destruct outcome as [[|]|m]; apply (allocated_updateState _ _).
    + destruct outcome as [v|m]; [exact Hw | apply (allocated_updateState _ _)].
    + destruct outcome as [v|m]; [|apply (allocated_updateState _ _)].
      now apply allocated_processQueue.
    + apply (allocated_updateState _ _).
    + apply allocated_processQueue_loop.
      destruct outcome; [apply allocated_executePrintJob_sent
                        | apply allocated_executePrintJob_catch].
  - destruct (timers w); [exact Hw|]. unfold retry. now apply allocated_processQueue.
Qed.

Lemma allocated_run (inputs : list (Input Payload)) :
  forall w : World, allocated w -> allocated (run w inputs).
Proof.
  induction inputs as [|input inputs IH]; intros w Hw; [exact Hw|].
  simpl. apply IH. now apply allocated_step.
Qed.

Lemma nth_modify_other {A} (f : A -> A) (r i : nat) (heap : list A) (d : A) :
  r <> i -> List.nth i (modify f r heap) d = List.nth i heap d.
Proof.
  revert r i. induction heap as [|x heap IH]; intros [|r] [|i] H; simpl; auto.
  congruence.
Qed.

Lemma nth_modify_same {A} (f : A -> A) (r : nat) (heap : list A) (d : A) :
  (r < List.length heap)%nat -> List.nth r (modify f r heap) d = f (List.nth r heap d).
Proof.
  revert r. induction heap as [|x heap IH]; intros [|r] H; simpl in *; try lia; auto.
  apply IH. lia.
Qed.

(** ** The queue after an attempt that failed *)

Lemma queue_updateState (updates : Updates) (w : World) : queue (updateState updates w) = queue w.
Proof. unfold queue. rewrite state_updateState. reflexivity. Qed.

Lemma queue_filter_queue (keep : jref -> bool) (w : World) :
  allocated w -> queue (filter_queue keep w) = List.filter keep (queue w).
Proof.
  intros Hw. unfold queue at 1, state, state_at, array_at, filter_queue. simpl.
  rewrite nth_modify_same by exact Hw. simpl. apply List.nth_middle.
Qed.

Lemma queue_executePrintJob_catch (job : jref) (m : option str) (w : World) (j : Job) :
  allocated w -> job_at w job = Some j ->
  if PrintJob.retryCount j + 1 <? 3
  then queue (executePrintJob_catch job m w) = queue w
  else ~ List.In job (queue (executePrintJob_catch job m w)).
Proof.
  intros Hw Hj. unfold executePrintJob_catch, setStatus. rewrite queue_updateState.
  rewrite job_at_write_job, Nat.eqb_refl, Hj. cbn [option_map].
  change (PrintJob.retryCount (with_failure (message_or m (lit "Print failed")) j))
    with (PrintJob.retryCount j + 1).
  destruct (PrintJob.retryCount j + 1 <? 3); [reflexivity|].
  change (queue (set_alerts ?a (emit ?e ?x))) with (queue x).
  unfold removeJobFromQueue. rewrite queue_filter_queue by exact Hw.
  intros Hin. apply List.filter_In in Hin. destruct Hin as [_ Hkeep].
  rewrite !job_at_write_job, Nat.eqb_refl, Hj in Hkeep. cbn [option_map] in Hkeep.
  change (PrintJob.id (with_status _ (with_failure _ j))) with (PrintJob.id j) in Hkeep.
  change (PrintJob.id (with_failure _ j)) with (PrintJob.id j) in Hkeep.
  rewrite eqb_refl in Hkeep. discriminate.
Qed.

(** C10, as the code has it.  In every state the orchestrator reaches,
    [getState] returns a new object that holds the fields of the state
    object: the orchestrator's own state is what it was; a later
    [updateState] leaves the returned object as it is; and an assignment
    to fields of the returned object leaves the orchestrator's state as
    it is.  The copy is of the fields only: the returned object refers
    to the array of the queue of the orchestrator.  The data of a
    [state_changed] event is the state object of the orchestrator
    itself, not a copy. *)
Theorem getState_copies_the_fields :
  forall inputs : list (Input Payload),
    let w := run initial inputs in
    let r := fst (getState w) in
    let w' := snd (getState w) in
    r <> this_state w'
    /\ state_at w' r = state w
    /\ state w' = state w
    /\ (forall updates, state_at (updateState updates w') r = state w)
    /\ (forall f, state (assign_fields f r w') = state w')
    /\ printQueue (state_at w' r) = printQueue (state w')
    /\ (forall updates,
          events (updateState updates w)
          = events w ++ [state_changed (this_state (updateState updates w))]).
Proof.
  intros inputs.
  assert (Hw : allocated (run initial inputs)).
  { apply allocated_run. unfold allocated. simpl. lia. }
  revert Hw. generalize (run initial inputs). intros w Hw. cbv zeta.
  set (r := fst (getState w)). set (w' := snd (getState w)).
  unfold allocated in Hw.
  assert (E1 : state_at w' r = state w).
  { unfold state_at, w', r, getState. simpl. apply List.nth_middle. }
  assert (E2 : state w' = state w).
  { unfold state, state_at, w', getState. simpl. now apply List.app_nth1. }
  split; [|split; [exact E1|split; [exact E2|split; [|split; [|split]]]]].
  - unfold r, w', getState. simpl. lia.
  - intros updates. unfold state_at, updateState, emit, w', r, getState. simpl.
    rewrite <- List.app_assoc. apply List.nth_middle.
  - intros f. unfold state, state_at, assign_fields. simpl.
    apply nth_modify_other. unfold r, getState. simpl. lia.
  - now rewrite E1, E2.
  - reflexivity.
Qed.

End Orchestrator.

(* ================================================================== *)
(** * A job whose send always fails *)
(* ================================================================== *)

Section Retries.
Import JS Types PrinterService.
Local Open Scope Z_scope.

Variable Payload : Type.
Variables KOT_data INVOICE_data BARCODE_data : Payload -> PaperWidth -> list Z.
Variable Platform_OS_web : bool.
Variable config : PrinterConfig.t.
Variable type : PrintJobType.
Variable payload : Payload.
Variable jobId : str.
Variable now : Z.
Variables message1 message2 message3 : option str.

Local Abbreviation run :=
  (run (returning KOT_data) (returning INVOICE_data) (returning BARCODE_data) Platform_OS_web).
Local Abbreviation trace :=
  (trace (returning KOT_data) (returning INVOICE_data) (returning BARCODE_data) Platform_OS_web).
Local Abbreviation attempts :=
  (one_job_whose_send_fails config type payload jobId now message1 message2 message3).

Lemma statuses_of_the_attempts :
  List.map (@job_statuses Payload) (trace initial attempts)
  = [ [];
      [JobStatus.pending]; [JobStatus.pending]; [JobStatus.pending]; [JobStatus.pending];
      [JobStatus.printing]; [JobStatus.pending];
      [JobStatus.printing]; [JobStatus.pending];
      [JobStatus.printing]; [JobStatus.failed] ].
Proof. destruct type, Platform_OS_web; vm_compute; reflexivity. Qed.

Lemma job_after_the_attempts :
  jobs (run initial attempts)
  = [ {| PrintJob.id := jobId; PrintJob.type := type; PrintJob.payload := payload;
         PrintJob.timestamp := now; PrintJob.status := JobStatus.failed;
         PrintJob.retryCount := 3;
         PrintJob.error := Some (message_or message3 (lit "Print failed")) |} ].
Proof. destruct type, Platform_OS_web; vm_compute; reflexivity. Qed.

Lemma events_of_the_attempts :
  started (run initial attempts) = [0; 0; 0]%nat
  /\ failures (run initial attempts) = [0]%nat.
Proof. destruct type, Platform_OS_web; vm_compute; split; reflexivity. Qed.

Lemma idle_after_the_attempts :
  awaiting (run initial attempts) = [] /\ timers (run initial attempts) = O.
Proof. destruct type, Platform_OS_web; vm_compute; split; reflexivity. Qed.

Lemma queue_after_the_attempts : queue (run initial attempts) = [].
Proof.
  assert (E : queue (run initial attempts)
              = List.filter (fun _ : jref => negb (eqb jobId jobId)) [0%nat]).
  { destruct type, Platform_OS_web; vm_compute; reflexivity. }
  rewrite E. simpl. now rewrite eqb_refl.
Qed.

Lemma alerts_of_the_attempts :
  alerts (run initial attempts)
  = (if Platform_OS_web then [] else [No_Printer_Connected]) ++ [Print_Failed type message3].
Proof. destruct type, Platform_OS_web; vm_compute; reflexivity. Qed.

Lemma after_the_attempts (inputs : list (Input Payload)) :
  List.Forall environment inputs ->
  run initial (attempts ++ inputs) = run initial attempts.
Proof.
  intros He. rewrite run_app.
  destruct idle_after_the_attempts as [Ha Ht]. revert Ha Ht.
  generalize (run initial attempts). intros w Ha Ht. now apply run_idle.
Qed.

End Retries.



(* ================================================================== *)
(** * The orchestrator of the shop *)
(* ================================================================== *)


(** C8.  The status is [connected] while no printer is connected: a
    printer is connected, an order is submitted and its send starts;
    [disconnect] is called and the adapter disconnects, which sets the
    status to [disconnected] and the connected printer to null; when
    the send then settles, fulfilled or rejected, the execution of the
    job sets the status to [connected], and the connected printer is
    still null. *)
Theorem disconnect_during_a_send_ends_connected_to_no_printer :
  forall outcome : PrinterService.Outcome,
    PrinterService.the_status
      (PrinterService.observe
         (Spec.shop_run PrinterService.initial (Spec.disconnect_during_a_send outcome)))
    = Types.PrinterStatus.connected
    /\ PrinterService.the_printer
         (PrinterService.observe
            (Spec.shop_run PrinterService.initial (Spec.disconnect_during_a_send outcome)))
       = None.
Proof. intros [[|]|message]; vm_compute; split; reflexivity. Qed.

(** C10, as stated, does not hold.  A caller of [getState] holds the
    returned object; a job is then submitted; through the object the
    caller now reads a queue with that job, where it read an empty
    queue before.  And the object that a [state_changed] event carries
    is the state object of the orchestrator: an assignment to its
    [status] by the subscriber changes the status of the orchestrator. *)
Lemma getState_shares_the_queue_and_events_carry_the_state :
  let start : PrinterService.World PrinterApp.Document := PrinterService.initial in
  let r := fst (PrinterService.getState start) in
  let w := snd (PrinterService.getState start) in
  let w' := Spec.shop_step w
              (PrinterService.call_addPrintJob Types.KOT
                 (PrinterApp.invoice_document Spec.lunch_order)
                 (JS.lit "job_1700000000000_k3x9") 1700000000000%Z) in
  let connecting := Spec.shop_step start
                      (PrinterService.call_connect Spec.kitchen_printer) in
  (PrinterService.seen_printQueue (PrinterService.read w r) = []
   /\ PrinterService.seen_printQueue (PrinterService.read w' r)
      = [Some (PrinterService.pending_job (JS.lit "job_1700000000000_k3x9") Types.KOT
                 (PrinterApp.invoice_document Spec.lunch_order) 1700000000000%Z)])
  /\ (List.last (PrinterService.events connecting) PrinterService.queue_cleared
      = PrinterService.state_changed (PrinterService.this_state connecting)
      /\ PrinterService.status (PrinterService.state connecting)
         = Types.PrinterStatus.connecting
      /\ PrinterService.status
           (PrinterService.state
              (PrinterService.assign_fields (Spec.assign_status Types.PrinterStatus.error)
                 (PrinterService.this_state connecting) connecting))
         = Types.PrinterStatus.error).
Proof. cbv zeta. repeat split; reflexivity. Qed.

(* ================================================================== *)
(** * The configuration store: saving, looking up, deleting *)
(* ================================================================== *)

Section StoredProfiles.
Import JS Types PrinterStorage.
Local Open Scope Z_scope.

Lemma with_isDefault_same (p : PrinterConfig.t) :
  with_isDefault (PrinterConfig.isDefault p) p = p.
Proof. now destruct p. Qed.

Lemma find_saved (p : PrinterConfig.t) (l : list PrinterConfig.t) :
  List.find (fun q => eqb (PrinterConfig.id q) (PrinterConfig.id p)) (saved p l) = Some p.
Proof.
  induction l as [|q l IH].
  - unfold saved. simpl. now rewrite eqb_refl.
  - rewrite saved_cons. destruct (eqb (PrinterConfig.id q) (PrinterConfig.id p)) eqn:E; simpl.
    + now rewrite eqb_refl.
    + now rewrite E.
Qed.

Lemma find_saved_other (x : str) (p : PrinterConfig.t) (l : list PrinterConfig.t) :
  x <> PrinterConfig.id p ->
  List.find (fun q => eqb (PrinterConfig.id q) x) (saved p l)
  = List.find (fun q => eqb (PrinterConfig.id q) x) l.
Proof.
  intros Hx. apply not_eq_sym in Hx. apply eqb_neq in Hx.
  induction l as [|q l IH].
  - unfold saved. simpl. now rewrite Hx.
  - rewrite saved_cons. destruct (eqb (PrinterConfig.id q) (PrinterConfig.id p)) eqn:E; simpl.
    + rewrite Hx. apply eqb_eq in E. rewrite E, Hx. reflexivity.
    + now rewrite IH.
Qed.

Lemma find_flagged (x y : str) (l : list PrinterConfig.t) :
  List.find (fun q => eqb (PrinterConfig.id q) x)
    (List.map (fun q => with_isDefault (eqb (PrinterConfig.id q) y) q) l)
  = option_map (with_isDefault (eqb x y))
      (List.find (fun q => eqb (PrinterConfig.id q) x) l).
Proof.
  induction l as [|q l IH]; [reflexivity|]. simpl.
  destruct (eqb (PrinterConfig.id q) x) eqn:E; [|exact IH].
  apply eqb_eq in E. now rewrite E.
Qed.

Lemma getAllPrinters_savePrinter (p : PrinterConfig.t) (store : AsyncStorage) :
  getAllPrinters (savePrinter p store)
  = if PrinterConfig.isDefault p
    then List.map (fun q => with_isDefault (eqb (PrinterConfig.id q) (PrinterConfig.id p)) q)
           (saved p (getAllPrinters store))
    else saved p (getAllPrinters store).
Proof. unfold savePrinter. now destruct (PrinterConfig.isDefault p). Qed.

Lemma getPrinterById_savePrinter (p : PrinterConfig.t) (store : AsyncStorage) :
  getPrinterById (PrinterConfig.id p) (savePrinter p store) = Some p.
Proof.
  unfold getPrinterById. rewrite getAllPrinters_savePrinter.
  destruct (PrinterConfig.isDefault p) eqn:D.
  - rewrite find_flagged, find_saved, eqb_refl. simpl. rewrite <- D.
    now rewrite with_isDefault_same.
  - apply find_saved.
Qed.

Lemma length_saved (p : PrinterConfig.t) (l : list PrinterConfig.t) :
  List.length (saved p l)
  = match List.find (fun q => eqb (PrinterConfig.id q) (PrinterConfig.id p)) l with
    | Some _ => List.length l
    | None => S (List.length l)
    end.
Proof.
  induction l as [|q l IH]; [reflexivity|].
  rewrite saved_cons. simpl.
  destruct (eqb (PrinterConfig.id q) (PrinterConfig.id p)); [reflexivity|].
  simpl. rewrite IH. now destruct (List.find _ l).
Qed.

(** X1.  What [savePrinter] stores, [getPrinterById] gives back: after
    [savePrinter(p)] the profile found under the identifier of [p] is
    [p], whatever was stored.  The profile found under another
    identifier is the one found before, with its default flag cleared
    when [p] is saved as the default.  The number of profiles is the
    same when the identifier was stored, and one more when it was not. *)
Theorem savePrinter_then_getPrinterById :
  forall (p : PrinterConfig.t) (store : AsyncStorage),
    getPrinterById (PrinterConfig.id p) (savePrinter p store) = Some p
    /\ (forall x, x <> PrinterConfig.id p ->
        getPrinterById x (savePrinter p store)
        = option_map (fun q => if PrinterConfig.isDefault p then with_isDefault false q else q)
            (getPrinterById x store))
    /\ List.length (getAllPrinters (savePrinter p store))
       = match getPrinterById (PrinterConfig.id p) store with
         | Some _ => List.length (getAllPrinters store)
         | None => S (List.length (getAllPrinters store))
         end.
Proof.
  intros p store. split; [apply getPrinterById_savePrinter|]. split.
  - intros x Hx. unfold getPrinterById. rewrite getAllPrinters_savePrinter.
    destruct (PrinterConfig.isDefault p).
    + rewrite find_flagged, find_saved_other by exact Hx.
      apply eqb_neq in Hx. now rewrite Hx.
    + rewrite find_saved_other by exact Hx. now destruct (List.find _ _).
  - rewrite getAllPrinters_savePrinter. unfold getPrinterById.
    destruct (PrinterConfig.isDefault p).
    + rewrite List.length_map. apply length_saved.
    + apply length_saved.
Qed.

(** ** [deletePrinter] *)

Lemma getAllPrinters_deletePrinter (x : str) (store : AsyncStorage) :
  getAllPrinters (deletePrinter x store)
  = List.filter (fun p => negb (eqb (PrinterConfig.id p) x)) (getAllPrinters store).
Proof.
  unfold deletePrinter, getDefaultPrinterId. cbn [DEFAULT_PRINTER setItem_PRINTERS].
  destruct (DEFAULT_PRINTER store) as [d|] eqn:D; [|cbn; auto].
  destruct (eqb d x); cbn; auto.
Qed.

Lemma DEFAULT_PRINTER_deletePrinter (x : str) (store : AsyncStorage) :
  DEFAULT_PRINTER (deletePrinter x store)
  = match DEFAULT_PRINTER store with
    | Some d => if eqb d x then None else Some d
    | None => None
    end.
Proof.
  unfold deletePrinter, getDefaultPrinterId. cbn [DEFAULT_PRINTER setItem_PRINTERS].
  destruct (DEFAULT_PRINTER store) as [d|] eqn:D; [|cbn; auto].
  destruct (eqb d x); cbn; auto.
Qed.

Lemma find_filter_other (x y : str) (l : list PrinterConfig.t) :
  x <> y ->
  List.find (fun q => eqb (PrinterConfig.id q) x)
    (List.filter (fun p => negb (eqb (PrinterConfig.id p) y)) l)
  = List.find (fun q => eqb (PrinterConfig.id q) x) l.
Proof.
  intros Hxy. induction l as [|q l IH]; [reflexivity|]. simpl.
  destruct (eqb (PrinterConfig.id q) y) eqn:Ey; simpl.
  - destruct (eqb (PrinterConfig.id q) x) eqn:Ex; [|exact IH].
    apply eqb_eq in Ex, Ey. congruence.
  - now rewrite IH.
Qed.

(** X2.  [deletePrinter(id)] removes every profile with that identifier
    and no other: afterwards no profile is found under [id], no stored
    profile has it, and the profile found under any other identifier is
    the one found before.  When [id] is the stored default identifier
    there is no default printer afterwards; when it is not, the default
    printer is the one it was. *)
Theorem deletePrinter_removes_the_profile :
  forall (x : str) (store : AsyncStorage),
    getPrinterById x (deletePrinter x store) = None
    /\ ~ List.In x (Spec.ids (getAllPrinters (deletePrinter x store)))
    /\ (forall y, y <> x -> getPrinterById y (deletePrinter x store) = getPrinterById y store)
    /\ (getDefaultPrinterId store = Some x -> getDefaultPrinter (deletePrinter x store) = None)
    /\ (getDefaultPrinterId store <> Some x ->
        getDefaultPrinter (deletePrinter x store) = getDefaultPrinter store).
Proof.
  intros x store.
  assert (Hnot : ~ List.In x (Spec.ids (getAllPrinters (deletePrinter x store)))).
  { rewrite getAllPrinters_deletePrinter. unfold Spec.ids. intros Hin.
    apply List.in_map_iff in Hin. destruct Hin as (q & Hq & Hin).
    apply List.filter_In in Hin. destruct Hin as [_ Hk].
    rewrite Hq, eqb_refl in Hk. discriminate. }
  split; [|split; [exact Hnot|split; [|split]]].
  - unfold getPrinterById. destruct (List.find _ _) as [q|] eqn:F; [|reflexivity].
    apply List.find_some in F. destruct F as [Hin E]. apply eqb_eq in E.
    elim Hnot. unfold Spec.ids. apply List.in_map_iff. now exists q.
  - intros y Hy. unfold getPrinterById. rewrite getAllPrinters_deletePrinter.
    now apply find_filter_other.
  - intros Hd. unfold getDefaultPrinter, getDefaultPrinterId in *.
    rewrite DEFAULT_PRINTER_deletePrinter, Hd, eqb_refl. reflexivity.
  - intros Hd. unfold getDefaultPrinter, getDefaultPrinterId in *.
    rewrite DEFAULT_PRINTER_deletePrinter.
    destruct (DEFAULT_PRINTER store) as [d|]; [|reflexivity].
    destruct (eqb d x) eqn:E.
    + apply eqb_eq in E. congruence.
    + destruct (truthy d); [|reflexivity].
      unfold getPrinterById. rewrite getAllPrinters_deletePrinter.
      apply find_filter_other. apply eqb_neq in E. exact E.
Qed.

(** ** The default printer *)

Lemma DEFAULT_PRINTER_savePrinter (p : PrinterConfig.t) (store : AsyncStorage) :
  DEFAULT_PRINTER (savePrinter p store)
  = if PrinterConfig.isDefault p then Some (PrinterConfig.id p) else DEFAULT_PRINTER store.
Proof. unfold savePrinter. now destruct (PrinterConfig.isDefault p). Qed.

(** X3.  [getDefaultPrinter] goes by the stored identifier, not by the
    flags of the profiles.  For an identifier that is not the empty
    text, after [setDefaultPrinter(id)] it is the profile found under
    [id], with the flag set; after [savePrinter(p)] with the flag of
    [p] set, it is [p]; and after [savePrinter(p)] of the profile that
    is the stored default, it is [p] even when the flag of [p] is not
    set.  With the empty text as the stored identifier there is no
    default printer. *)
Theorem getDefaultPrinter_goes_by_the_stored_identifier :
  forall store : AsyncStorage,
    (forall x, truthy x = true ->
       getDefaultPrinter (setDefaultPrinter x store)
       = option_map (with_isDefault true) (getPrinterById x store))
    /\ (forall p, truthy (PrinterConfig.id p) = true ->
        PrinterConfig.isDefault p = true \/ getDefaultPrinterId store = Some (PrinterConfig.id p) ->
        getDefaultPrinter (savePrinter p store) = Some p)
    /\ (getDefaultPrinterId store = Some [] -> getDefaultPrinter store = None)
    /\ getDefaultPrinter (setDefaultPrinter [] store) = None.
Proof.
  intros store. split; [|split; [|split]].
  - intros x Hx. unfold getDefaultPrinter, getDefaultPrinterId. simpl. rewrite Hx.
    unfold getPrinterById. rewrite getAllPrinters_setDefaultPrinter, find_flagged.
    now rewrite eqb_refl.
  - intros p Hp Hd. unfold getDefaultPrinter, getDefaultPrinterId in *.
    rewrite DEFAULT_PRINTER_savePrinter.
    destruct (PrinterConfig.isDefault p) eqn:D.
    + rewrite Hp. apply getPrinterById_savePrinter.
    + destruct Hd as [Hd|Hd]; [discriminate|]. rewrite Hd, Hp.
      apply getPrinterById_savePrinter.
  - intros Hd. unfold getDefaultPrinter. now rewrite Hd.
  - reflexivity.
Qed.

End StoredProfiles.

Lemma getDefaultPrinter_goes_by_the_stored_identifier_witness :
  PrinterStorage.getDefaultPrinter
    (PrinterStorage.setDefaultPrinter (Types.PrinterConfig.id Spec.kitchen_printer)
       Spec.shop_store)
  = Some (PrinterStorage.with_isDefault true Spec.kitchen_printer)
  /\ PrinterStorage.getDefaultPrinter
       (PrinterStorage.savePrinter (PrinterStorage.with_isDefault false Spec.counter_printer)
          Spec.shop_store)
     = Some (PrinterStorage.with_isDefault false Spec.counter_printer).
Proof.
  destruct (getDefaultPrinter_goes_by_the_stored_identifier Spec.shop_store)
    as (Hset & Hsave & _).
  split.
  - rewrite (Hset (Types.PrinterConfig.id Spec.kitchen_printer)) by reflexivity.
    reflexivity.
  - apply Hsave; [reflexivity|]. right. reflexivity.
Defined.

(* ================================================================== *)
(** * The configuration store: settings, connection times *)
(* ================================================================== *)

Section StoredSettings.
Import JS Types PrinterStorage.
Local Open Scope Z_scope.

Lemma spread_all_of (current u : PrintSettings) : spread current (all_of u) = u.
Proof. now destruct u. Qed.

Lemma getSettings_saveSettings (s : PartialPrintSettings) (store : AsyncStorage) :
  getSettings (saveSettings s store) = spread (getSettings store) s.
Proof. unfold saveSettings, getSettings at 1. simpl. apply spread_all_of. Qed.

Lemma spread_spread (current : PrintSettings) (s : PartialPrintSettings) :
  spread (spread current s) s = spread current s.
Proof.
  destruct s as [[a|] [k|] [i|] [d|] [e|]]; reflexivity.
Qed.

(** X4.  What [saveSettings] stores, [getSettings] gives back: after
    [saveSettings(s)] the settings are the ones before with the fields
    of [s] in place of theirs, so a field that [s] gives is read back
    and a field that [s] leaves out keeps its value; with nothing
    stored the settings are the defaults.  Saving the same fields twice
    stores what saving them once stores. *)
Theorem saveSettings_then_getSettings :
  forall (s : PartialPrintSettings) (store : AsyncStorage),
    getSettings (saveSettings s store) = spread (getSettings store) s
    /\ (forall v, autoPrint' s = Some v -> autoPrint (getSettings (saveSettings s store)) = v)
    /\ (autoPrint' s = None ->
        autoPrint (getSettings (saveSettings s store)) = autoPrint (getSettings store))
    /\ (forall v, kotPapperWidth' s = Some v ->
        kotPapperWidth (getSettings (saveSettings s store)) = v)
    /\ (kotPapperWidth' s = None ->
        kotPapperWidth (getSettings (saveSettings s store)) = kotPapperWidth (getSettings store))
    /\ getSettings (saveSettings s empty) = spread DEFAULT_SETTINGS s
    /\ saveSettings s (saveSettings s store) = saveSettings s store.
Proof.
  intros s store. rewrite !getSettings_saveSettings.
  split; [reflexivity|]. split; [|split; [|split; [|split; [|split]]]].
  - intros v H. simpl. now rewrite H.
  - intros H. simpl. now rewrite H.
  - intros v H. simpl. now rewrite H.
  - intros H. simpl. now rewrite H.
  - reflexivity.
  - unfold saveSettings at 1 3. rewrite getSettings_saveSettings, spread_spread.
    reflexivity.
Qed.

(** ** Printers and settings are stored apart *)

Lemma PRINT_SETTINGS_savePrinter (p : PrinterConfig.t) (store : AsyncStorage) :
  PRINT_SETTINGS (savePrinter p store) = PRINT_SETTINGS store.
Proof. unfold savePrinter. now destruct (PrinterConfig.isDefault p). Qed.

Lemma PRINT_SETTINGS_deletePrinter (x : str) (store : AsyncStorage) :
  PRINT_SETTINGS (deletePrinter x store) = PRINT_SETTINGS store.
Proof.
  unfold deletePrinter, getDefaultPrinterId. cbn [DEFAULT_PRINTER setItem_PRINTERS].
  destruct (DEFAULT_PRINTER store) as [d|]; [|reflexivity].
  now destruct (eqb d x).
Qed.

Lemma PRINT_SETTINGS_updateLastConnected (x : str) (now : Z) (store : AsyncStorage) :
  PRINT_SETTINGS (updateLastConnected x now store) = PRINT_SETTINGS store.
Proof.
  unfold updateLastConnected. destruct (getPrinterById x store); [|reflexivity].
  apply PRINT_SETTINGS_savePrinter.
Qed.

(** X5.  The settings and the printers are stored under different
    keys: saving, deleting or connecting a printer and choosing the
    default leave the settings as they are, and [saveSettings] leaves
    the printers and the default printer as they are.  [clearAll]
    removes all three: the settings are the defaults again, no printer
    is stored and there is no default printer. *)
Theorem printers_and_settings_are_stored_apart :
  forall store : AsyncStorage,
    (forall p, getSettings (savePrinter p store) = getSettings store)
    /\ (forall x, getSettings (deletePrinter x store) = getSettings store)
    /\ (forall x, getSettings (setDefaultPrinter x store) = getSettings store)
    /\ (forall x now, getSettings (updateLastConnected x now store) = getSettings store)
    /\ (forall s, getAllPrinters (saveSettings s store) = getAllPrinters store
                  /\ getDefaultPrinter (saveSettings s store) = getDefaultPrinter store)
    /\ getSettings (clearAll store) = DEFAULT_SETTINGS
    /\ getAllPrinters (clearAll store) = []
    /\ getDefaultPrinter (clearAll store) = None.
Proof.
  intros store. repeat split; try reflexivity.
  - intros p. unfold getSettings. now rewrite PRINT_SETTINGS_savePrinter.
  - intros x. unfold getSettings. now rewrite PRINT_SETTINGS_deletePrinter.
  - intros x now. unfold getSettings. now rewrite PRINT_SETTINGS_updateLastConnected.
Qed.

(** ** [updateLastConnected] and the store calls of [connect] *)

Lemma find_id (x : str) (l : list PrinterConfig.t) (p : PrinterConfig.t) :
  List.find (fun q => eqb (PrinterConfig.id q) x) l = Some p -> PrinterConfig.id p = x.
Proof. intros F. apply List.find_some in F. now apply eqb_eq. Qed.

(** X6.  [updateLastConnected(id)] writes the time in the profile found
    under [id] and changes nothing else of it; the number of stored
    profiles is the same.  For an identifier under which no profile is
    found the store is left as it is. *)
Theorem updateLastConnected_writes_the_time :
  forall (x : str) (now : Z) (store : AsyncStorage),
    (getPrinterById x store = None -> updateLastConnected x now store = store)
    /\ (forall p, getPrinterById x store = Some p ->
        getPrinterById x (updateLastConnected x now store) = Some (with_lastConnected now p)
        /\ List.length (getAllPrinters (updateLastConnected x now store))
           = List.length (getAllPrinters store)).
Proof.
  intros x now store. unfold updateLastConnected. split.
  - intros H. now rewrite H.
  - intros p H. rewrite H.
    assert (Hid : PrinterConfig.id (with_lastConnected now p) = x).
    { unfold getPrinterById in H. apply find_id in H. exact H. }
    split.
    + rewrite <- Hid at 1. apply getPrinterById_savePrinter.
    + rewrite getAllPrinters_savePrinter.
      assert (L : List.length (saved (with_lastConnected now p) (getAllPrinters store))
                  = List.length (getAllPrinters store)).
      { rewrite length_saved, Hid. unfold getPrinterById in H. now rewrite H. }
      destruct (PrinterConfig.isDefault (with_lastConnected now p));
        [rewrite List.length_map|]; exact L.
Qed.

Lemma saved_saved (p : PrinterConfig.t) (l : list PrinterConfig.t) :
  saved p (saved p l) = saved p l.
Proof.
  induction l as [|q l IH].
  - unfold saved at 2. simpl. rewrite saved_cons. now rewrite eqb_refl.
  - rewrite saved_cons. destruct (eqb (PrinterConfig.id q) (PrinterConfig.id p)) eqn:E.
    + rewrite saved_cons. now rewrite eqb_refl.
    + rewrite saved_cons, E. now rewrite IH.
Qed.

Lemma saved_flagged (p : PrinterConfig.t) (l : list PrinterConfig.t) :
  PrinterConfig.isDefault p = true ->
  saved p (List.map (fun q => with_isDefault (eqb (PrinterConfig.id q) (PrinterConfig.id p)) q) l)
  = List.map (fun q => with_isDefault (eqb (PrinterConfig.id q) (PrinterConfig.id p)) q)
      (saved p l).
Proof.
  intros D. induction l as [|q l IH].
  - unfold saved. simpl. rewrite eqb_refl. rewrite <- D. now rewrite with_isDefault_same.
  - simpl. rewrite !saved_cons. simpl.
    destruct (eqb (PrinterConfig.id q) (PrinterConfig.id p)) eqn:E; simpl.
    + rewrite eqb_refl. rewrite <- D. now rewrite with_isDefault_same.
    + now rewrite E, IH.
Qed.

Lemma flagged_flagged (x : str) (l : list PrinterConfig.t) :
  List.map (fun q => with_isDefault (eqb (PrinterConfig.id q) x) q)
    (List.map (fun q => with_isDefault (eqb (PrinterConfig.id q) x) q) l)
  = List.map (fun q => with_isDefault (eqb (PrinterConfig.id q) x) q) l.
Proof. rewrite List.map_map. reflexivity. Qed.

Lemma savePrinter_savePrinter (p : PrinterConfig.t) (store : AsyncStorage) :
  savePrinter p (savePrinter p store) = savePrinter p store.
Proof.
  unfold savePrinter. destruct (PrinterConfig.isDefault p) eqn:D.
  - unfold setDefaultPrinter. cbn [getAllPrinters setItem_PRINTERS setItem_DEFAULT_PRINTER
      PRINTERS DEFAULT_PRINTER PRINT_SETTINGS].
    rewrite saved_flagged by exact D. rewrite saved_saved, flagged_flagged. reflexivity.
  - cbn [getAllPrinters setItem_PRINTERS PRINTERS DEFAULT_PRINTER PRINT_SETTINGS].
    unfold setItem_PRINTERS. cbn. now rewrite saved_saved.
Qed.

(** X7.  The store calls of a successful [connect], which are
    [updateLastConnected(config.id)] and then [savePrinter(config)],
    leave under the identifier of the configuration the configuration
    itself: the time that [updateLastConnected] wrote is replaced by
    the [lastConnected] of the configuration, and the default flag of
    the stored profile by the flag of the configuration.  Saving the
    same profile once more, as the [connect] of the hook does, changes
    nothing. *)
Theorem connect_stores_the_configuration :
  forall (config : PrinterConfig.t) (now : Z) (store : AsyncStorage),
    let stored := savePrinter config (updateLastConnected (PrinterConfig.id config) now store) in
    getPrinterById (PrinterConfig.id config) stored = Some config
    /\ option_map PrinterConfig.lastConnected (getPrinterById (PrinterConfig.id config) stored)
       = Some (PrinterConfig.lastConnected config)
    /\ savePrinter config stored = stored.
Proof.
  intros config now store stored. unfold stored.
  rewrite getPrinterById_savePrinter. repeat split.
  apply savePrinter_savePrinter.
Qed.

End StoredSettings.

Lemma savePrinter_then_getPrinterById_witness :
  PrinterStorage.getPrinterById (Types.PrinterConfig.id Spec.counter_printer)
    (PrinterStorage.savePrinter Spec.kitchen_printer Spec.shop_store)
  = Some Spec.counter_printer.
Proof.
  destruct (savePrinter_then_getPrinterById Spec.kitchen_printer Spec.shop_store)
    as (_ & Hother & _).
  rewrite (Hother (Types.PrinterConfig.id Spec.counter_printer)) by discriminate.
  reflexivity.
Defined.

Lemma deletePrinter_removes_the_profile_witness :
  PrinterStorage.getPrinterById (Types.PrinterConfig.id Spec.kitchen_printer)
    (PrinterStorage.deletePrinter (Types.PrinterConfig.id Spec.counter_printer) Spec.shop_store)
  = Some Spec.kitchen_printer
  /\ PrinterStorage.getDefaultPrinter
       (PrinterStorage.deletePrinter (Types.PrinterConfig.id Spec.counter_printer)
          Spec.shop_store) = None
  /\ PrinterStorage.getDefaultPrinter
       (PrinterStorage.deletePrinter (Types.PrinterConfig.id Spec.kitchen_printer)
          Spec.shop_store) = Some Spec.counter_printer.
Proof.
  destruct (deletePrinter_removes_the_profile (Types.PrinterConfig.id Spec.counter_printer)
              Spec.shop_store) as (_ & _ & Hother & Hdefault & _).
  destruct (deletePrinter_removes_the_profile (Types.PrinterConfig.id Spec.kitchen_printer)
              Spec.shop_store) as (_ & _ & _ & _ & Hkept).
  split; [|split].
  - rewrite (Hother (Types.PrinterConfig.id Spec.kitchen_printer)) by discriminate.
    reflexivity.
  - apply Hdefault. reflexivity.
  - rewrite Hkept by discriminate. reflexivity.
Defined.

Lemma saveSettings_then_getSettings_witness :
  PrinterStorage.autoPrint
    (PrinterStorage.getSettings
       (PrinterStorage.saveSettings
          {| PrinterStorage.autoPrint' := Some true;
             PrinterStorage.kotPapperWidth' := None;
             PrinterStorage.invoicePaperWidth' := None;
             PrinterStorage.showPrintDialog' := None;
             PrinterStorage.soundEnabled' := None |} Spec.shop_store)) = true
  /\ PrinterStorage.kotPapperWidth
       (PrinterStorage.getSettings
          (PrinterStorage.saveSettings
             {| PrinterStorage.autoPrint' := Some true;
                PrinterStorage.kotPapperWidth' := None;
                PrinterStorage.invoicePaperWidth' := None;
                PrinterStorage.showPrintDialog' := None;
                PrinterStorage.soundEnabled' := None |} Spec.shop_store))
     = PrinterStorage.kotPapperWidth (PrinterStorage.getSettings Spec.shop_store).
Proof.
  destruct (saveSettings_then_getSettings
              {| PrinterStorage.autoPrint' := Some true;
                 PrinterStorage.kotPapperWidth' := None;
                 PrinterStorage.invoicePaperWidth' := None;
                 PrinterStorage.showPrintDialog' := None;
                 PrinterStorage.soundEnabled' := None |} Spec.shop_store)
    as (_ & Hgiven & _ & _ & Hkept & _).
  split.
  - apply Hgiven. reflexivity.
  - apply Hkept. reflexivity.
Defined.

Lemma updateLastConnected_writes_the_time_witness :
  PrinterStorage.updateLastConnected (JS.lit "usb_7") 1700000000000 Spec.shop_store
  = Spec.shop_store
  /\ PrinterStorage.getPrinterById (Types.PrinterConfig.id Spec.kitchen_printer)
       (PrinterStorage.updateLastConnected (Types.PrinterConfig.id Spec.kitchen_printer)
          1700000000000 Spec.shop_store)
     = Some (PrinterStorage.with_lastConnected 1700000000000 Spec.kitchen_printer).
Proof.
  split.
  - apply (updateLastConnected_writes_the_time (JS.lit "usb_7") 1700000000000 Spec.shop_store).
    reflexivity.
  - apply (updateLastConnected_writes_the_time (Types.PrinterConfig.id Spec.kitchen_printer)
             1700000000000 Spec.shop_store).
    reflexivity.
Defined.

(* ================================================================== *)
(** * The encoder: centring, wrapped lines, bytes *)
(* ================================================================== *)

Section EncoderLines.
Import JS Types ESCPOSEncoder Spec.
Local Open Scope Z_scope.



(** ** The lines of [wrap] and the budget *)

Lemma wrap_loop_wrapped (budget : Z) (all ws : list str) :
  forall (lines : list str) (currentLine : str),
    List.incl ws all ->
    List.Forall (wrapped budget all) lines ->
    (truthy currentLine = true -> wrapped budget all currentLine) ->
    List.Forall (wrapped budget all)
      (finish (List.fold_left (wrap_word_lines budget) ws (lines, currentLine))).
Proof.
  induction ws as [|w ws IH]; intros lines currentLine Hws Hlines Hcur.
  - unfold finish. simpl. destruct (truthy currentLine) eqn:T; [|exact Hlines].
    apply List.Forall_app. split; [exact Hlines|]. constructor; [|constructor]. now apply Hcur.
  - simpl. assert (Hw : List.In w all) by (apply Hws; now left).
    assert (Hrest : List.incl ws all) by (intros x Hx; apply Hws; now right).
    destruct (Z.leb_spec (length (trim (currentLine ++ SPACE :: w))) budget) as [Hfit|Hover].
    + apply IH; [exact Hrest | exact Hlines |].
      intros T. split; [exact T | now left].
    + apply IH; [exact Hrest | |].
      * destruct (truthy currentLine) eqn:T; [|exact Hlines].
        apply List.Forall_app. split; [exact Hlines|]. constructor; [|constructor].
        now apply Hcur.
      * intros T. split; [exact T | now right].
Qed.

(** X9.  The lines that [wrap] writes are never empty, and each of them
    is at most as long as the line budget or is one single piece of the
    text between two spaces, written whole.  So a text none of whose
    words is longer than the budget is written in lines none of which
    is longer than the budget. *)
Theorem wrap_lines_are_within_the_budget :
  forall (this : t) (content : str),
    exists lines : list str,
      wrap this content = List.fold_left line lines this
      /\ List.Forall (fun l => l <> []
                               /\ (length l <= charsPerLine this
                                   \/ List.In l (split SPACE content))) lines
      /\ (List.Forall (fun w => length w <= charsPerLine this) (split SPACE content) ->
          List.Forall (fun l => length l <= charsPerLine this) lines).
Proof.
  intros this content. exists (wrap_lines (charsPerLine this) content).
  assert (H : List.Forall (wrapped (charsPerLine this) (split SPACE content))
                (wrap_lines (charsPerLine this) content)).
  { rewrite wrap_lines_finish. apply wrap_loop_wrapped.
    - apply List.incl_refl.
    - constructor.
    - discriminate. }
  split; [apply wrap_emits_wrap_lines|]. split.
  - eapply List.Forall_impl; [|exact H]. intros l [T Hl]. split; [|exact Hl].
    intros ->. discriminate.
  - intros Hwords. eapply List.Forall_impl; [|exact H]. intros l [_ [Hl|Hl]]; [exact Hl|].
    rewrite List.Forall_forall in Hwords. now apply Hwords.
Qed.

Lemma wrap_lines_are_within_the_budget_witness :
  exists lines : list str,
    wrap (new mm58) (lit "No onions please, extra spicy and well done")
    = List.fold_left line lines (new mm58)
    /\ List.Forall (fun l => length l <= 32) lines.
Proof.
  destruct (wrap_lines_are_within_the_budget (new mm58)
              (lit "No onions please, extra spicy and well done"))
    as (lines & E & _ & H).
  exists lines. split; [exact E|]. apply H.
  vm_compute. repeat constructor; discriminate.
Defined.

End EncoderLines.

(* ================================================================== *)
(** * The encoder: the bytes of a text *)
(* ================================================================== *)

Section EncoderBytes.
Import JS Types ESCPOSEncoder Spec.
Local Open Scope Z_scope.

Lemma utf8_cons (c : char) (rest : str) :
  (c < 65536)%N ->
  (exists b, utf8 (c :: rest) = b :: utf8 rest /\ is_byte b /\ (c < 128)%N)
  \/ (exists b1 b2, utf8 (c :: rest) = b1 :: b2 :: utf8 rest /\ is_byte b1 /\ is_byte b2)
  \/ (exists b1 b2 b3, utf8 (c :: rest) = b1 :: b2 :: b3 :: utf8 rest
                       /\ is_byte b1 /\ is_byte b2 /\ is_byte b3)
  \/ (exists d rest' b1 b2 b3 b4,
        rest = d :: rest'
        /\ utf8 (c :: rest) = b1 :: b2 :: b3 :: b4 :: utf8 rest'
        /\ is_byte b1 /\ is_byte b2 /\ is_byte b3 /\ is_byte b4).
Proof.
  intros Hc. unfold is_byte. cbn [utf8].
  destruct (N.ltb_spec c 128) as [H1|H1].
  { left. eexists. split; [reflexivity|]. split; [lia | exact H1]. }
  destruct (N.ltb_spec c 2048) as [H2|H2].
  { right. left. do 2 eexists. split; [reflexivity|].
    split; Z.div_mod_to_equations; lia. }
  destruct (N.leb_spec 55296 c) as [H3|H3]; cbn [andb].
  - destruct (N.ltb_spec c 56320) as [H4|H4].
    + destruct rest as [|d rest'].
      * right. right. left. do 3 eexists. split; [reflexivity|]. lia.
      * destruct (N.leb_spec 56320 d) as [H5|H5]; cbn [andb].
        -- destruct (N.ltb_spec d 57344) as [H6|H6].
           ++ right. right. right. exists d, rest'. do 4 eexists.
              split; [reflexivity|]. split; [reflexivity|].
              repeat split; Z.div_mod_to_equations; lia.
           ++ right. right. left. do 3 eexists. split; [reflexivity|]. lia.
        -- right. right. left. do 3 eexists. split; [reflexivity|]. lia.
    + destruct (N.leb_spec 56320 c) as [H5|H5]; [|lia]. cbn [andb].
      destruct (N.ltb_spec c 57344) as [H6|H6].
      * right. right. left. do 3 eexists. split; [reflexivity|]. lia.
      * right. right. left. do 3 eexists. split; [reflexivity|].
        repeat split; Z.div_mod_to_equations; lia.
  - destruct (N.leb_spec 56320 c) as [H5|H5]; [lia|]. cbn [andb].
    right. right. left. do 3 eexists. split; [reflexivity|].
    repeat split; Z.div_mod_to_equations; lia.
Qed.

Lemma utf8_bytes_upto (n : nat) :
  forall s : str,
    (List.length s <= n)%nat -> code_units s ->
    List.Forall is_byte (utf8 s)
    /\ (List.length s <= List.length (utf8 s) <= 3 * List.length s)%nat.
Proof.
  induction n as [|n IH]; intros s Hn Hs.
  - destruct s; [|simpl in Hn; lia]. split; [constructor | simpl; lia].
  - destruct s as [|c rest]; [split; [constructor | simpl; lia]|].
    inversion Hs as [|? ? Hc Hrest]; subst. cbn [List.length] in Hn.
    destruct (utf8_cons rest Hc)
      as [(b & E & Hb & _)|[(b1 & b2 & E & H1 & H2)|[(b1 & b2 & b3 & E & H1 & H2 & H3)
         |(d & rest' & b1 & b2 & b3 & b4 & -> & E & H1 & H2 & H3 & H4)]]]; rewrite E.
    + destruct (IH rest ltac:(lia) Hrest) as [Hb' Hl].
      split; [repeat (apply List.Forall_cons; [assumption|]); exact Hb'
             | cbn [List.length]; lia].
    + destruct (IH rest ltac:(lia) Hrest) as [Hb' Hl].
      split; [repeat (apply List.Forall_cons; [assumption|]); exact Hb'
             | cbn [List.length]; lia].
    + destruct (IH rest ltac:(lia) Hrest) as [Hb' Hl].
      split; [repeat (apply List.Forall_cons; [assumption|]); exact Hb'
             | cbn [List.length]; lia].
    + inversion Hrest as [|? ? Hd Hrest']; subst. cbn [List.length] in Hn.
      destruct (IH rest' ltac:(lia) Hrest') as [Hb' Hl].
      split; [repeat (apply List.Forall_cons; [assumption|]); exact Hb'
             | cbn [List.length]; lia].
Qed.

Lemma utf8_bytes (s : str) : code_units s -> List.Forall is_byte (utf8 s).
Proof. intros Hs. now apply (@utf8_bytes_upto (List.length s) s (le_n _) Hs). Qed.

Lemma utf8_ascii (s : str) : ascii s -> utf8 s = List.map Z.of_N s.
Proof.
  induction s as [|c rest IH]; intros Hs; [reflexivity|].
  inversion Hs as [|? ? Hc Hrest]; subst. cbn [utf8 List.map].
  destruct (N.ltb_spec c 128) as [_|H]; [|lia]. now rewrite IH.
Qed.

Lemma map_mod_bytes (bytes : list Z) :
  List.Forall is_byte bytes -> List.map (fun b => b mod 256) bytes = bytes.
Proof.
  induction 1 as [|b bytes Hb _ IH]; [reflexivity|]. simpl.
  rewrite IH. unfold is_byte in Hb. now rewrite Z.mod_small.
Qed.

(** X10.  [text] appends the UTF-8 encoding of the text, and every value
    it appends is a byte (0 to 255), so the conversion of the buffer to
    a [Uint8Array] in [encode] changes none of them.  The number of bytes
    is at least the number of code units of the text and at most three
    times that number; a text of ASCII characters gives one byte for
    each character, the code of the character, so that the columns the
    layout counts are the columns the printer prints. *)
Theorem text_appends_the_bytes_of_the_text :
  forall (this : t) (content : str),
    code_units content ->
    buffer (text this content) = buffer this ++ utf8 content
    /\ List.Forall is_byte (utf8 content)
    /\ List.map (fun b => b mod 256) (utf8 content) = utf8 content
    /\ (List.length content <= List.length (utf8 content) <= 3 * List.length content)%nat
    /\ (ascii content ->
        utf8 content = List.map Z.of_N content
        /\ List.length (utf8 content) = List.length content).
Proof.
  intros this content Hs.
  destruct (@utf8_bytes_upto (List.length content) content (le_n _) Hs) as [Hb Hl].
  split; [reflexivity|]. split; [exact Hb|]. split; [now apply map_mod_bytes|].
  split; [exact Hl|]. intros Ha. rewrite utf8_ascii by exact Ha.
  split; [reflexivity | apply List.length_map].
Qed.

Lemma text_appends_the_bytes_of_the_text_witness :
  buffer (text (new mm80) (lit "Caf" ++ [233%N] ++ lit " 12" ++ [8364%N]))
  = [27; 64; 67; 97; 102; 195; 169; 32; 49; 50; 226; 130; 172]
  /\ utf8 (lit "Total Items: 3") = List.map Z.of_N (lit "Total Items: 3").
Proof.
  split.
  - now rewrite (proj1 (@text_appends_the_bytes_of_the_text (new mm80)
                          (lit "Caf" ++ [233%N] ++ lit " 12" ++ [8364%N])
                          ltac:(repeat constructor))).
  - apply (@text_appends_the_bytes_of_the_text (new mm80) (lit "Total Items: 3")
             ltac:(repeat constructor)).
    repeat constructor.
Defined.

(** X11.  [printBarcode] appends the commands of the height (50 dots),
    of the width (2) and of the position of the text (below), then the
    command [GS k 73 n] and the bytes of the data.  The length [n] is
    one byte: it is the number of bytes of the data when that is at
    most 255, and it is that number modulo 256, so another number, when
    the data has 256 bytes or more. *)
Theorem printBarcode_length_is_one_byte :
  forall (this : t) (data : str),
    code_units data ->
    let n := Z.of_nat (List.length (utf8 data)) in
    buffer (printBarcode this data)
    = buffer this ++ [29; 104; 50; 29; 119; 2; 29; 72; 2; 29; 107; 73; n mod 256] ++ utf8 data
    /\ (n < 256 -> n mod 256 = n)
    /\ (256 <= n -> n mod 256 <> n).
Proof.
  intros this data Hs n. split; [|split].
  - unfold printBarcode, raw, push. cbn [buffer].
    rewrite <- !List.app_assoc. f_equal.
    rewrite List.map_app, (@map_mod_bytes (utf8 data)) by now apply utf8_bytes.
    reflexivity.
  - intros H. apply Z.mod_small. lia.
  - intros H. pose proof (Z.mod_pos_bound n 256 ltac:(lia)). lia.
Qed.

Lemma printBarcode_length_is_one_byte_witness :
  buffer (printBarcode (new mm58) (lit "SKU123"))
  = [27; 64; 29; 104; 50; 29; 119; 2; 29; 72; 2; 29; 107; 73; 6; 83; 75; 85; 49; 50; 51]
  /\ List.nth 14 (buffer (printBarcode (new mm58) (List.repeat 65%N 300))) 0 = 44.
Proof.
  split.
  - now rewrite (proj1 (@printBarcode_length_is_one_byte (new mm58) (lit "SKU123")
                          ltac:(repeat constructor))).
  - rewrite (proj1 (@printBarcode_length_is_one_byte (new mm58) (List.repeat 65%N 300)
                      ltac:(apply List.Forall_forall; intros x Hx;
                            apply List.repeat_spec in Hx; now subst))).
    vm_compute. reflexivity.
Defined.

End EncoderBytes.

(* ================================================================== *)
(** * The encoder: the documents *)
(* ================================================================== *)

Section Tickets.
Import JS Types ESCPOSEncoder Spec.
Local Open Scope Z_scope.

Context {Num : Numbers}.
Variable Date_toLocaleString : str -> str.

Lemma grows_refl (a : t) : grows a a.
Proof. split; [reflexivity|]. exists []. now rewrite List.app_nil_r. Qed.

Lemma grows_push (a e : t) (bytes : list Z) : grows a e -> grows a (push e bytes).
Proof.
  intros [Hc (b & Hb)]. split; [exact Hc|]. exists (b ++ bytes).
  cbn [push buffer]. now rewrite Hb, List.app_assoc.
Qed.

Lemma grows_line (a e : t) (content : str) : grows a e -> grows a (line e content).
Proof. intros H. unfold line, text. now do 2 apply grows_push. Qed.

Lemma grows_bold (a e : t) (enabled : bool) : grows a e -> grows a (bold e enabled).
Proof. intros H. now apply grows_push. Qed.

Lemma grows_align (a e : t) (alignment : Alignment) : grows a e -> grows a (align e alignment).
Proof. intros H. now apply grows_push. Qed.

Lemma grows_size (a e : t) (sz : Size) : grows a e -> grows a (size e sz).
Proof. intros H. now apply grows_push. Qed.

Lemma grows_feed (a e : t) (lines : Z) : grows a e -> grows a (feed e lines).
Proof. intros H. now apply grows_push. Qed.

Lemma grows_printBarcode (a e : t) (data : str) : grows a e -> grows a (printBarcode e data).
Proof. intros H. unfold printBarcode, raw. now do 4 apply grows_push. Qed.

Lemma grows_lines (a : t) (lines : list str) :
  forall e : t, grows a e -> grows a (List.fold_left line lines e).
Proof.
  induction lines as [|l lines IH]; intros e H; [exact H|].
  simpl. apply IH. now apply grows_line.
Qed.

Lemma grows_wrap (a e : t) (content : str) : grows a e -> grows a (wrap e content).
Proof. intros H. rewrite wrap_emits_wrap_lines. now apply grows_lines. Qed.

Lemma grows_KOT_items (a : t) (paperWidth : PaperWidth) (items : list InvoiceItem) :
  forall e : t, grows a e -> grows a (List.fold_left (generateKOT_item paperWidth) items e).
Proof.
  induction items as [|item items IH]; intros e H; [exact H|].
  simpl. apply IH. unfold generateKOT_item.
  destruct (truthy (details item)); repeat apply grows_line; exact H.
Qed.

Lemma grows_invoice_items (a : t) (paperWidth : PaperWidth) (items : list InvoiceItem) :
  forall e : t, grows a e -> grows a (List.fold_left (generateInvoice_item paperWidth) items e).
Proof.
  induction items as [|item items IH]; intros e H; [exact H|].
  simpl. apply IH. unfold generateInvoice_item.
  destruct (truthy (details item)); repeat apply grows_line; exact H.
Qed.

Lemma separator_grows (paperWidth : PaperWidth) (e : t) (c : str) :
  grows (new paperWidth) e ->
  separator e c
  = Normal (line e (List.concat (List.repeat c (Z.to_nat (PAPER_CONFIG paperWidth))))).
Proof.
  intros [Hc _]. unfold separator, repeat. rewrite Hc. cbn [new initialize push charsPerLine].
  destruct (Z.ltb_spec (PAPER_CONFIG paperWidth) 0) as [H|_]; [destruct paperWidth; cbn in H; lia|].
  reflexivity.
Qed.

Lemma twoColumn_returns (e : t) (left right : str) :
  twoColumn e left right
  = Normal (line e (left
                    ++ List.repeat SPACE
                         (Z.to_nat (Z.max (charsPerLine e - length left - length right) 1))
                    ++ right)).
Proof. unfold twoColumn. rewrite repeat_space by lia. reflexivity. Qed.

Lemma ticket_cut (paperWidth : PaperWidth) (e : t) :
  grows (new paperWidth) e -> ticket (encode (cut e false)).
Proof.
  intros [_ (bytes & Hb)]. unfold ticket, encode, cut, raw, feed, push. cbn [buffer].
  rewrite Hb. exists (List.map (fun b => b mod 256) bytes).
  rewrite !List.map_app. cbn. now rewrite <- !List.app_assoc.
Qed.

Create HintDb grows discriminated.
#[local] Hint Resolve grows_refl grows_push grows_line grows_bold grows_align grows_size
  grows_feed grows_printBarcode grows_lines grows_wrap grows_KOT_items grows_invoice_items
  : grows.

Ltac growing := auto 60 with grows.

Ltac next_separator paperWidth :=
  match goal with
  | |- context [separator ?e ?c] =>
      rewrite (@separator_grows paperWidth e c) by growing; cbn [bind]
  end.

Ltac next_twoColumn :=
  match goal with
  | |- context [twoColumn ?e ?l ?r] => rewrite (twoColumn_returns e l r); cbn [bind]
  end.

Lemma generateKOT_ticket (data : KOTData) (paperWidth : PaperWidth) :
  exists bytes, generateKOT Date_toLocaleString data paperWidth = Normal bytes /\ ticket bytes.
Proof.
  unfold generateKOT.
  destruct (tableNumber data) as [table|]; [destruct (truthy table)|];
    (destruct (guestNumber data) as [guests|]; [destruct (ToBoolean guests)|]);
    (destruct (specialNotes data) as [notes|];
     [destruct (truthy_value notes && truthy (trim (String_of notes)))|]);
    do 3 next_separator paperWidth;
    (eexists; split; [reflexivity|]; apply (@ticket_cut paperWidth); growing).
Qed.

Lemma generateInvoice_ticket (data : InvoiceData) (paperWidth : PaperWidth) :
  exists bytes, generateInvoice Date_toLocaleString data paperWidth = Normal bytes /\ ticket bytes.
Proof.
  unfold generateInvoice.
  destruct (tableNumber data) as [table|]; [destruct (truthy table)|];
    (destruct (guestNumber data) as [guests|]; [destruct (ToBoolean guests)|]);
    destruct (gt_zero (remainingAmount (payment data)));
    do 3 next_separator paperWidth; repeat next_twoColumn; next_separator paperWidth;
    (eexists; split; [reflexivity|]; apply (@ticket_cut paperWidth); growing).
Qed.

Lemma generateBarcodeLabel_ticket (data : BarcodeData) (paperWidth : PaperWidth) :
  exists bytes, generateBarcodeLabel data paperWidth = Normal bytes /\ ticket bytes.
Proof.
  unfold generateBarcodeLabel. eexists. split; [reflexivity|].
  apply (@ticket_cut paperWidth). growing.
Qed.


End Tickets.

(* ================================================================== *)
(** * The orchestrator: what every run keeps *)
(* ================================================================== *)

Section Runs.
Import JS Types PrinterService Spec.
Local Open Scope Z_scope.

Variable Payload : Type.
Variable generateKOT : Payload -> PaperWidth -> completion (list Z).
Variable generateInvoice : Payload -> PaperWidth -> completion (list Z).
Variable generateBarcodeLabel : Payload -> PaperWidth -> completion (list Z).
Variable Platform_OS_web : bool.

Local Abbreviation World := (World Payload).
Local Abbreviation Job := (PrintJob.t Payload).
Local Abbreviation executePrintJob :=
  (executePrintJob generateKOT generateInvoice generateBarcodeLabel).
Local Abbreviation processQueue_loop :=
  (processQueue_loop generateKOT generateInvoice generateBarcodeLabel).
Local Abbreviation processQueue :=
  (processQueue generateKOT generateInvoice generateBarcodeLabel Platform_OS_web).
Local Abbreviation step := (step generateKOT generateInvoice generateBarcodeLabel Platform_OS_web).
Local Abbreviation run := (run generateKOT generateInvoice generateBarcodeLabel Platform_OS_web).

(** ** Counting *)

Lemma retries_modify (f : Job -> Job) (job r : nat) (js : list Job) :
  retries (modify f job js) r
  = if Nat.eqb job r
    then match List.nth_error js r with Some j => PrintJob.retryCount (f j) | None => 0 end
    else retries js r.
Proof.
  unfold retries. rewrite nth_error_modify.
  destruct (Nat.eqb job r); [|reflexivity]. now destruct (List.nth_error js r).
Qed.

Lemma retries_snoc (j : Job) (js : list Job) (r : nat) :
  PrintJob.retryCount j = 0 -> retries (js ++ [j]) r = retries js r.
Proof.
  intros Hj. unfold retries.
  destruct (Nat.lt_ge_cases r (List.length js)) as [H|H].
  - now rewrite List.nth_error_app1.
  - rewrite List.nth_error_app2 by exact H.
    rewrite (proj2 (List.nth_error_None js r) H).
    destruct (r - List.length js)%nat as [|k]; simpl; [exact Hj | now destruct k].
Qed.

Lemma attempts_snoc (starts : list nat) (x r : nat) :
  attempts (starts ++ [x]) r = (attempts starts r + (if Nat.eqb x r then 1 else 0))%nat.
Proof.
  unfold attempts. rewrite List.filter_app, List.length_app. simpl.
  rewrite (Nat.eqb_sym r x). now destruct (Nat.eqb x r).
Qed.

Lemma sends_in_flight_snoc (tasks : list Task) (task : Task) (r : nat) :
  sends_in_flight (tasks ++ [task]) r
  = (sends_in_flight tasks r
     + match task with
       | processQueue_at_send job _ => if Nat.eqb job r then 1 else 0
       | _ => 0
       end)%nat.
Proof.
  unfold sends_in_flight. rewrite List.filter_app, List.length_app. simpl.
  destruct task as [c|c|c| |job rest]; try reflexivity. now destruct (Nat.eqb job r).
Qed.

Lemma sends_in_flight_remove_nth (tasks : list Task) (n : nat) (task : Task) (r : nat) :
  List.nth_error tasks n = Some task ->
  sends_in_flight tasks r
  = (sends_in_flight (remove_nth n tasks) r
     + match task with
       | processQueue_at_send job _ => if Nat.eqb job r then 1 else 0
       | _ => 0
       end)%nat.
Proof.
  revert n. induction tasks as [|t tasks IH]; intros [|n] H; simpl in H; try discriminate.
  - inversion H; subst. unfold sends_in_flight. simpl.
    destruct task as [c|c|c| |job rest]; simpl; try lia.
    destruct (Nat.eqb job r); simpl; lia.
  - specialize (IH n H). unfold sends_in_flight in *. simpl.
    destruct t as [c|c|c| |job' rest']; simpl; try exact IH.
    destruct (Nat.eqb job' r); simpl; lia.
Qed.

(** ** The events and the jobs after each method *)

Lemma failures_filter_queue (keep : jref -> bool) (w : World) :
  failures (filter_queue keep w) = failures w.
Proof. reflexivity. Qed.

Lemma failures_updateState (updates : Updates) (w : World) :
  failures (updateState updates w) = failures w.
Proof. unfold updateState. rewrite failures_emit. simpl. now rewrite List.app_nil_r. Qed.

Lemma failures_executePrintJob_catch_none (job : jref) (m : option str) (w : World) :
  job_at w job = None -> failures (executePrintJob_catch job m w) = failures w.
Proof.
  intros Hn. unfold executePrintJob_catch. rewrite failures_setStatus.
  now rewrite job_at_write_job, Nat.eqb_refl, Hn.
Qed.

Lemma failures_executePrintJob_sent (job : jref) (w : World) :
  failures (executePrintJob_sent job w) = failures w.
Proof.
  unfold executePrintJob_sent. rewrite failures_emit, failures_setStatus. simpl.
  rewrite List.app_nil_r. now destruct (job_at _ job).
Qed.

Lemma jobs_observe (w : World) : jobs w = the_jobs (observe w).
Proof. reflexivity. Qed.

Lemma awaiting_observe (w : World) : awaiting w = the_awaiting (observe w).
Proof. reflexivity. Qed.

Lemma started_observe (w : World) : started w = the_started (observe w).
Proof. reflexivity. Qed.

Lemma retryCount_failed_attempt (m : option str) (j : Job) :
  PrintJob.retryCount (failed_attempt m j) = PrintJob.retryCount j + 1.
Proof. reflexivity. Qed.

(** ** Every retry has its start *)

Lemma owed_accounted (job : jref) (w : World) : owed job w -> accounted w.
Proof. intros H r. specialize (H r). destruct (Nat.eqb job r); lia. Qed.

Lemma audit_catch (job : jref) (m : option str) (w : World) :
  owed job w -> failed_after_three w ->
  accounted (executePrintJob_catch job m w)
  /\ failed_after_three (executePrintJob_catch job m w).
Proof.
  intros Ho Hf.
  assert (Ha : accounted (executePrintJob_catch job m w)).
  { intros r. rewrite jobs_observe, awaiting_observe, started_observe.
    rewrite observe_executePrintJob_catch. cbn [the_jobs the_awaiting the_started observe].
    rewrite retries_modify. specialize (Ho r). unfold retries in *.
    destruct (Nat.eqb job r); [|lia].
    destruct (List.nth_error (jobs w) r); [rewrite retryCount_failed_attempt|]; lia. }
  split; [exact Ha|].
  intros r Hr. rewrite started_observe, observe_executePrintJob_catch.
  cbn [the_started observe].
  destruct (job_at w job) as [j|] eqn:Ej.
  - destruct (executePrintJob_catch_job job m w Ej) as (_ & Efail & _).
    rewrite Efail in Hr. apply List.in_app_or in Hr. destruct Hr as [Hr|Hr]; [now apply Hf|].
    destruct (Z.ltb_spec (PrintJob.retryCount j + 1) 3) as [Hlt|Hge]; [contradiction|].
    destruct Hr as [<-|[]]. specialize (Ho job). rewrite Nat.eqb_refl in Ho.
    unfold retries in Ho. unfold job_at in Ej. rewrite Ej in Ho. lia.
  - rewrite failures_executePrintJob_catch_none in Hr by exact Ej. now apply Hf.
Qed.

Lemma audit_sent (job : jref) (w : World) :
  owed job w -> failed_after_three w ->
  accounted (executePrintJob_sent job w) /\ failed_after_three (executePrintJob_sent job w).
Proof.
  intros Ho Hf. split.
  - intros r. rewrite jobs_observe, awaiting_observe, started_observe.
    rewrite observe_executePrintJob_sent. cbn [the_jobs the_awaiting the_started observe].
    rewrite retries_modify. specialize (Ho r). unfold retries in *.
    destruct (Nat.eqb job r); [|lia].
    destruct (List.nth_error (jobs w) r); simpl; lia.
  - intros r Hr. rewrite failures_executePrintJob_sent in Hr.
    rewrite started_observe, observe_executePrintJob_sent. cbn [the_started observe].
    now apply Hf.
Qed.

Lemma audit_started (job : jref) (w : World) :
  accounted w -> failed_after_three w ->
  let w1 := emit (print_started job)
              (setStatus PrinterStatus.printing
                 (write_job (with_status JobStatus.printing) job w)) in
  owed job w1 /\ failed_after_three w1.
Proof.
  intros Ha Hf w1.
  assert (Es : started w1 = started w ++ [job]).
  { unfold w1. rewrite started_emit. unfold setStatus, updateState.
    rewrite started_emit. simpl. now rewrite List.app_nil_r. }
  split.
  - intros r. rewrite Es, attempts_snoc.
    change (jobs w1) with (modify (with_status JobStatus.printing) job (jobs w)).
    change (awaiting w1) with (awaiting w).
    rewrite retries_modify. specialize (Ha r). unfold retries in *.
    destruct (Nat.eqb job r); [|lia].
    destruct (List.nth_error (jobs w) r); simpl; lia.
  - intros r Hr. rewrite Es, attempts_snoc.
    assert (Ef : failures w1 = failures w).
    { unfold w1. rewrite failures_emit, failures_setStatus. simpl. now rewrite List.app_nil_r. }
    rewrite Ef in Hr. specialize (Hf r Hr). lia.
Qed.

Lemma audit_executePrintJob (job : jref) (w : World) :
  accounted w -> failed_after_three w ->
  failed_after_three (fst (executePrintJob job w))
  /\ if snd (executePrintJob job w)
     then owed job (fst (executePrintJob job w))
     else accounted (fst (executePrintJob job w)).
Proof.
  intros Ha Hf. destruct (audit_started job Ha Hf) as [Ho1 Hf1].
  unfold PrinterService.executePrintJob.
  set (w1 := emit (print_started job) _) in *.
  destruct (job_at w1 job) as [j|].
  - destruct (generate _ _ _ _ _ _) as [data|e].
    + unfold sendToPrinter. destruct (connectedPrinter (state w1)) as [printer|].
      * cbn [fst snd]. split; [exact Hf1 | exact Ho1].
      * cbn [fst snd]. destruct (audit_catch (Some (lit "No printer connected")) Ho1 Hf1).
        now split.
    + cbn [fst snd]. destruct (audit_catch (Some (message e)) Ho1 Hf1). now split.
  - cbn [fst snd]. split; [exact Hf1 | now apply owed_accounted with job].
Qed.

Lemma audit_set_isProcessingQueue (b : bool) (w : World) :
  accounted w /\ failed_after_three w ->
  accounted (set_isProcessingQueue b w) /\ failed_after_three (set_isProcessingQueue b w).
Proof. exact (fun H => H). Qed.

Lemma audit_processQueue_loop (rest : list jref) :
  forall w : World,
    accounted w /\ failed_after_three w ->
    accounted (processQueue_loop rest w) /\ failed_after_three (processQueue_loop rest w).
Proof.
  induction rest as [|job rest IH]; intros w [Ha Hf]; cbn [PrinterService.processQueue_loop].
  - now split.
  - destruct (negb _); [now split|].
    destruct (audit_executePrintJob job Ha Hf) as [Hf' Hs].
    destruct (executePrintJob job w) as [w' suspended]. cbn [fst snd] in *.
    destruct suspended.
    + split; [|exact Hf'].
      intros r. change (jobs (set_awaiting _ w')) with (jobs w').
      change (awaiting (set_awaiting ?a w')) with a.
      change (started (set_awaiting _ w')) with (started w').
      rewrite sends_in_flight_snoc. specialize (Hs r). destruct (Nat.eqb job r); lia.
    + now apply IH.
Qed.

Lemma audit_processQueue (w : World) :
  accounted w /\ failed_after_three w ->
  accounted (processQueue w) /\ failed_after_three (processQueue w).
Proof.
  intros H. unfold PrinterService.processQueue.
  destruct (isProcessingQueue w); [exact H|].
  destruct (List.filter _ _); [exact H|].
  destruct (_ || _).
  - unfold showNoPrinterAlert. now destruct Platform_OS_web.
  - now apply audit_processQueue_loop.
Qed.

Lemma audit_updateState (updates : Updates) (w : World) :
  accounted w /\ failed_after_three w ->
  accounted (updateState updates w) /\ failed_after_three (updateState updates w).
Proof.
  intros [Ha Hf]. split.
  - intros r. rewrite jobs_observe, awaiting_observe, started_observe, observe_updateState.
    apply Ha.
  - intros r Hr. rewrite failures_updateState in Hr.
    rewrite started_observe, observe_updateState. now apply Hf.
Qed.

Lemma audit_emit (e : Event) (w : World) :
  match e with print_started _ | print_failed _ _ => False | _ => True end ->
  accounted w /\ failed_after_three w ->
  accounted (emit e w) /\ failed_after_three (emit e w).
Proof.
  intros He [Ha Hf].
  assert (Es : started (emit e w) = started w).
  { rewrite started_emit. destruct e; try contradiction; apply List.app_nil_r. }
  assert (Ef : failures (emit e w) = failures w).
  { rewrite failures_emit. destruct e; try contradiction; apply List.app_nil_r. }
  split.
  - intros r. rewrite Es. apply Ha.
  - intros r Hr. rewrite Ef in Hr. rewrite Es. now apply Hf.
Qed.

Lemma audit_set_awaiting (tasks : list Task) (w : World) :
  (forall r, sends_in_flight tasks r <= sends_in_flight (awaiting w) r)%nat ->
  accounted w /\ failed_after_three w ->
  accounted (set_awaiting tasks w) /\ failed_after_three (set_awaiting tasks w).
Proof.
  intros Ht [Ha Hf]. split; [|exact Hf].
  intros r. specialize (Ha r). specialize (Ht r).
  change (jobs (set_awaiting tasks w)) with (jobs w).
  change (awaiting (set_awaiting tasks w)) with tasks.
  change (started (set_awaiting tasks w)) with (started w). lia.
Qed.

Lemma audit_connect_catch (m : option str) (w : World) :
  accounted w /\ failed_after_three w ->
  accounted (connect_catch m w) /\ failed_after_three (connect_catch m w).
Proof.
  intros H. unfold connect_catch. apply audit_emit; [exact I|]. now apply audit_updateState.
Qed.

Lemma audit_step (w : World) (input : Input Payload) :
  accounted w /\ failed_after_three w ->
  accounted (step w input) /\ failed_after_three (step w input).
Proof.
  intros H. destruct input as [config| |type payload jobId now| | |n outcome|];
    cbn [PrinterService.step].
  - unfold connect. apply audit_set_awaiting.
    + intros r. rewrite sends_in_flight_snoc.
      change (awaiting (setError _ (setStatus _ w))) with (awaiting w). lia.
    + unfold setError, setStatus. now do 2 apply audit_updateState.
  - unfold disconnect. destruct (connectedPrinter (state w)); [|exact H].
    apply audit_set_awaiting; [|exact H].
    intros r. rewrite sends_in_flight_snoc. lia.
  - unfold addPrintJob. cbn [snd]. apply audit_processQueue.
    apply audit_emit; [exact I|]. destruct H as [Ha Hf]. split; [|exact Hf].
    intros r. specialize (Ha r).
    change (jobs (set_arrays _ (set_jobs ?js w))) with js.
    change (awaiting (set_arrays _ (set_jobs _ w))) with (awaiting w).
    change (started (set_arrays _ (set_jobs _ w))) with (started w).
    now rewrite retries_snoc.
  - unfold clearQueue. apply audit_emit; [exact I|]. exact H.
  - exact H.
  - destruct (List.nth_error (awaiting w) n) as [task|] eqn:En; [|exact H].
    pose proof (fun r => sends_in_flight_remove_nth (awaiting w) n r En) as Hn.
    destruct task as [config|config|config| |job rest]; cbn [PrinterService.resume].
    + assert (H0 : accounted (set_awaiting (remove_nth n (awaiting w)) w)
                   /\ failed_after_three (set_awaiting (remove_nth n (awaiting w)) w)).
      { apply audit_set_awaiting; [|exact H]. intros r. rewrite (Hn r). lia. }
      destruct outcome as [[|]|m].
      * apply audit_set_awaiting.
        -- intros r. rewrite sends_in_flight_snoc.
           change (awaiting (updateState _ ?x)) with (awaiting x). lia.
        -- now apply audit_updateState.
      * now apply audit_connect_catch.
      * now apply audit_connect_catch.
    + assert (H0 : accounted (set_awaiting (remove_nth n (awaiting w)) w)
                   /\ failed_after_three (set_awaiting (remove_nth n (awaiting w)) w)).
      { apply audit_set_awaiting; [|exact H]. intros r. rewrite (Hn r). lia. }
      destruct outcome as [v|m]; [|now apply audit_connect_catch].
      apply audit_set_awaiting; [|exact H0].
      intros r. rewrite sends_in_flight_snoc. lia.
    + assert (H0 : accounted (set_awaiting (remove_nth n (awaiting w)) w)
                   /\ failed_after_three (set_awaiting (remove_nth n (awaiting w)) w)).
      { apply audit_set_awaiting; [|exact H]. intros r. rewrite (Hn r). lia. }
      destruct outcome as [v|m]; [|now apply audit_connect_catch].
      apply audit_processQueue. apply audit_emit; [exact I | exact H0].
    + assert (H0 : accounted (set_awaiting (remove_nth n (awaiting w)) w)
                   /\ failed_after_three (set_awaiting (remove_nth n (awaiting w)) w)).
      { apply audit_set_awaiting; [|exact H]. intros r. rewrite (Hn r). lia. }
      apply audit_emit; [exact I|]. now apply audit_updateState.
    + assert (Ho : owed job (set_awaiting (remove_nth n (awaiting w)) w)).
      { destruct H as [Ha _]. intros r. specialize (Ha r). rewrite (Hn r) in Ha.
        change (jobs (set_awaiting _ w)) with (jobs w).
        change (awaiting (set_awaiting ?a w)) with a.
        change (started (set_awaiting _ w)) with (started w).
        destruct (Nat.eqb job r); lia. }
      assert (Hf : failed_after_three (set_awaiting (remove_nth n (awaiting w)) w))
        by exact (proj2 H).
      apply audit_processQueue_loop.
      destruct outcome as [v|m]; [now apply audit_sent | now apply audit_catch].
  - destruct (timers w) as [|k]; [exact H|]. unfold retry. apply audit_processQueue. exact H.
Qed.

Lemma audit_run (inputs : list (Input Payload)) :
  forall w : World,
    accounted w /\ failed_after_three w ->
    accounted (run w inputs) /\ failed_after_three (run w inputs).
Proof.
  induction inputs as [|input inputs IH]; intros w H; [exact H|].
  simpl. apply IH. now apply audit_step.
Qed.


End Runs.

(* ================================================================== *)
(** * The orchestrator: submitting, clearing, connecting *)
(* ================================================================== *)

Section Queue.
Import JS Types PrinterService Spec.
Local Open Scope Z_scope.

Variable Payload : Type.
Variable generateKOT : Payload -> PaperWidth -> completion (list Z).
Variable generateInvoice : Payload -> PaperWidth -> completion (list Z).
Variable generateBarcodeLabel : Payload -> PaperWidth -> completion (list Z).
Variable Platform_OS_web : bool.

Local Abbreviation World := (World Payload).
Local Abbreviation Job := (PrintJob.t Payload).
Local Abbreviation executePrintJob :=
  (executePrintJob generateKOT generateInvoice generateBarcodeLabel).
Local Abbreviation processQueue_loop :=
  (processQueue_loop generateKOT generateInvoice generateBarcodeLabel).
Local Abbreviation processQueue :=
  (processQueue generateKOT generateInvoice generateBarcodeLabel Platform_OS_web).
Local Abbreviation step := (step generateKOT generateInvoice generateBarcodeLabel Platform_OS_web).
Local Abbreviation run := (run generateKOT generateInvoice generateBarcodeLabel Platform_OS_web).

(** ** The state object and the array of the queue stay in the heap *)

Lemma well_formed_updateState (updates : Updates) (w : World) :
  well_formed w -> well_formed (updateState updates w).
Proof.
  intros [_ Hq]. split; [apply allocated_updateState|].
  rewrite state_updateState. exact Hq.
Qed.

Lemma well_formed_filter_queue (keep : jref -> bool) (w : World) :
  well_formed w -> well_formed (filter_queue keep w).
Proof.
  intros [Ha Hq]. split; [now apply allocated_filter_queue|].
  unfold filter_queue, state, state_at. simpl.
  rewrite nth_modify_same by exact Ha. simpl. rewrite List.length_app. simpl. lia.
Qed.

Lemma well_formed_executePrintJob_catch (job : jref) (m : option str) (w : World) :
  well_formed w -> well_formed (executePrintJob_catch job m w).
Proof.
  intros H. unfold executePrintJob_catch, setStatus. apply well_formed_updateState.
  destruct (job_at _ job) as [j|]; [|exact H].
  destruct (PrintJob.retryCount j <? 3); [exact H|].
  apply (@well_formed_filter_queue _ (write_job _ job (write_job _ job w))). exact H.
Qed.

Lemma well_formed_executePrintJob_sent (job : jref) (w : World) :
  well_formed w -> well_formed (executePrintJob_sent job w).
Proof.
  intros H. unfold executePrintJob_sent, setStatus.
  apply (@well_formed_updateState _ _).
  destruct (job_at _ job) as [j|]; [|exact H].
  apply (@well_formed_filter_queue _ (write_job _ job w)). exact H.
Qed.

Lemma well_formed_executePrintJob (job : jref) (w : World) :
  well_formed w -> well_formed (fst (executePrintJob job w)).
Proof.
  intros H. unfold PrinterService.executePrintJob.
  set (w1 := emit (print_started job) _).
  assert (H1 : well_formed w1).
  { apply (@well_formed_updateState _ (write_job _ job w)). exact H. }
  destruct (job_at w1 job); [|exact H1].
  destruct (generate _ _ _ _ _ _); [|now apply well_formed_executePrintJob_catch].
  unfold sendToPrinter. destruct (connectedPrinter (state w1)).
  - exact H1.
  - now apply well_formed_executePrintJob_catch.
Qed.

Lemma well_formed_processQueue_loop (rest : list jref) :
  forall w : World, well_formed w -> well_formed (processQueue_loop rest w).
Proof.
  induction rest as [|job rest IH]; intros w Hw; cbn [PrinterService.processQueue_loop].
  - exact Hw.
  - destruct (negb _); [exact Hw|].
    generalize (well_formed_executePrintJob job Hw).
    destruct (executePrintJob job w) as [w1 suspended]. cbn [fst]. intros H1.
    destruct suspended; [exact H1 | now apply IH].
Qed.

Lemma well_formed_processQueue (w : World) : well_formed w -> well_formed (processQueue w).
Proof.
  intros Hw. unfold PrinterService.processQueue.
  destruct (isProcessingQueue w); [exact Hw|].
  destruct (List.filter _ _); [exact Hw|].
  destruct (_ || _).
  - unfold showNoPrinterAlert. now destruct Platform_OS_web.
  - now apply well_formed_processQueue_loop.
Qed.

Lemma well_formed_step (w : World) (input : Input Payload) :
  well_formed w -> well_formed (step w input).
Proof.
  intros Hw. destruct input as [config| |type payload jobId now| | |n outcome|];
    cbn [PrinterService.step].
  - unfold connect, setError, setStatus.
    apply (@well_formed_updateState _ (updateState _ w)). now apply well_formed_updateState.
  - unfold disconnect. now destruct (connectedPrinter (state w)).
  - unfold addPrintJob. cbn [snd]. apply well_formed_processQueue.
    destruct Hw as [Ha Hq]. split; [exact Ha|].
    unfold state, state_at. simpl. now rewrite length_modify.
  - unfold clearQueue. now apply (@well_formed_filter_queue _ w).
  - destruct Hw as [Ha Hq]. unfold well_formed, allocated, getState, state, state_at in *.
    simpl. rewrite List.length_app, List.app_nth1 by exact Ha. simpl. split; [lia | exact Hq].
  - destruct (List.nth_error (awaiting w) n) as [task|]; [|exact Hw].
    destruct task as [config|config|config| |job rest]; cbn [PrinterService.resume].
    + destruct outcome as [[|]|m].
      * set (w1 := updateState _ _).
        assert (H1 : well_formed w1)
          by (apply (@well_formed_updateState _ (set_awaiting _ w)); exact Hw).
        exact H1.
      * apply (@well_formed_updateState _ (set_awaiting _ w)); exact Hw.
      * apply (@well_formed_updateState _ (set_awaiting _ w)); exact Hw.
    + destruct outcome as [v|m]; [exact Hw|].
      apply (@well_formed_updateState _ (set_awaiting _ w)); exact Hw.
    + destruct outcome as [v|m].
      * now apply well_formed_processQueue.
      * apply (@well_formed_updateState _ (set_awaiting _ w)); exact Hw.
    + apply (@well_formed_updateState _ (set_awaiting _ w)); exact Hw.
    + apply well_formed_processQueue_loop.
      destruct outcome; [now apply well_formed_executePrintJob_sent
                        | now apply well_formed_executePrintJob_catch].
  - destruct (timers w); [exact Hw|]. unfold retry. now apply well_formed_processQueue.
Qed.

Lemma well_formed_run (inputs : list (Input Payload)) :
  forall w : World, well_formed w -> well_formed (run w inputs).
Proof.
  induction inputs as [|input inputs IH]; intros w Hw; [exact Hw|].
  simpl. apply IH. now apply well_formed_step.
Qed.

Lemma well_formed_reached (inputs : list (Input Payload)) : well_formed (run initial inputs).
Proof. apply well_formed_run. split; unfold allocated; simpl; lia. Qed.

(** ** The jobs a run leaves as they were submitted *)

Lemma keeps_the_jobs_same (w w' : World) :
  List.map submitted (jobs w') = List.map submitted (jobs w) -> keeps_the_jobs w w'.
Proof. intros E. exists []. now rewrite List.app_nil_r. Qed.

Lemma keeps_the_jobs_trans (w1 w2 w3 : World) :
  keeps_the_jobs w1 w2 -> keeps_the_jobs w2 w3 -> keeps_the_jobs w1 w3.
Proof.
  intros (m1 & E1) (m2 & E2). exists (m1 ++ m2). now rewrite E2, E1, List.app_assoc.
Qed.

Lemma submitted_executePrintJob_catch (job : jref) (m : option str) (w : World) :
  List.map submitted (jobs (executePrintJob_catch job m w)) = List.map submitted (jobs w).
Proof.
  change (jobs (executePrintJob_catch job m w))
    with (the_jobs (observe (executePrintJob_catch job m w))).
  rewrite observe_executePrintJob_catch. cbn [the_jobs observe].
  apply map_modify. apply submitted_failed_attempt.
Qed.

Lemma submitted_executePrintJob_sent (job : jref) (w : World) :
  List.map submitted (jobs (executePrintJob_sent job w)) = List.map submitted (jobs w).
Proof.
  change (jobs (executePrintJob_sent job w))
    with (the_jobs (observe (executePrintJob_sent job w))).
  rewrite observe_executePrintJob_sent. cbn [the_jobs observe].
  apply map_modify. apply submitted_with_status.
Qed.

Lemma submitted_executePrintJob (job : jref) (w : World) :
  List.map submitted (jobs (fst (executePrintJob job w))) = List.map submitted (jobs w).
Proof.
  unfold PrinterService.executePrintJob.
  set (w1 := emit (print_started job) _).
  assert (E1 : List.map submitted (jobs w1) = List.map submitted (jobs w)).
  { change (jobs w1) with (modify (with_status JobStatus.printing) job (jobs w)).
    apply map_modify. apply submitted_with_status. }
  destruct (job_at w1 job); [|exact E1].
  destruct (generate _ _ _ _ _ _).
  - unfold sendToPrinter. destruct (connectedPrinter (state w1)); cbn [fst].
    + exact E1.
    + now rewrite submitted_executePrintJob_catch.
  - cbn [fst]. now rewrite submitted_executePrintJob_catch.
Qed.

Lemma submitted_processQueue_loop (rest : list jref) :
  forall w : World,
    List.map submitted (jobs (processQueue_loop rest w)) = List.map submitted (jobs w).
Proof.
  induction rest as [|job rest IH]; intros w; cbn [PrinterService.processQueue_loop].
  - reflexivity.
  - destruct (negb _); [reflexivity|].
    generalize (submitted_executePrintJob job w).
    destruct (executePrintJob job w) as [w1 suspended]. cbn [fst]. intros E1.
    destruct suspended; [exact E1 | now rewrite IH].
Qed.

Lemma submitted_processQueue (w : World) :
  List.map submitted (jobs (processQueue w)) = List.map submitted (jobs w).
Proof.
  unfold PrinterService.processQueue.
  destruct (isProcessingQueue w); [reflexivity|].
  destruct (List.filter _ _) eqn:F; [reflexivity|].
  destruct (_ || _).
  - unfold showNoPrinterAlert. now destruct Platform_OS_web.
  - now rewrite submitted_processQueue_loop.
Qed.

Lemma keeps_the_jobs_step (w : World) (input : Input Payload) :
  keeps_the_jobs w (step w input).
Proof.
  destruct input as [config| |type payload jobId now| | |n outcome|];
    cbn [PrinterService.step]; try (apply keeps_the_jobs_same; reflexivity).
  - apply keeps_the_jobs_same. unfold disconnect. now destruct (connectedPrinter (state w)).
  - unfold addPrintJob. cbn [snd]. exists [(jobId, type, payload, now)].
    rewrite submitted_processQueue. simpl. now rewrite List.map_app.
  - destruct (List.nth_error (awaiting w) n) as [task|];
      [|apply keeps_the_jobs_same; reflexivity].
    apply keeps_the_jobs_same.
    destruct task as [config|config|config| |job rest]; cbn [PrinterService.resume].
    + now destruct outcome as [[|]|m].
    + now destruct outcome as [v|m].
    + destruct outcome as [v|m]; [|reflexivity]. now rewrite submitted_processQueue.
    + reflexivity.
    + rewrite submitted_processQueue_loop.
      destruct outcome; [rewrite submitted_executePrintJob_sent
                        | rewrite submitted_executePrintJob_catch]; reflexivity.
  - apply keeps_the_jobs_same. destruct (timers w); [reflexivity|].
    unfold retry. now rewrite submitted_processQueue.
Qed.

Lemma keeps_the_jobs_run (inputs : list (Input Payload)) :
  forall w : World, keeps_the_jobs w (run w inputs).
Proof.
  induction inputs as [|input inputs IH]; intros w.
  - apply keeps_the_jobs_same. reflexivity.
  - simpl. eapply keeps_the_jobs_trans; [apply keeps_the_jobs_step | apply IH].
Qed.

(** X14.  The orchestrator writes only the status, the retry count and
    the error of a job.  Whatever is called and whatever settles
    afterwards, a job that has been submitted stays where it is, with
    the identifier, the type, the payload and the time it was submitted
    with. *)
Theorem a_submitted_job_keeps_what_it_was_submitted_with :
  forall (before after : list (Input Payload)) (r : jref) (j : Job),
    job_at (run initial before) r = Some j ->
    exists j',
      job_at (run initial (before ++ after)) r = Some j'
      /\ PrintJob.id j' = PrintJob.id j
      /\ PrintJob.type j' = PrintJob.type j
      /\ PrintJob.payload j' = PrintJob.payload j
      /\ PrintJob.timestamp j' = PrintJob.timestamp j.
Proof.
  intros before after r j. rewrite run_app.
  generalize (keeps_the_jobs_run after (run initial before)).
  generalize (run initial before) (run (run initial before) after).
  intros w w' (more & E) Hj. unfold job_at in *.
  assert (Hs : List.nth_error (List.map submitted (jobs w')) r = Some (submitted j)).
  { rewrite E, List.nth_error_app1.
    - now rewrite List.nth_error_map, Hj.
    - rewrite List.length_map. apply List.nth_error_Some. congruence. }
  rewrite List.nth_error_map in Hs.
  destruct (List.nth_error (jobs w') r) as [j'|]; [|discriminate].
  exists j'. split; [reflexivity|]. simpl in Hs. inversion Hs. repeat split; assumption.
Qed.

(** ** A submission while no printer is connected *)

Lemma status_eqb_neq (a b : PrinterStatus.t) : a <> b -> PrinterStatus.eqb a b = false.
Proof. destruct a, b; intros H; try reflexivity; now elim H. Qed.

(** X15.  While the status is not [connected] or no printer is set, a
    submitted job is only queued: [addPrintJob] appends the job to the
    queue with the status [pending], starts no job and hands nothing to
    an adapter, and leaves the state as it is.  On a phone or a tablet
    it shows the "No Printer Connected" alert, unless a drain of the
    queue is marked as running. *)
Theorem addPrintJob_without_a_printer_only_queues :
  forall (inputs : list (Input Payload)) (type : PrintJobType) (payload : Payload)
         (jobId : str) (now : Z),
    let w := run initial inputs in
    let w' := step w (call_addPrintJob type payload jobId now) in
    status (state w) <> PrinterStatus.connected \/ connectedPrinter (state w) = None ->
    jobs w' = jobs w ++ [pending_job jobId type payload now]
    /\ queue w' = queue w ++ [List.length (jobs w)]
    /\ started w' = started w
    /\ sent w' = sent w
    /\ awaiting w' = awaiting w
    /\ state w' = state w
    /\ alerts w'
       = alerts w ++ (if isProcessingQueue w || Platform_OS_web then []
                      else [No_Printer_Connected]).
Proof.
  intros inputs type payload jobId now.
  generalize (well_formed_reached inputs). generalize (run initial inputs).
  intros w [Ha Hq]. cbv zeta.
  set (w' := step w (call_addPrintJob type payload jobId now)). intros Hno.
  set (job := pending_job jobId type payload now).
  set (r := List.length (jobs w)).
  set (w2 := emit (job_added r)
               (set_arrays (modify (fun a => a ++ [r]) (printQueue (state w)) (arrays w))
                  (set_jobs (jobs w ++ [job]) w))).
  assert (Ew : w' = processQueue w2) by reflexivity.
  assert (Eq : queue w2 = queue w ++ [r]).
  { unfold queue, array_at. change (state w2) with (state w). simpl.
    now rewrite nth_modify_same by exact Hq. }
  assert (Ep : List.filter (job_status_is w2 JobStatus.pending) (queue w2) <> []).
  { rewrite Eq, List.filter_app. cbn [List.filter].
    assert (Er : job_status_is w2 JobStatus.pending r = true).
    { unfold job_status_is, job_at. change (jobs w2) with (jobs w ++ [job]).
      unfold r. rewrite List.nth_error_app2, Nat.sub_diag by lia. reflexivity. }
    rewrite Er. intros E. apply List.app_eq_nil in E. destruct E as [_ E]. discriminate. }
  assert (Ec : negb (PrinterStatus.eqb (status (state w2)) PrinterStatus.connected)
               || match connectedPrinter (state w2) with None => true | Some _ => false end
               = true).
  { change (state w2) with (state w). destruct Hno as [Hs|Hp].
    - now rewrite status_eqb_neq.
    - rewrite Hp. apply orb_true_r. }
  assert (E : w' = if isProcessingQueue w then w2 else showNoPrinterAlert Platform_OS_web w2).
  { rewrite Ew. unfold PrinterService.processQueue.
    change (isProcessingQueue w2) with (isProcessingQueue w).
    destruct (isProcessingQueue w); [reflexivity|].
    destruct (List.filter _ _); [now elim Ep|]. now rewrite Ec. }
  assert (Es : started w2 = started w).
  { unfold w2. rewrite started_emit. apply List.app_nil_r. }
  rewrite E. unfold showNoPrinterAlert.
  destruct (isProcessingQueue w), Platform_OS_web; cbn [orb];
    repeat split; try (rewrite List.app_nil_r; reflexivity); try exact Eq; exact Es.
Qed.

(** ** [clearQueue] *)

Lemma clearQueue_keeps_the_printing (inputs : list (Input Payload)) :
  let w := run initial inputs in
  let w' := step w call_clearQueue in
  queue w' = List.filter (job_status_is w JobStatus.printing) (queue w)
  /\ List.Forall (fun r => job_status_is w' JobStatus.printing r = true) (queue w')
  /\ jobs w' = jobs w
  /\ awaiting w' = awaiting w.
Proof.
  generalize (well_formed_reached inputs). generalize (run initial inputs).
  intros w [Ha Hq]. cbv zeta. set (w' := step w call_clearQueue).
  assert (E : queue w' = List.filter (job_status_is w JobStatus.printing) (queue w)).
  { unfold w'. cbn [PrinterService.step]. unfold clearQueue.
    change (queue (emit queue_cleared ?x)) with (queue x).
    now apply queue_filter_queue. }
  split; [exact E|]. split; [|split; reflexivity].
  rewrite E. apply List.Forall_forall. intros r Hr. apply List.filter_In in Hr.
  exact (proj2 Hr).
Qed.

(** ** The end of a connection attempt *)

Lemma started_updateState (updates : Updates) (w : World) :
  started (updateState updates w) = started w.
Proof. unfold updateState. rewrite started_emit. apply List.app_nil_r. Qed.

(** X17.  When the adapter has connected, [connect] sets the status to
    [connected], the connected printer to the configuration, and the
    last error to null.  When the adapter rejects, or resolves to
    false, it sets the status to [error] and the last error to the
    message of the error, or to "Connection failed" when there is none;
    it leaves the connected printer as it was, so a printer that was
    connected before stays set; it starts no job, hands nothing to an
    adapter and leaves the queue as it is. *)
Theorem connect_ends_connected_or_in_error :
  forall (w : World) (n : nat) (config : PrinterConfig.t),
    List.nth_error (awaiting w) n = Some (connect_at_adapter config) ->
    (let w' := step w (settles n (fulfilled true)) in
     status (state w') = PrinterStatus.connected
     /\ connectedPrinter (state w') = Some config
     /\ lastError (state w') = None)
    /\ (forall outcome message,
          outcome = fulfilled false /\ message = Some (lit "Connection failed")
          \/ outcome = rejected message ->
          let w' := step w (settles n outcome) in
          status (state w') = PrinterStatus.error
          /\ lastError (state w') = Some (message_or message (lit "Connection failed"))
          /\ connectedPrinter (state w') = connectedPrinter (state w)
          /\ started w' = started w
          /\ sent w' = sent w
          /\ jobs w' = jobs w
          /\ queue w' = queue w
          /\ awaiting w' = remove_nth n (awaiting w)).
Proof.
  intros w n config Hn. split.
  - cbv zeta. cbn [PrinterService.step]. rewrite Hn. cbn [PrinterService.resume].
    change (state (set_awaiting ?a ?x)) with (state x).
    rewrite state_updateState. repeat split.
  - intros outcome message Ho. cbv zeta. cbn [PrinterService.step]. rewrite Hn.
    assert (E : resume generateKOT generateInvoice generateBarcodeLabel Platform_OS_web
                  (connect_at_adapter config) outcome
                  (set_awaiting (remove_nth n (awaiting w)) w)
                = connect_catch message (set_awaiting (remove_nth n (awaiting w)) w)).
    { destruct Ho as [[-> ->]| ->]; reflexivity. }
    rewrite E. unfold connect_catch.
    change (state (emit ?e ?x)) with (state x).
    change (queue (emit ?e ?x)) with (queue x).
    rewrite state_updateState, queue_updateState, started_emit, started_updateState.
    cbn [or_else status' connectedPrinter' lastError' status connectedPrinter lastError].
    repeat split. apply List.app_nil_r.
Qed.

(** X18.  [disconnect] with no connected printer does nothing.  With a
    connected printer it ends, whether the adapter has disconnected or
    has thrown, with the status [disconnected] and no connected
    printer; the jobs and the queue are left as they are, so the jobs
    that were waiting are still queued. *)
Theorem disconnect_ends_disconnected :
  forall w : World,
    (connectedPrinter (state w) = None -> step w call_disconnect = w)
    /\ (forall n outcome,
          List.nth_error (awaiting w) n = Some disconnect_at_adapter ->
          let w' := step w (settles n outcome) in
          status (state w') = PrinterStatus.disconnected
          /\ connectedPrinter (state w') = None
          /\ jobs w' = jobs w
          /\ queue w' = queue w
          /\ started w' = started w
          /\ events w' = events w ++ [state_changed (this_state w'); device_disconnected]).
Proof.
  intros w. split.
  - intros Hn. cbn [PrinterService.step]. unfold disconnect. now rewrite Hn.
  - intros n outcome Hn. cbv zeta. cbn [PrinterService.step]. rewrite Hn.
    cbn [PrinterService.resume].
    change (state (emit ?e ?x)) with (state x).
    change (queue (emit ?e ?x)) with (queue x).
    rewrite state_updateState, queue_updateState, started_emit, started_updateState.
    repeat split; try reflexivity.
    + apply List.app_nil_r.
    + unfold updateState, emit. simpl. now rewrite <- List.app_assoc.
Qed.

End Queue.

(* ================================================================== *)
(** * [clearQueue] while a job is being sent *)
(* ================================================================== *)

Section Clearing.
Import JS Types PrinterService Spec.
Local Open Scope Z_scope.

Variable Payload : Type.
Variables KOT_data INVOICE_data BARCODE_data : Payload -> PaperWidth -> list Z.
Variable Platform_OS_web : bool.
Variable config : PrinterConfig.t.
Variables type1 type2 : PrintJobType.
Variables payload1 payload2 : Payload.
Variables jobId1 jobId2 : str.
Variables now1 now2 : Z.

Local Abbreviation run :=
  (run (returning KOT_data) (returning INVOICE_data) (returning BARCODE_data) Platform_OS_web).
Local Abbreviation cleared :=
  (clearQueue_during_a_send config type1 payload1 jobId1 now1 type2 payload2 jobId2 now2).

Lemma cleared_queue :
  queue (run initial cleared) = [0%nat]
  /\ job_statuses (run initial cleared) = [JobStatus.printing; JobStatus.pending]
  /\ started (run initial cleared) = [0%nat].
Proof. destruct type1, type2, Platform_OS_web; vm_compute; repeat split. Qed.

Lemma cleared_job_is_started (v : bool) :
  started (run initial (cleared ++ [settles 0 (fulfilled v)])) = [0; 1]%nat
  /\ job_statuses (run initial (cleared ++ [settles 0 (fulfilled v)]))
     = [JobStatus.completed; JobStatus.printing]
  /\ List.length (sent (run initial (cleared ++ [settles 0 (fulfilled v)]))) = 2%nat.
Proof. destruct type1, type2, Platform_OS_web; vm_compute; repeat split. Qed.

End Clearing.

(** X16.  [clearQueue] leaves in the queue the jobs whose status is
    [printing], in their order, and removes the others; it changes no
    job and no suspended call.  It does not cancel a job that a drain
    of the queue has already collected: when two jobs were pending at
    the start of a drain and [clearQueue] is called during the send of
    the first, the second is no longer in the queue, and it is started
    and sent all the same when the send of the first has succeeded. *)
Theorem clearQueue_cancels_no_collected_job :
  forall (Payload : Type) (Platform_OS_web : bool),
    (forall (generateKOT generateInvoice generateBarcodeLabel :
               Payload -> Types.PaperWidth -> JS.completion (list Z))
            (inputs : list (PrinterService.Input Payload)),
       let run := PrinterService.run generateKOT generateInvoice generateBarcodeLabel
                    Platform_OS_web in
       PrinterService.queue (run PrinterService.initial (inputs ++ [PrinterService.call_clearQueue]))
       = List.filter (PrinterService.job_status_is (run PrinterService.initial inputs)
                        Types.JobStatus.printing)
           (PrinterService.queue (run PrinterService.initial inputs))
       /\ PrinterService.jobs (run PrinterService.initial (inputs ++ [PrinterService.call_clearQueue]))
          = PrinterService.jobs (run PrinterService.initial inputs)
       /\ PrinterService.awaiting
            (run PrinterService.initial (inputs ++ [PrinterService.call_clearQueue]))
          = PrinterService.awaiting (run PrinterService.initial inputs))
    /\ (forall (KOT_data INVOICE_data BARCODE_data : Payload -> Types.PaperWidth -> list Z)
               config type1 payload1 jobId1 now1 type2 payload2 jobId2 now2 (v : bool),
          let run := PrinterService.run (PrinterService.returning KOT_data)
                       (PrinterService.returning INVOICE_data)
                       (PrinterService.returning BARCODE_data) Platform_OS_web in
          let cleared :=
            Spec.clearQueue_during_a_send config type1 payload1 jobId1 now1
              type2 payload2 jobId2 now2 in
          PrinterService.queue (run PrinterService.initial cleared) = [0%nat]
          /\ PrinterService.job_statuses (run PrinterService.initial cleared)
             = [Types.JobStatus.printing; Types.JobStatus.pending]
          /\ PrinterService.started
               (run PrinterService.initial
                  (cleared ++ [PrinterService.settles 0 (PrinterService.fulfilled v)]))
             = [0; 1]%nat
          /\ PrinterService.job_statuses
               (run PrinterService.initial
                  (cleared ++ [PrinterService.settles 0 (PrinterService.fulfilled v)]))
             = [Types.JobStatus.completed; Types.JobStatus.printing]
          /\ List.length
               (PrinterService.sent
                  (run PrinterService.initial
                     (cleared ++ [PrinterService.settles 0 (PrinterService.fulfilled v)])))
             = 2%nat).
Proof.
  intros Payload web. split.
  - intros gK gI gB inputs run. unfold run. rewrite run_app, run_one.
    destruct (clearQueue_keeps_the_printing gK gI gB web inputs) as (Hq & _ & Hj & Ha).
    repeat split; assumption.
  - intros dk di db config type1 payload1 jobId1 now1 type2 payload2 jobId2 now2 v.
    cbv zeta.
    destruct (cleared_queue dk di db web config type1 type2 payload1 payload2
                jobId1 jobId2 now1 now2) as (Hq & Hs & _).
    destruct (cleared_job_is_started dk di db web config type1 type2 payload1 payload2
                jobId1 jobId2 now1 now2 v) as (Hst & Hjs & Hsent).
    repeat split; assumption.
Qed.

(* ================================================================== *)
(** * Runs of the orchestrator of the shop *)
(* ================================================================== *)


Lemma a_submitted_job_keeps_what_it_was_submitted_with_witness :
  let run := PrinterService.run Spec.shop_generateKOT Spec.shop_generateInvoice
               Spec.shop_generateBarcodeLabel false in
  let before :=
    [PrinterService.call_addPrintJob Types.KOT (PrinterApp.invoice_document Spec.lunch_order)
       (JS.lit "job_1700000000000_k3x9") 1700000000000%Z] in
  let after :=
    [PrinterService.call_connect Spec.kitchen_printer;
     PrinterService.settles 0 (PrinterService.fulfilled true);
     PrinterService.settles 0 (PrinterService.fulfilled true);
     PrinterService.settles 0 (PrinterService.fulfilled true);
     PrinterService.settles 0 (PrinterService.rejected None)] in
  let job :=
    PrinterService.pending_job (JS.lit "job_1700000000000_k3x9") Types.KOT
      (PrinterApp.invoice_document Spec.lunch_order) 1700000000000%Z in
  PrinterService.job_at (run PrinterService.initial before) 0%nat = Some job
  /\ exists j',
       PrinterService.job_at (run PrinterService.initial (before ++ after)) 0%nat = Some j'
       /\ Types.PrintJob.payload j' = Types.PrintJob.payload job.
Proof.
  intros run before after job.
  pose proof (a_submitted_job_keeps_what_it_was_submitted_with
                Spec.shop_generateKOT Spec.shop_generateInvoice
                Spec.shop_generateBarcodeLabel false before after 0%nat (j := job)) as H.
  fold run in H.
  assert (Hj : PrinterService.job_at (run PrinterService.initial before) 0%nat = Some job)
    by reflexivity.
  revert H Hj.
  generalize (run PrinterService.initial before) (run PrinterService.initial (before ++ after)).
  intros w w' H Hj. split; [exact Hj|].
  destruct (H Hj) as (j' & E & _ & _ & Hp & _).
  exists j'. split; [exact E | exact Hp].
Defined.

Lemma addPrintJob_without_a_printer_only_queues_witness :
  let run := PrinterService.run Spec.shop_generateKOT Spec.shop_generateInvoice
               Spec.shop_generateBarcodeLabel false in
  let step := PrinterService.step Spec.shop_generateKOT Spec.shop_generateInvoice
                Spec.shop_generateBarcodeLabel false in
  PrinterService.status (PrinterService.state (run PrinterService.initial []))
  <> Types.PrinterStatus.connected
  /\ PrinterService.alerts
       (step (run PrinterService.initial [])
          (PrinterService.call_addPrintJob Types.BARCODE_LABEL
             (PrinterApp.barcode_document Spec.tea_label)
             (JS.lit "job_1700000000000_k3x9") 1700000000000%Z))
     = PrinterService.alerts (run PrinterService.initial [])
       ++ [PrinterService.No_Printer_Connected].
Proof.
  intros run step.
  pose proof (addPrintJob_without_a_printer_only_queues
                Spec.shop_generateKOT Spec.shop_generateInvoice Spec.shop_generateBarcodeLabel
                false [] Types.BARCODE_LABEL (PrinterApp.barcode_document Spec.tea_label)
                (JS.lit "job_1700000000000_k3x9") 1700000000000%Z) as H.
  cbv zeta in H. fold run in H. fold step in H.
  assert (Hs : PrinterService.status (PrinterService.state (run PrinterService.initial []))
               <> Types.PrinterStatus.connected) by (vm_compute; discriminate).
  split; [exact Hs|].
  exact (proj2 (proj2 (proj2 (proj2 (proj2 (proj2 (H (or_introl Hs)))))))).
Defined.

Lemma connect_ends_connected_or_in_error_witness :
  let step := PrinterService.step Spec.shop_generateKOT Spec.shop_generateInvoice
                Spec.shop_generateBarcodeLabel false in
  let w := step PrinterService.initial (PrinterService.call_connect Spec.kitchen_printer) in
  List.nth_error (PrinterService.awaiting w) 0
  = Some (PrinterService.connect_at_adapter Spec.kitchen_printer)
  /\ PrinterService.connectedPrinter
       (PrinterService.state (step w (PrinterService.settles 0 (PrinterService.fulfilled true))))
     = Some Spec.kitchen_printer
  /\ PrinterService.lastError
       (PrinterService.state
          (step w (PrinterService.settles 0
                     (PrinterService.rejected (Some (JS.lit "Connection timeout"))))))
     = Some (PrinterService.message_or (Some (JS.lit "Connection timeout"))
               (JS.lit "Connection failed")).
Proof.
  intros step w.
  assert (Hn : List.nth_error (PrinterService.awaiting w) 0
               = Some (PrinterService.connect_at_adapter Spec.kitchen_printer))
    by reflexivity.
  pose proof (connect_ends_connected_or_in_error
                Spec.shop_generateKOT Spec.shop_generateInvoice Spec.shop_generateBarcodeLabel
                false w 0 Hn) as H.
  cbv zeta in H. fold step in H. destruct H as [Hok Hfail].
  split; [exact Hn|]. split.
  - exact (proj1 (proj2 Hok)).
  - exact (proj1 (proj2 (Hfail (PrinterService.rejected (Some (JS.lit "Connection timeout")))
                           (Some (JS.lit "Connection timeout")) (or_intror eq_refl)))).
Defined.

Lemma disconnect_ends_disconnected_witness :
  let step := PrinterService.step Spec.shop_generateKOT Spec.shop_generateInvoice
                Spec.shop_generateBarcodeLabel false in
  let run := PrinterService.run Spec.shop_generateKOT Spec.shop_generateInvoice
               Spec.shop_generateBarcodeLabel false in
  let w := run PrinterService.initial
             [PrinterService.call_connect Spec.kitchen_printer;
              PrinterService.settles 0 (PrinterService.fulfilled true);
              PrinterService.settles 0 (PrinterService.fulfilled true);
              PrinterService.settles 0 (PrinterService.fulfilled true);
              PrinterService.call_disconnect] in
  step PrinterService.initial PrinterService.call_disconnect = PrinterService.initial
  /\ List.nth_error (PrinterService.awaiting w) 0 = Some PrinterService.disconnect_at_adapter
  /\ PrinterService.connectedPrinter
       (PrinterService.state
          (step w (PrinterService.settles 0
                     (PrinterService.rejected (Some (JS.lit "Socket error"))))))
     = None.
Proof.
  intros step run w.
  assert (Hn : List.nth_error (PrinterService.awaiting w) 0
               = Some PrinterService.disconnect_at_adapter) by (vm_compute; reflexivity).
  pose proof (disconnect_ends_disconnected
                Spec.shop_generateKOT Spec.shop_generateInvoice Spec.shop_generateBarcodeLabel
                false w) as [_ H].
  pose proof (disconnect_ends_disconnected
                Spec.shop_generateKOT Spec.shop_generateInvoice Spec.shop_generateBarcodeLabel
                false PrinterService.initial) as [H0 _].
  cbv zeta in H. fold step in H, H0.
  specialize (H 0%nat (PrinterService.rejected (Some (JS.lit "Socket error")))).
  revert Hn H. generalize w. intros w0 Hn H.
  split; [exact (H0 eq_refl)|]. split; [exact Hn|].
  exact (proj1 (proj2 (H Hn))).
Defined.

(* ================================================================== *)
(** * The USB adapter *)
(* ================================================================== *)

Section USBAdapter.
Import JS Types USBPrinter Spec.
Local Open Scope Z_scope.

Lemma base64_digits :
  List.forallb
    (fun k => (base64_value (base64_digit (Z.of_nat k)) =? Z.of_nat k)
              && negb (char_eqb (base64_digit (Z.of_nat k)) PAD)
              && List.existsb (char_eqb (base64_digit (Z.of_nat k))) BASE64)
    (List.seq 0 64) = true.
Proof. vm_compute. reflexivity. Qed.

Lemma base64_digit_spec (n : Z) :
  0 <= n < 64 ->
  base64_value (base64_digit n) = n
  /\ char_eqb (base64_digit n) PAD = false
  /\ List.In (base64_digit n) BASE64.
Proof.
  intros Hn. pose proof base64_digits as H. rewrite List.forallb_forall in H.
  specialize (H (Z.to_nat n)). rewrite Z2Nat.id in H by lia.
  assert (Hin : List.In (Z.to_nat n) (List.seq 0 64)) by (apply List.in_seq; lia).
  specialize (H Hin). apply andb_true_iff in H. destruct H as [H Hex].
  apply andb_true_iff in H. destruct H as [Hv Hp].
  split; [now apply Z.eqb_eq|]. split; [now apply negb_true_iff|].
  apply List.existsb_exists in Hex. destruct Hex as (c & Hc & E).
  apply N.eqb_eq in E. now rewrite E.
Qed.

Lemma base64_decodes (n : nat) :
  forall bytes : list Z,
    (List.length bytes <= n)%nat -> List.Forall is_byte bytes ->
    base64_bytes n (base64 bytes) = bytes
    /\ length (base64 bytes) = 4 * ((Z.of_nat (List.length bytes) + 2) / 3)
    /\ base64_text (base64 bytes).
Proof.
  unfold is_byte, base64_text.
  induction n as [|n IH]; intros bytes Hn Hb.
  - destruct bytes; [|simpl in Hn; lia]. repeat split. constructor.
  - destruct bytes as [|a [|b [|c rest]]].
    + repeat split. constructor.
    + inversion Hb as [|? ? Ha _]; subst.
      destruct (@base64_digit_spec (a / 4)) as (V1 & P1 & I1);
        [Z.div_mod_to_equations; lia|].
      destruct (@base64_digit_spec (a mod 4 * 16)) as (V2 & P2 & I2);
        [Z.div_mod_to_equations; lia|].
      split; [|split].
      * cbn [base64 base64_bytes]. rewrite V1, V2. cbn. f_equal.
        Z.div_mod_to_equations; lia.
      * reflexivity.
      * cbn [base64].
        repeat (apply List.Forall_cons;
                [first [left; assumption | right; reflexivity]|]).
        constructor.
    + inversion Hb as [|? ? Ha Hb']; subst. inversion Hb' as [|? ? Hb0 _]; subst.
      destruct (@base64_digit_spec (a / 4)) as (V1 & P1 & I1);
        [Z.div_mod_to_equations; lia|].
      destruct (@base64_digit_spec (a mod 4 * 16 + b / 16)) as (V2 & P2 & I2);
        [Z.div_mod_to_equations; lia|].
      destruct (@base64_digit_spec (b mod 16 * 4)) as (V3 & P3 & I3);
        [Z.div_mod_to_equations; lia|].
      split; [|split].
      * cbn [base64 base64_bytes]. rewrite V1, V2, V3, P3. cbn.
        f_equal; [|f_equal]; Z.div_mod_to_equations; lia.
      * reflexivity.
      * cbn [base64].
        repeat (apply List.Forall_cons;
                [first [left; assumption | right; reflexivity]|]).
        constructor.
    + inversion Hb as [|? ? Ha Hb']; subst. inversion Hb' as [|? ? Hb0 Hb'']; subst.
      inversion Hb'' as [|? ? Hc Hrest]; subst. cbn [List.length] in Hn.
      destruct (@base64_digit_spec (a / 4)) as (V1 & P1 & I1);
        [Z.div_mod_to_equations; lia|].
      destruct (@base64_digit_spec (a mod 4 * 16 + b / 16)) as (V2 & P2 & I2);
        [Z.div_mod_to_equations; lia|].
      destruct (@base64_digit_spec (b mod 16 * 4 + c / 64)) as (V3 & P3 & I3);
        [Z.div_mod_to_equations; lia|].
      destruct (@base64_digit_spec (c mod 64)) as (V4 & P4 & I4);
        [Z.div_mod_to_equations; lia|].
      destruct (IH rest ltac:(lia) Hrest) as (Hd & Hl & Ht).
      split; [|split].
      * cbn [base64 base64_bytes]. rewrite V1, V2, V3, V4, P3, P4, Hd.
        f_equal; [|f_equal; [|f_equal]]; Z.div_mod_to_equations; lia.
      * cbn [base64]. unfold length in *. cbn [List.length] in *.
        rewrite !Nat2Z.inj_succ. rewrite Hl.
        Z.div_mod_to_equations; lia.
      * cbn [base64]. repeat (apply List.Forall_cons; [left; assumption|]). exact Ht.
Qed.

Lemma binary_of_bytes (data : list Z) :
  List.Forall is_byte data ->
  List.forallb (fun c => (c <? 256)%N) (List.map fromCharCode data) = true
  /\ List.map Z.of_N (List.map fromCharCode data) = data.
Proof.
  unfold is_byte, fromCharCode.
  induction 1 as [|b data Hb _ [IH1 IH2]]; [split; reflexivity|].
  cbn [List.map List.forallb]. rewrite IH1, IH2.
  rewrite Z.mod_small by lia. rewrite Z2N.id by lia.
  split; [|reflexivity]. apply andb_true_iff. split; [|reflexivity].
  apply N.ltb_lt. lia.
Qed.

(** X19.  For an array of bytes [uint8ArrayToBase64] never throws, and
    the text it gives has four characters for every three bytes, the
    last three rounded up; its characters are those of the base64
    alphabet and the padding [=]; and it stands for the bytes of the
    array and no others: decoded, it gives the array back. *)
Theorem uint8ArrayToBase64_gives_the_bytes_back :
  forall data : list Z,
    List.Forall is_byte data ->
    exists text : str,
      uint8ArrayToBase64 data = Normal text
      /\ length text = 4 * ((Z.of_nat (List.length data) + 2) / 3)
      /\ List.Forall (fun c => List.In c BASE64 \/ c = PAD) text
      /\ base64_bytes (List.length data) text = data.
Proof.
  intros data Hb. destruct (binary_of_bytes Hb) as [Hf Hm].
  exists (base64 data). unfold uint8ArrayToBase64, btoa. rewrite Hf, Hm.
  destruct (@base64_decodes (List.length data) data (le_n _) Hb) as (Hd & Hl & Ht).
  split; [reflexivity|]. split; [exact Hl|]. split; [exact Ht | exact Hd].
Qed.

Lemma uint8ArrayToBase64_gives_the_bytes_back_witness :
  uint8ArrayToBase64 [27; 64; 72; 105; 10] = Normal (lit "G0BIaQo=")
  /\ base64_bytes 5 (lit "G0BIaQo=") = [27; 64; 72; 105; 10].
Proof.
  destruct (@uint8ArrayToBase64_gives_the_bytes_back [27; 64; 72; 105; 10])
    as (text & E & _ & _ & Hd).
  - repeat constructor; discriminate.
  - assert (Et : text = lit "G0BIaQo=").
    { assert (E' : uint8ArrayToBase64 [27; 64; 72; 105; 10] = Normal (lit "G0BIaQo="))
        by reflexivity.
      rewrite E in E'. now inversion E'. }
    rewrite <- Et. split; [exact E | exact Hd].
Defined.

(** ** The state of the adapter *)

Lemma USB_consistent_perform (this : t) (op : operation) :
  USB_consistent this -> USB_consistent (perform this op).
Proof.
  unfold USB_consistent. intros H.
  destruct op as [android loaded|deviceId opened|closed]; cbn [perform].
  - unfold initializeLibrary. destruct android; [|exact H]. destruct loaded; [|exact H].
    exact H.
  - unfold connect. destruct (USBSerial this); [|exact H]. cbn [negb].
    destruct opened; cbn [fst isConnected connectedDevice].
    + split; [discriminate | reflexivity].
    + split; [discriminate | intros E; now elim E].
  - unfold disconnect. destruct (negb (USBSerial this) || negb (isConnected this)); [exact H|].
    destruct closed; cbn [isConnected connectedDevice];
      (split; [discriminate | intros E; now elim E]).
Qed.

(** X20.  Whatever is called on the USB adapter, and however the calls
    of the library settle, the adapter says it is connected exactly
    when it holds a device.  [sendRawData] hands a text to the library
    only while the adapter is connected, and the text is the base64
    text of the data; after a [connect] whose [open] was rejected it
    throws. *)
Theorem the_USB_adapter_is_connected_when_it_has_a_device :
  forall ops : list operation,
    let this := List.fold_left perform ops new in
    USB_consistent this
    /\ (forall data written text,
          sendRawData data written this = Normal text ->
          isConnected this = true /\ connectedDevice this <> None
          /\ uint8ArrayToBase64 data = Normal text)
    /\ (forall deviceId e data written,
          returns (sendRawData data written
                     (fst (connect deviceId (Throw e) this))) = false).
Proof.
  intros ops this.
  assert (Hc : USB_consistent this).
  { unfold this.
    assert (H0 : USB_consistent new) by (split; [discriminate | intros E; now elim E]).
    revert H0. generalize new.
    induction ops as [|op ops IH]; intros a Ha; [exact Ha|].
    simpl. apply IH. now apply USB_consistent_perform. }
  split; [exact Hc|]. split.
  - intros data written text. unfold sendRawData.
    destruct (USBSerial this); [|discriminate]. cbn [negb].
    destruct (isConnected this) eqn:Ei; [|discriminate]. cbn [negb].
    destruct (uint8ArrayToBase64 data) as [t'|e]; [|discriminate].
    destruct written; [|discriminate]. intros E. inversion E; subst.
    split; [reflexivity|]. split; [|reflexivity]. now apply Hc.
  - intros deviceId e data written. unfold connect, sendRawData.
    destruct (USBSerial this) eqn:Eu; cbn [negb fst USBSerial isConnected];
      rewrite ?Eu; reflexivity.
Qed.

Lemma the_USB_adapter_is_connected_when_it_has_a_device_witness :
  let this :=
    List.fold_left perform
      [op_initializeLibrary true true; op_connect (Some 1002) (Normal tt)] new in
  sendRawData [27; 64] (Normal tt) this = Normal (lit "G0A=")
  /\ isConnected this = true.
Proof.
  intros this.
  assert (E : sendRawData [27; 64] (Normal tt) this = Normal (lit "G0A=")) by reflexivity.
  split; [exact E|].
  exact (proj1 (proj1 (proj2 (the_USB_adapter_is_connected_when_it_has_a_device
                                [op_initializeLibrary true true;
                                 op_connect (Some 1002) (Normal tt)]))
                  [27; 64] (Normal tt) (lit "G0A=") E)).
Defined.

End USBAdapter.

(* ================================================================== *)
(** * Connections: from the configuration to the adapter *)
(* ================================================================== *)

Section Dialling.
Import JS Types Connections Spec.
Local Open Scope Z_scope.

(** ** Decimal texts *)

Lemma digits_digit (k : Z) (rest : str) (read : option Z) :
  0 <= k <= 9 ->
  digits 10 (Z.to_N (48 + k) :: rest) read
  = digits 10 rest (Some (match read with Some n => n | None => 0 end * 10 + k)).
Proof.
  intros Hk. cbn [digits]. unfold digit_value.
  destruct (N.leb_spec 48 (Z.to_N (48 + k))) as [_|H]; [|lia].
  destruct (N.leb_spec (Z.to_N (48 + k)) 57) as [_|H]; [|lia]. cbn [andb].
  rewrite Z2N.id by lia.
  replace (48 + k - 48) with k by lia.
  destruct (Z.ltb_spec k 10) as [_|H]; [reflexivity | lia].
Qed.

Ltac first_digit :=
  match goal with
  | |- context [decimal (Decimal.D0 ?d)] =>
      change (decimal (Decimal.D0 d)) with (Z.to_N (48 + 0) :: decimal d)
  | |- context [decimal (Decimal.D1 ?d)] =>
      change (decimal (Decimal.D1 d)) with (Z.to_N (48 + 1) :: decimal d)
  | |- context [decimal (Decimal.D2 ?d)] =>
      change (decimal (Decimal.D2 d)) with (Z.to_N (48 + 2) :: decimal d)
  | |- context [decimal (Decimal.D3 ?d)] =>
      change (decimal (Decimal.D3 d)) with (Z.to_N (48 + 3) :: decimal d)
  | |- context [decimal (Decimal.D4 ?d)] =>
      change (decimal (Decimal.D4 d)) with (Z.to_N (48 + 4) :: decimal d)
  | |- context [decimal (Decimal.D5 ?d)] =>
      change (decimal (Decimal.D5 d)) with (Z.to_N (48 + 5) :: decimal d)
  | |- context [decimal (Decimal.D6 ?d)] =>
      change (decimal (Decimal.D6 d)) with (Z.to_N (48 + 6) :: decimal d)
  | |- context [decimal (Decimal.D7 ?d)] =>
      change (decimal (Decimal.D7 d)) with (Z.to_N (48 + 7) :: decimal d)
  | |- context [decimal (Decimal.D8 ?d)] =>
      change (decimal (Decimal.D8 d)) with (Z.to_N (48 + 8) :: decimal d)
  | |- context [decimal (Decimal.D9 ?d)] =>
      change (decimal (Decimal.D9 d)) with (Z.to_N (48 + 9) :: decimal d)
  end;
  rewrite <- List.app_comm_cons, digits_digit by lia.

Lemma digits_decimal_acc (d : Decimal.uint) :
  forall (acc : positive) (tail : str),
    digits 10 (decimal d ++ tail) (Some (Z.pos acc))
    = digits 10 tail (Some (Z.pos (Pos.of_uint_acc d acc))).
Proof.
  induction d; intros acc tail; [reflexivity| ..];
    first_digit; cbn [Pos.of_uint_acc]; rewrite <- IHd; do 2 f_equal; lia.
Qed.

Lemma digits_decimal (d : Decimal.uint) :
  forall tail : str,
    digits 10 (decimal d ++ tail) (Some 0) = digits 10 tail (Some (Z.of_N (Pos.of_uint d))).
Proof.
  induction d; intros tail; [reflexivity| ..]; first_digit; cbn [Pos.of_uint Z.of_N].
  - apply IHd.
  - apply (digits_decimal_acc d 1).
  - apply (digits_decimal_acc d 2).
  - apply (digits_decimal_acc d 3).
  - apply (digits_decimal_acc d 4).
  - apply (digits_decimal_acc d 5).
  - apply (digits_decimal_acc d 6).
  - apply (digits_decimal_acc d 7).
  - apply (digits_decimal_acc d 8).
  - apply (digits_decimal_acc d 9).
Qed.

(** The text of a decimal number that is not empty starts with a digit. *)
Lemma decimal_head (d : Decimal.uint) :
  d <> Decimal.Nil ->
  exists k rest, 0 <= k <= 9 /\ decimal d = Z.to_N (48 + k) :: rest.
Proof.
  intros Hd. destruct d; [now elim Hd| ..].
  - exists 0, (decimal d). split; [lia | reflexivity].
  - exists 1, (decimal d). split; [lia | reflexivity].
  - exists 2, (decimal d). split; [lia | reflexivity].
  - exists 3, (decimal d). split; [lia | reflexivity].
  - exists 4, (decimal d). split; [lia | reflexivity].
  - exists 5, (decimal d). split; [lia | reflexivity].
  - exists 6, (decimal d). split; [lia | reflexivity].
  - exists 7, (decimal d). split; [lia | reflexivity].
  - exists 8, (decimal d). split; [lia | reflexivity].
  - exists 9, (decimal d). split; [lia | reflexivity].
Qed.

Lemma decimal_is_digits (d : Decimal.uint) :
  List.Forall (fun c => (48 <= c <= 57)%N) (decimal d).
Proof.
  induction d; [constructor| ..];
    (apply List.Forall_cons; [vm_compute; split; discriminate | exact IHd]).
Qed.

(** [parseInt] on a text that starts with a digit: no white space, no
    sign and no prefix are taken off. *)
Lemma parseInt_digits (s : str) :
  (exists k rest, 0 <= k <= 9 /\ s = Z.to_N (48 + k) :: rest) ->
  List.Forall (fun c => (48 <= c <= 57)%N) s ->
  parseInt s = digits 10 s None.
Proof.
  intros (k & rest & Hk & ->) Hs. unfold parseInt.
  assert (Hw : is_whitespace (Z.to_N (48 + k)) = false).
  { assert (E : exists n, (48 <= n <= 57)%N /\ Z.to_N (48 + k) = n)
      by (exists (Z.to_N (48 + k)); split; [lia | reflexivity]).
    destruct E as (n & Hn & ->). unfold is_whitespace.
    repeat match goal with
           | |- context [(?a <=? ?b)%N] => destruct (N.leb_spec a b); try lia
           | |- context [(?a =? ?b)%N] => destruct (N.eqb_spec a b); try lia
           end; reflexivity. }
  cbn [trimStart]. rewrite Hw.
  destruct (N.eqb_spec (Z.to_N (48 + k)) 45) as [E|_]; [lia|].
  destruct (N.eqb_spec (Z.to_N (48 + k)) 43) as [E|_]; [lia|]. cbn [orb].
  destruct rest as [|x rest]; [reflexivity|].
  inversion Hs as [|? ? _ Hrest]; subst. inversion Hrest as [|? ? Hx _]; subst.
  destruct (N.eqb_spec x 120) as [E|_]; [lia|].
  destruct (N.eqb_spec x 88) as [E|_]; [lia|]. cbn [orb].
  now rewrite andb_false_r.
Qed.

Lemma digits_first (d : Decimal.uint) :
  d <> Decimal.Nil -> digits 10 (decimal d) None = digits 10 (decimal d) (Some 0).
Proof.
  intros Hd. destruct (decimal_head Hd) as (k & rest & Hk & ->).
  now rewrite !digits_digit by exact Hk.
Qed.

Lemma parseInt_decimal (d : Decimal.uint) :
  d <> Decimal.Nil -> parseInt (decimal d) = Some (Z.of_N (Pos.of_uint d)).
Proof.
  intros Hd. rewrite parseInt_digits.
  - rewrite digits_first by exact Hd.
    rewrite <- (List.app_nil_r (decimal d)), digits_decimal. reflexivity.
  - now apply decimal_head.
  - apply decimal_is_digits.
Qed.

Lemma toString_pos (p : positive) :
  IntegerNumbers.toString (Some (Z.pos p)) = decimal (Pos.to_uint p).
Proof.
  unfold IntegerNumbers.toString, decimal. cbn [Z.to_int DecimalString.NilZero.string_of_int].
  unfold DecimalString.NilZero.string_of_uint.
  pose proof (DecimalPos.Unsigned.to_uint_nonnil p) as Hn.
  now destruct (Pos.to_uint p).
Qed.

Lemma toString_neg (p : positive) :
  IntegerNumbers.toString (Some (Z.neg p)) = 45%N :: decimal (Pos.to_uint p).
Proof.
  unfold IntegerNumbers.toString, decimal. cbn [Z.to_int DecimalString.NilZero.string_of_int].
  unfold DecimalString.NilZero.string_of_uint.
  pose proof (DecimalPos.Unsigned.to_uint_nonnil p) as Hn.
  now destruct (Pos.to_uint p).
Qed.

Lemma parseInt_negative (s : str) (z : Z) :
  (exists k rest, 0 <= k <= 9 /\ s = Z.to_N (48 + k) :: rest) ->
  parseInt s = Some z -> parseInt (45%N :: s) = Some (- z).
Proof.
  intros (k & rest & Hk & ->). unfold parseInt.
  assert (Hw : is_whitespace (Z.to_N (48 + k)) = false).
  { assert (E : exists n, (48 <= n <= 57)%N /\ Z.to_N (48 + k) = n)
      by (exists (Z.to_N (48 + k)); split; [lia | reflexivity]).
    destruct E as (n & Hn & ->). unfold is_whitespace.
    repeat match goal with
           | |- context [(?a <=? ?b)%N] => destruct (N.leb_spec a b); try lia
           | |- context [(?a =? ?b)%N] => destruct (N.eqb_spec a b); try lia
           end; reflexivity. }
  cbn [trimStart]. rewrite Hw.
  change (is_whitespace 45%N) with false. cbv iota.
  change ((45 =? 45)%N) with true. cbn [orb].
  destruct (N.eqb_spec (Z.to_N (48 + k)) 45) as [E|_]; [lia|].
  destruct (N.eqb_spec (Z.to_N (48 + k)) 43) as [E|_]; [lia|]. cbn [orb].
  intros E. rewrite E. reflexivity.
Qed.

(** [parseInt(String(x))] is [x], for every integer and for NaN. *)
Lemma parseInt_toString (x : IntegerNumbers.t) :
  parseInt (IntegerNumbers.toString x) = x.
Proof.
  destruct x as [[|p|p]|]; [reflexivity| | |reflexivity].
  - rewrite toString_pos, parseInt_decimal by apply DecimalPos.Unsigned.to_uint_nonnil.
    now rewrite DecimalPos.Unsigned.of_to.
  - rewrite toString_neg.
    rewrite (@parseInt_negative (decimal (Pos.to_uint p)) (Z.pos p)); [reflexivity| |].
    + apply decimal_head. apply DecimalPos.Unsigned.to_uint_nonnil.
    + rewrite parseInt_decimal by apply DecimalPos.Unsigned.to_uint_nonnil.
      now rewrite DecimalPos.Unsigned.of_to.
Qed.

(** ** The parts of an address *)

Lemma split_whole (c : char) (a : str) : ~ List.In c a -> split c a = [a].
Proof.
  induction a as [|x a IH]; intros Hn; [reflexivity|]. simpl.
  unfold char_eqb. destruct (N.eqb_spec x c) as [->|_]; [elim Hn; now left|].
  rewrite IH; [reflexivity|]. intros H. apply Hn. now right.
Qed.

Lemma split_at_first (c : char) (a b : str) :
  ~ List.In c a -> split c (a ++ c :: b) = a :: split c b.
Proof.
  induction a as [|x a IH]; intros Hn; simpl.
  - unfold char_eqb. now rewrite N.eqb_refl.
  - unfold char_eqb. destruct (N.eqb_spec x c) as [->|_]; [elim Hn; now left|].
    rewrite IH; [reflexivity|]. intros H. apply Hn. now right.
Qed.

Lemma split_head (c : char) (s : str) :
  exists a rest, split c s = a :: rest /\ ~ List.In c a.
Proof.
  induction s as [|x s (a & rest & E & Hn)]; simpl.
  - exists [], []. split; [reflexivity | intros []].
  - unfold char_eqb. destruct (N.eqb_spec x c) as [->|Hx].
    + exists [], (split c s). split; [reflexivity | intros []].
    + rewrite E. exists (x :: a), rest. split; [reflexivity|].
      intros [H|H]; [now apply Hx | now apply Hn].
Qed.

Lemma toString_has_no_colon (x : IntegerNumbers.t) :
  ~ List.In 58%N (IntegerNumbers.toString x).
Proof.
  assert (Hd : forall d, ~ List.In 58%N (decimal d)).
  { intros d H. pose proof (decimal_is_digits d) as Hf.
    rewrite List.Forall_forall in Hf. specialize (Hf _ H). lia. }
  destruct x as [[|p|p]|].
  - vm_compute. intuition discriminate.
  - rewrite toString_pos. apply Hd.
  - rewrite toString_neg. intros [H|H]; [discriminate | now apply (Hd _ H)].
  - vm_compute. intuition discriminate.
Qed.

Lemma replace_all_removes (c : char) (s : str) : ~ List.In c (replace_all c [] s).
Proof.
  unfold replace_all. intros H. apply List.in_flat_map in H. destruct H as (x & _ & H).
  unfold char_eqb in H. destruct (N.eqb_spec x c) as [E|Hx]; [contradiction|].
  destruct H as [E|[]]. now apply Hx.
Qed.




(** X23.  [getAvailableMethods] never offers USB outside Android and
    never offers Bluetooth on the web; on Android and on iOS it always
    offers a method, the fallback list when no library is loaded; where
    neither holds and the network library is not loaded it offers
    none.  No method is offered twice. *)
Theorem getAvailableMethods_by_platform :
  forall (OS : Platform_OS) (bluetooth_loaded usb_loaded network_loaded : bool),
    let methods := getAvailableMethods OS bluetooth_loaded usb_loaded network_loaded in
    (List.In usb methods -> OS = android)
    /\ (List.In bluetooth methods -> OS <> web)
    /\ (OS = android \/ OS = ios -> methods <> [])
    /\ (OS <> android -> OS <> ios -> network_loaded = false ->
        bluetooth_loaded = false \/ OS = web -> methods = [])
    /\ List.NoDup methods
    /\ ~ List.In wifi methods.
Proof.
  intros OS b u n methods. unfold methods.
  destruct OS, b, u, n; vm_compute;
    (split; [|split; [|split; [|split; [|split]]]]);
    try (intros; intuition (try discriminate; try congruence; fail));
    try (repeat constructor; simpl; intuition discriminate).
Qed.

Lemma getAvailableMethods_by_platform_witness :
  getAvailableMethods ios false false false = [bluetooth; network]
  /\ getAvailableMethods ios false false false <> []
  /\ getAvailableMethods web true false false = [].
Proof.
  split; [reflexivity|]. split.
  - apply (getAvailableMethods_by_platform ios false false false). now right.
  - apply (getAvailableMethods_by_platform web true false false);
      [discriminate | discriminate | reflexivity | now right].
Defined.

End Dialling.

(* ================================================================== *)
(** * The messages of the WebView *)
(* ================================================================== *)

Section Messages.
Import JS Types PrinterService WebViewMessageHandler.
Local Open Scope Z_scope.

Context {Num : Numbers}.
Variable Date_toLocaleString : str -> str.

Local Abbreviation Document := (@PrinterApp.Document Num).
Local Abbreviation World := (World Document).
Local Abbreviation handleMessage := (handleMessage Date_toLocaleString).

Lemma submitted_addPrintJob (type : PrintJobType) (p : Document) (jobId : str) (now : Z)
  (w : World) :
  WebViewMessageHandler.addPrintJob Date_toLocaleString type p jobId now w
  = (jobId, snd (WebViewMessageHandler.addPrintJob Date_toLocaleString type p jobId now w))
  /\ List.map submitted
       (jobs (snd (WebViewMessageHandler.addPrintJob Date_toLocaleString type p jobId now w)))
     = List.map submitted (jobs w) ++ [(jobId, type, p, now)].
Proof.
  unfold WebViewMessageHandler.addPrintJob, PrinterService.addPrintJob. cbn [snd].
  split; [reflexivity|].
  rewrite submitted_processQueue. simpl. now rewrite List.map_app.
Qed.

Lemma handlePrint_queues (jobType : PrintJobType) (response_type message : str)
  (payload : option Document) (jobId : str) (now : Z) (w : World) (this : t) :
  (jobType = KOT \/ jobType = INVOICE) ->
  exists w' response,
    handlePrint Date_toLocaleString jobType response_type message payload jobId now w this
    = (w', sendResponse response this)
    /\ WebViewMessageHandler.response_type response = response_type
    /\ if Spec.printable jobType payload
       then exists p,
              payload = Some p
              /\ List.map submitted (jobs w')
                 = List.map submitted (jobs w) ++ [(jobId, jobType, p, now)]
              /\ success response = true
              /\ data response = Some (queued jobId message)
              /\ error response = None
       else w' = w
            /\ success response = false
            /\ data response = None
            /\ error response = Some (Spec.nothing_to_print jobType).
Proof.
  intros Hk. unfold handlePrint. destruct payload as [p|].
  - destruct (submitted_addPrintJob jobType p jobId now w) as [E S]. rewrite E.
    eexists _, _. split; [reflexivity|]. split; [reflexivity|].
    replace (Spec.printable jobType (Some p)) with true by (destruct Hk; subst; destruct p; reflexivity).
    exists p. repeat split. exact S.
  - eexists _, _. split; [reflexivity|]. split; [reflexivity|].
    replace (Spec.printable jobType None) with false by (now destruct jobType).
    destruct Hk; subst; repeat split.
Qed.

Lemma handlePrintLabel_queues (jobType : PrintJobType) (response_type message : str)
  (payload : option Document) (jobId : str) (now : Z) (w : World) (this : t) :
  (jobType = BARCODE \/ jobType = BARCODE_LABEL) ->
  exists w' response,
    handlePrintLabel Date_toLocaleString jobType response_type message payload jobId now w this
    = (w', sendResponse response this)
    /\ WebViewMessageHandler.response_type response = response_type
    /\ if Spec.printable jobType payload
       then exists p,
              payload = Some p
              /\ List.map submitted (jobs w')
                 = List.map submitted (jobs w) ++ [(jobId, jobType, p, now)]
              /\ success response = true
              /\ data response = Some (queued jobId message)
              /\ error response = None
       else w' = w
            /\ success response = false
            /\ data response = None
            /\ error response = Some (Spec.nothing_to_print jobType).
Proof.
  intros Hk. unfold handlePrintLabel.
  assert (E : Spec.printable jobType payload = negb (without_sku payload)).
  { destruct payload as [[d|d]|]; destruct Hk; subst; cbn;
      try reflexivity; now rewrite Bool.negb_involutive. }
  rewrite E. destruct (without_sku payload) eqn:W; cbn [negb].
  - eexists _, _. split; [reflexivity|]. split; [reflexivity|].
    destruct Hk; subst; repeat split.
  - destruct payload as [p|]; [|discriminate].
    destruct (submitted_addPrintJob jobType p jobId now w) as [E' S]. rewrite E'.
    eexists _, _. split; [reflexivity|]. split; [reflexivity|].
    exists p. repeat split. exact S.
Qed.

(** X24.  A message of the WebView that asks for a print makes the
    handler build one response, of the type of the message followed by
    _RESPONSE, and hand it to [sendResponse] (which injects it when the
    WebView reference is set).  When the message has a payload (for a
    barcode or a label: a payload with a SKU that is not empty), one job
    of the type the message asks for is added, with that payload, and
    the response is a success with the identifier of the job; otherwise
    the orchestrator is left as it is and the response is a failure with
    the error "No payload provided" (for a barcode or a label:
    "No SKU provided"). *)
Theorem a_print_message_adds_one_job_of_its_type :
  forall (name : str) (jobType : PrintJobType) (payload : option Document)
         (jobId : str) (now : Z) (w : World) (this : t),
    List.In (name, jobType) Spec.print_messages ->
    exists w' response,
      handleMessage (Normal {| type := Some name; payload := payload |}) jobId now w this
      = (w', sendResponse response this, false)
      /\ response_type response = name ++ lit "_RESPONSE"
      /\ if Spec.printable jobType payload
         then exists p message,
                payload = Some p
                /\ List.map submitted (jobs w')
                   = List.map submitted (jobs w) ++ [(jobId, jobType, p, now)]
                /\ success response = true
                /\ data response = Some (queued jobId message)
                /\ error response = None
         else w' = w
              /\ success response = false
              /\ data response = None
              /\ error response = Some (Spec.nothing_to_print jobType).
Proof.
  intros name jobType payload jobId now w this Hin.
  assert (Hcases :
    exists response_type message,
      response_type = name ++ lit "_RESPONSE"
      /\ handleMessage (Normal {| type := Some name; payload := payload |}) jobId now w this
         = (match jobType with
            | KOT | INVOICE => handlePrint Date_toLocaleString jobType
            | BARCODE | BARCODE_LABEL => handlePrintLabel Date_toLocaleString jobType
            end response_type message payload jobId now w this, false)).
  { destruct Hin as [E|[E|[E|[E|[]]]]]; inversion E; subst; clear E;
      eexists _, _; (split; [|reflexivity]); reflexivity. }
  destruct Hcases as (response_type & message & Et & E). rewrite E, <- Et. clear E Et.
  assert (H :
    exists w' response,
      match jobType with
      | KOT | INVOICE => handlePrint Date_toLocaleString jobType
      | BARCODE | BARCODE_LABEL => handlePrintLabel Date_toLocaleString jobType
      end response_type message payload jobId now w this = (w', sendResponse response this)
      /\ WebViewMessageHandler.response_type response = response_type
      /\ if Spec.printable jobType payload
         then exists p,
                payload = Some p
                /\ List.map submitted (jobs w')
                   = List.map submitted (jobs w) ++ [(jobId, jobType, p, now)]
                /\ success response = true
                /\ data response = Some (queued jobId message)
                /\ error response = None
         else w' = w
              /\ success response = false
              /\ data response = None
              /\ error response = Some (Spec.nothing_to_print jobType)).
  { destruct jobType;
      [apply handlePrint_queues | apply handlePrint_queues
       | apply handlePrintLabel_queues | apply handlePrintLabel_queues]; auto. }
  destruct H as (w' & response & E & Hr & H). exists w', response.
  rewrite E. split; [reflexivity|]. split; [exact Hr|].
  destruct (Spec.printable jobType payload); [|exact H].
  destruct H as (p & H). now exists p, message.
Qed.

End Messages.

Lemma a_print_message_adds_one_job_of_its_type_witness :
  let name := JS.lit "PRINT_KOT" in
  let payload := Some (PrinterApp.invoice_document Spec.lunch_order) in
  let jobId := JS.lit "job_1700000000000_k3x9" in
  let now := 1700000000000%Z in
  let w : PrinterService.World PrinterApp.Document := PrinterService.initial in
  let this := {| WebViewMessageHandler.webViewRef_current := true;
                 WebViewMessageHandler.injected := [] |} in
  List.In (name, Types.KOT) Spec.print_messages
  /\ exists w' response,
       WebViewMessageHandler.handleMessage Spec.date_as_given
         (JS.Normal {| WebViewMessageHandler.type := Some name;
                       WebViewMessageHandler.payload := payload |}) jobId now w this
       = (w', WebViewMessageHandler.sendResponse response this, false)
       /\ WebViewMessageHandler.response_type response = (name ++ JS.lit "_RESPONSE")%list
       /\ if Spec.printable Types.KOT payload
          then exists p message,
                 payload = Some p
                 /\ List.map PrinterService.submitted (PrinterService.jobs w')
                    = List.map PrinterService.submitted (PrinterService.jobs w)
                      ++ [(jobId, Types.KOT, p, now)]
                 /\ WebViewMessageHandler.success response = true
                 /\ WebViewMessageHandler.data response
                    = Some (WebViewMessageHandler.queued jobId message)
                 /\ WebViewMessageHandler.error response = None
          else w' = w
               /\ WebViewMessageHandler.success response = false
               /\ WebViewMessageHandler.data response = None
               /\ WebViewMessageHandler.error response
                  = Some (Spec.nothing_to_print Types.KOT).
Proof.
  intros name payload jobId now w this.
  assert (Hin : List.In (name, Types.KOT) Spec.print_messages) by (left; reflexivity).
  split; [exact Hin|].
  exact (@a_print_message_adds_one_job_of_its_type _ Spec.date_as_given name Types.KOT payload
           jobId now w this Hin).
Defined.
